(** * AI-Finance-Manager: the login middleware and the analytics utilities

    A shallow embedding of

      - [financial/middleware.py]  ([RequireLoginMiddleware]),
      - [analytics/ml_utils/transaction_categorizer.py],
      - [analytics/ml_utils/spending_analyzer.py],
      - [analytics/ml_utils/budget_analyzer.py],
      - the analytics request handlers of [analytics/views.py],
      - the savings goals of [financial/models.py],

    followed by the properties stated about them.

    Conventions.

    - Python's [None] is [option]'s [None]; an uncaught exception is the
      [Raised] constructor of [result].
    - [float(tx.amount)] of a [DecimalField] is the exact rational it
      denotes, and float arithmetic is rational arithmetic: rounding,
      signed zeros and overflow are not modelled.  Division by zero is:
      it raises in Python arithmetic ([py_div]) and gives an infinity or
      a NaN in numpy arithmetic ([np_div]).
    - The fitted scikit-learn models, and the random generator, are
      parameters of the functions that call them.
    - Strings are sequences of code points below 256.
    - Dates are within the range of pandas time stamps, so that the
      conversions of [prepare_transaction_data] succeed; [today] stands
      for the date of [timezone.now()], [now] for that of
      [datetime.now()].
    - f-string messages are kept as constructors applied to the values
      they format.
    - A handler's writes reach the database as they are made: no
      transaction wraps a request, so what was saved before an
      exception stays saved. *)

From Stdlib Require Import ZArith QArith Qabs Qpower Lqa Lia Bool List String Ascii.
From Stdlib Require Import Sorting.Sorted Sorting.Permutation.
From Stdlib Require Import Qround.
From stdpp Require Import base option list gmap strings.

Import ListNotations.
Local Open Scope Z_scope.

(** ** Outcomes of Python calls *)

Inductive result (A : Type) : Type :=
| Returned (a : A)
| Raised (exn : string).
Arguments Returned {A} a.
Arguments Raised {A} exn.

(** Truth value of an object reference: [None] is false, an object
    true. *)
Definition truthy {A : Type} (o : option A) : bool :=
  match o with Some _ => true | None => false end.

(** ** [financial/middleware.py] *)

Module Middleware.

(** The two attributes of the request the middleware reads:
    [request.user.is_authenticated], [request.path_info], and
    [request.path] (only copied into the redirect). *)
Record HttpRequest : Type := {
  is_authenticated : bool;
  path_info : string;
  path : string
}.

(** [redirect_to_login(next=..., login_url=...)] *)
Inductive HttpResponse : Type :=
| redirect_to_login (next login_url : string).

Definition exempt_urls : list string :=
  [ "/"; "/accounts/login/"; "/accounts/logout/"; "/accounts/signup/";
    "/admin/login/"; "/admin/logout/"; "/static/"; "/media/";
    "/favicon.ico" ]%string.

(** [s.startswith(p)] *)
Fixpoint startswith (s p : string) {struct p} : bool :=
  match p with
  | EmptyString => true
  | String b p' =>
      match s with
      | EmptyString => false
      | String a s' => Ascii.eqb a b && startswith s' p'
      end
  end.

(** The [for exempt_url in self.exempt_urls] loop: [true] when the loop
    body executed [return None]. *)
Fixpoint exempt_loop (current_path : string) (urls : list string) : bool :=
  match urls with
  | [] => false
  | exempt_url :: rest =>
      if startswith current_path exempt_url then true
      else exempt_loop current_path rest
  end.

(** [process_request]; [login_url] stands for [reverse('login')]. *)
Definition process_request (login_url : string) (request : HttpRequest)
  : option HttpResponse :=
  if is_authenticated request then None
  else
    let current_path := path_info request in
    if exempt_loop current_path exempt_urls then None
    else Some (redirect_to_login (path request) login_url).

(** The exemptions as the documentation lists them: the home page, the
    login, logout and signup pages, the admin login and logout pages,
    anything under the static and media prefixes, and the favicon. *)
Definition documented_exempt (p : string) : bool :=
  String.eqb p "/" || startswith p "/accounts/login/"
  || startswith p "/accounts/logout/" || startswith p "/accounts/signup/"
  || startswith p "/admin/login/" || startswith p "/admin/logout/"
  || startswith p "/static/" || startswith p "/media/"
  || startswith p "/favicon.ico".

End Middleware.

(** ** [financial/models.py]: the records the analytics code reads *)

Module Models.

(** [datetime.date] *)
Record date : Type := {
  year : Z;
  month : Z;
  day : Z
}.

Record Category : Type := {
  category_id : Z;
  category_name : string
}.

(** A [Transaction] object as the analytics code sees it: [category] is
    the related object or [None], [account_name] is [account.name], and
    [transaction_type] is one of ['expense'], ['income'], ['transfer'].
    The columns no analytics code reads ([notes], [receipt], ...) and the
    time stamps the ORM maintains are left out. *)
Record Transaction : Type := {
  id : Z;
  user : Z;
  account_name : string;
  category : option Category;
  amount : Q;
  transaction_type : string;
  tx_date : date;
  description : string;
  ai_categorized : bool
}.

Record Budget : Type := {
  budget_id : Z;
  budget_user : Z;
  budget_category : Category;
  budget_amount : Q;
  start_date : date
}.

(** [UserProfile]: the settings of the AI features. *)
Record UserProfile : Type := {
  profile_user : Z;
  enable_ai_insights : bool;
  enable_ai_categorization : bool;
  anomaly_detection_sensitivity : Q;
  anomaly_min_amount : Q
}.

(** A [User] as the analyzers reach into it: [userprofile] is [None]
    when the attribute access [user.userprofile] raises. *)
Record User : Type := {
  user_id : Z;
  userprofile : option UserProfile
}.

(** *** [datetime.date] arithmetic *)

Definition is_leap (y : Z) : bool :=
  (y mod 4 =? 0) && (negb (y mod 100 =? 0) || (y mod 400 =? 0)).

Definition days_before_year (y : Z) : Z :=
  let y := y - 1 in y * 365 + y / 4 - y / 100 + y / 400.

Definition days_before_month (y m : Z) : Z :=
  nth (Z.to_nat m) [0; 0; 31; 59; 90; 120; 151; 181; 212; 243; 273; 304; 334] 0
  + (if (2 <? m) && is_leap y then 1 else 0).

(** [date.toordinal()] *)
Definition toordinal (d : date) : Z :=
  days_before_year (year d) + days_before_month (year d) (month d) + day d.

(** [date.weekday()]: Monday is 0. *)
Definition weekday (d : date) : Z := (toordinal d + 6) mod 7.

(** [(a - b).days] *)
Definition days_between (a b : date) : Z := toordinal a - toordinal b.

(** The monthly period of a date, [dt.to_period('M')], as the number of
    months since year 0; periods compare and advance as these numbers
    do. *)
Definition to_period (d : date) : Z := year d * 12 + (month d - 1).

(** *** Comparisons of amounts *)

Definition Qltb (a b : Q) : bool := negb (Qle_bool b a).
Definition Qgtb (a b : Q) : bool := Qltb b a.
Definition Qgeb (a b : Q) : bool := Qle_bool b a.

Definition is_expense (tx : Transaction) : bool :=
  String.eqb (transaction_type tx) "expense".

Definition is_income (tx : Transaction) : bool :=
  String.eqb (transaction_type tx) "income".

(** [sum(float(tx.amount) for tx in txs)] *)
Definition sum_amounts (txs : list Transaction) : Q :=
  fold_left (fun acc tx => acc + amount tx)%Q txs 0%Q.

End Models.

(** ** [analytics/ml_utils/transaction_categorizer.py] *)

Module TransactionCategorizer.
Import Models.

(** A scikit-learn [Pipeline] object, by the two members [predict] reads:
    [predict_proba([text])[0]] and [classes_]. *)
Record Pipeline : Type := {
  predict_proba : string -> result (list Q);
  classes_ : list Z
}.

(** The pipeline between [Pipeline([...])] and a successful [fit]. *)
Definition unfitted_pipeline : Pipeline :=
  {| predict_proba := fun _ => Raised "NotFittedError"; classes_ := [] |}.

(** The instance attributes set by [__init__] ([model_path] is fixed by
    the settings and is the one file of [disk] below). *)
Record Categorizer : Type := {
  model : option Pipeline;
  categories : gmap Z string;
  category_id_map : gmap string Z;
  min_confidence : Q
}.

Definition __init__ : Categorizer :=
  {| model := None; categories := ∅; category_id_map := ∅;
     min_confidence := 35 # 100 |}.

(** What is stored at [model_path]: nothing, the pickled [model_data]
    dictionary, or bytes that [joblib.load] (or the key lookups after it)
    rejects. *)
Inductive file_content : Type :=
| model_data (md_model : Pipeline) (md_categories : gmap Z string)
             (md_category_id_map : gmap string Z)
| unreadable.

Record disk : Type := {
  file : option file_content;
  writable : bool
}.

(** *** [_preprocess_text] *)

Definition code (c : ascii) : N := N_of_ascii c.

(** [str.lower] on one character, for code points below 256: the
    letters [A-Z] and the accented capitals (all of 192-222 but the
    multiplication sign) move up by 32. *)
Definition lower_char (c : ascii) : ascii :=
  if (((65 <=? code c) && (code c <=? 90))
      || ((192 <=? code c) && (code c <=? 222) && negb (code c =? 215)))%N
  then ascii_of_N (code c + 32) else c.

(** The class [\s] of a [str] pattern, restricted to code points below
    256. *)
Definition is_space (c : ascii) : bool :=
  (((9 <=? code c) && (code c <=? 13)) || ((28 <=? code c) && (code c <=? 32))
   || (code c =? 133) || (code c =? 160))%N.

Definition is_lower_alnum (c : ascii) : bool :=
  (((97 <=? code c) && (code c <=? 122)) || ((48 <=? code c) && (code c <=? 57)))%N.

(** [re.sub(r'[^a-z0-9\s]', ' ', text)] *)
Fixpoint remove_special (text : string) : string :=
  match text with
  | EmptyString => EmptyString
  | String c rest =>
      String (if is_lower_alnum c || is_space c then c else " "%char)
             (remove_special rest)
  end.

(** [re.sub(r'\s+', ' ', text)]; [in_run] tells that the previous
    character already belonged to the run being replaced. *)
Fixpoint collapse_spaces (in_run : bool) (text : string) : string :=
  match text with
  | EmptyString => EmptyString
  | String c rest =>
      if is_space c
      then (if in_run then collapse_spaces true rest
            else String " "%char (collapse_spaces true rest))
      else String c (collapse_spaces false rest)
  end.

Fixpoint lstrip (text : string) : string :=
  match text with
  | EmptyString => EmptyString
  | String c rest => if is_space c then lstrip rest else text
  end.

Fixpoint rstrip (text : string) : string :=
  match text with
  | EmptyString => EmptyString
  | String c rest =>
      match rstrip rest with
      | EmptyString => if is_space c then EmptyString else String c EmptyString
      | kept => String c kept
      end
  end.

Fixpoint lower (text : string) : string :=
  match text with
  | EmptyString => EmptyString
  | String c rest => String (lower_char c) (lower rest)
  end.

Definition _preprocess_text (text : string) : string :=
  match text with
  | EmptyString => EmptyString
  | _ => rstrip (lstrip (collapse_spaces false (remove_special (lower text))))
  end.

(** *** [_save_model] and [_load_model] *)

Definition _save_model (self : Categorizer) (fs : disk) : result disk :=
  match model self with
  | None => Returned fs
  | Some m =>
      if writable fs
      then Returned {| file := Some (model_data m (categories self) (category_id_map self));
                       writable := writable fs |}
      else Raised "OSError"
  end.

Definition _load_model (self : Categorizer) (fs : disk) : bool * Categorizer :=
  match file fs with
  | None => (false, self)
  | Some unreadable => (false, self)
  | Some (model_data m cats idmap) =>
      (true, {| model := Some m; categories := cats; category_id_map := idmap;
                min_confidence := min_confidence self |})
  end.

(** *** [predict] *)

(** [max(probabilities)]: [None] stands for the [ValueError] on an empty
    sequence. *)
Fixpoint py_max (l : list Q) : option Q :=
  match l with
  | [] => None
  | p :: rest =>
      match py_max rest with
      | None => Some p
      | Some q => Some (if Qle_bool q p then p else q)
      end
  end.

(** [np.argmax]: the index of the first occurrence of the maximum. *)
Fixpoint argmax (l : list Q) : nat :=
  match l with
  | [] => O
  | p :: rest =>
      match py_max rest with
      | None => O
      | Some q => if Qle_bool q p then O else S (argmax rest)
      end
  end.

Definition prediction : Type := (option Z * option string * Q)%type.

Definition no_prediction : prediction := (None, None, 0%Q).

Definition predict (self : Categorizer) (fs : disk) (description : string)
  : result prediction * Categorizer :=
  let self :=
    match model self with
    | Some _ => self
    | None => snd (_load_model self fs)
    end in
  match model self with
  | None => (Returned no_prediction, self)
  | Some m =>
      let processed_text := _preprocess_text description in
      if String.eqb processed_text "" then (Returned no_prediction, self)
      else
        match predict_proba m processed_text with
        | Raised e => (Raised e, self)
        | Returned probabilities =>
            match py_max probabilities with
            | None => (Raised "ValueError", self)
            | Some max_prob =>
                let max_index := argmax probabilities in
                match nth_error (classes_ m) max_index with
                | None => (Raised "IndexError", self)
                | Some predicted_category_id =>
                    if negb (Qle_bool (min_confidence self) max_prob)
                    then (Returned no_prediction, self)
                    else
                      let category_name := categories self !! predicted_category_id in
                      (Returned (Some predicted_category_id, category_name, max_prob), self)
                end
            end
        end
  end.

(** *** [train] *)

Section Training.

(** [train_test_split(descriptions, labels, test_size=0.2,
    random_state=42)], the fit of the TF-IDF / naive Bayes pipeline on the
    training part, and [score] on the test part: library calls. *)
Variable train_test_split :
  list string -> list Z -> (list string * list string) * (list Z * list Z).
Variable fit : list string -> list Z -> result Pipeline.
Variable score : Pipeline -> list string -> list Z -> result Q.

(** The loop over [transactions] that fills [descriptions], [labels],
    [self.categories] and [self.category_id_map]. *)
Fixpoint collect (transactions : list Transaction)
    (descriptions : list string) (labels : list Z)
    (cats : gmap Z string) (idmap : gmap string Z)
  : list string * list Z * gmap Z string * gmap string Z :=
  match transactions with
  | [] => (descriptions, labels, cats, idmap)
  | transaction :: rest =>
      match category transaction with
      | None => collect rest descriptions labels cats idmap
      | Some c =>
          collect rest
            (descriptions ++ [_preprocess_text (description transaction)])
            (labels ++ [category_id c])
            (<[category_id c := category_name c]> cats)
            (<[category_name c := category_id c]> idmap)
      end
  end.

(** What one call of [train] did besides returning. *)
Inductive train_action : Type :=
| skipped          (* "Model already loaded, skipping training" *)
| loaded           (* "Loading existing model" *)
| too_few_samples  (* "Not enough data to train model" *)
| fitted.          (* a new model was fit and saved *)

(** [train]: the returned value ([None], [False] or [True]) or the
    exception, what was done, and the categorizer and the disk after it. *)
Definition train (self : Categorizer) (fs : disk)
    (transactions : list Transaction) (force_retrain : bool)
  : result (option bool * train_action) * Categorizer * disk :=
  if truthy (model self) && negb force_retrain
  then (Returned (None, skipped), self, fs)
  else if truthy (file fs) && negb force_retrain
  then (Returned (None, loaded), snd (_load_model self fs), fs)
  else
    let '(descriptions, labels, cats, idmap) :=
      collect transactions [] [] ∅ (category_id_map self) in
    let self := {| model := model self; categories := cats;
                   category_id_map := idmap;
                   min_confidence := min_confidence self |} in
    if (length descriptions <? 10)%nat
    then (Returned (Some false, too_few_samples), self, fs)
    else
      let with_model m := {| model := Some m; categories := cats;
                             category_id_map := idmap;
                             min_confidence := min_confidence self |} in
      let '((X_train, X_test), (y_train, y_test)) :=
        train_test_split descriptions labels in
      match fit X_train y_train with
      | Raised e => (Raised e, with_model unfitted_pipeline, fs)
      | Returned m =>
          let self := with_model m in
          match score m X_test y_test with
          | Raised e => (Raised e, self, fs)
          | Returned accuracy =>
              match _save_model self fs with
              | Raised e => (Raised e, self, fs)
              | Returned fs' => (Returned (Some true, fitted), self, fs')
              end
          end
      end.

End Training.

(** *** The model [predict] ends up with *)

(** The model in memory, or else the one [_load_model] finds at
    [model_path], with the categories map that comes with it. *)
Definition available (self : Categorizer) (fs : disk)
  : option (Pipeline * gmap Z string) :=
  match model self with
  | Some m => Some (m, categories self)
  | None =>
      match file fs with
      | Some (model_data m cats _) => Some (m, cats)
      | _ => None
      end
  end.



(** *** The shape of a preprocessed description *)

(** Words of lower-case letters and digits separated by single blanks:
    every character is one of [a-z0-9] or the blank, no blank follows a
    blank, and the text neither starts nor ends with one.
    [after_blank] tells that the previous character was a blank (or
    that the text starts here). *)
Fixpoint single_spaced (after_blank : bool) (text : string) : bool :=
  match text with
  | EmptyString => negb after_blank
  | String c rest =>
      if Ascii.eqb c " " then negb after_blank && single_spaced true rest
      else is_lower_alnum c && single_spaced false rest
  end.

Definition normalized (text : string) : bool :=
  match text with
  | EmptyString => true
  | _ => single_spaced true text
  end.

(** The transactions [train] learns from. *)
Definition categorized (transactions : list Transaction) : list Transaction :=
  List.filter (fun tx => truthy (category tx)) transactions.

End TransactionCategorizer.

(** ** pandas, numpy and Python arithmetic used by the analyzers *)

Module Pandas.
Import Models.

(** [groupby(key)['amount'].sum()]: one entry per key, keys ascending,
    each sum taken in row order. *)
Section GroupBy.
Context {K : Type}.
Variable key_eqb key_ltb : K -> K -> bool.

Fixpoint add_to_group (k : K) (v : Q) (groups : list (K * Q)) : list (K * Q) :=
  match groups with
  | [] => [(k, v)]
  | (k', v') :: rest =>
      if key_eqb k k' then (k', (v' + v)%Q) :: rest
      else if key_ltb k k' then (k, v) :: groups
      else (k', v') :: add_to_group k v rest
  end.

Definition groupby_sum (rows : list (K * Q)) : list (K * Q) :=
  fold_left (fun groups row => add_to_group (fst row) (snd row) groups) rows [].

(** What a group's sum is meant to be: the values of the rows with key
    [k], added up in row order. *)
Definition key_sum (k : K) (rows : list (K * Q)) : Q :=
  fold_left Qplus (map snd (List.filter (fun row => key_eqb (fst row) k) rows)) 0%Q.

(** Groups are kept in strictly increasing key order. *)
Definition keys_increasing (groups : list (K * Q)) : Prop :=
  StronglySorted (fun x y => key_ltb (fst x) (fst y) = true) groups.

End GroupBy.

(** [series.tail(n)] and [series.iloc[-n:]] *)
Definition tail_n {A : Type} (n : nat) (l : list A) : list A :=
  skipn (length l - n) l.

(** [series.mean()] *)
Definition mean (l : list Q) : Q :=
  (fold_left Qplus l 0 / inject_Z (Z.of_nat (length l)))%Q.

(** A numpy [float64] result: division by zero gives an infinity or a
    NaN, it does not raise. *)
Inductive float64 : Type :=
| finite (q : Q)
| pos_inf
| neg_inf
| nan.

Definition np_div (a b : Q) : float64 :=
  if Qeq_bool b 0 then
    (if Qltb 0 a then pos_inf else if Qltb a 0 then neg_inf else nan)
  else finite (a / b)%Q.

(** [x > c] and [x < c] for a float64 [x] and a finite [c]. *)
Definition np_gtb (x : float64) (c : Q) : bool :=
  match x with
  | finite q => Qltb c q
  | pos_inf => true
  | neg_inf | nan => false
  end.

Definition np_ltb (x : float64) (c : Q) : bool :=
  match x with
  | finite q => Qltb q c
  | neg_inf => true
  | pos_inf | nan => false
  end.

(** Python's [a / b] on floats. *)
Definition py_div (a b : Q) : result Q :=
  if Qeq_bool b 0 then Raised "ZeroDivisionError" else Returned (a / b)%Q.

(** Stable sort by decreasing value, as [sort_values(ascending=False)]
    and [list.sort(reverse=True)] order their input. *)
Section SortDescending.
Context {A : Type}.
Variable value : A -> Q.

Fixpoint insert_desc (x : A) (sorted : list A) : list A :=
  match sorted with
  | [] => [x]
  | y :: rest =>
      if Qltb (value x) (value y) then y :: insert_desc x rest
      else x :: sorted
  end.

Definition sort_desc (l : list A) : list A := fold_right insert_desc [] l.


End SortDescending.

End Pandas.

(** ** [analytics/ml_utils/spending_analyzer.py] *)

Module SpendingAnalyzer.
Import Models Pandas.

(** *** [__init__] *)

(** The scikit-learn estimators of the repository, and what a piece of
    code does with one. *)
Inductive estimator : Type :=
| TfidfNaiveBayes
| IsolationForest
| RandomForestRegressor.

Inductive sklearn_call : Type :=
| construct (e : estimator)
| fit_call (e : estimator).

(** [SpendingAnalyzer(user)]: keeps the user and builds the (unfitted)
    isolation forest. *)
Definition __init__ (user : option User) : option User * list sklearn_call :=
  (user, [construct IsolationForest]).

(** *** [prepare_transaction_data] *)

(** The data frame has one row per transaction, in the order of the
    input, and its columns are read off the transaction: a frame is kept
    as the list of the transactions behind its rows.  The columns
    ['category_id'] and ['category_name']: *)
Definition row_category_id (tx : Transaction) : option Z :=
  match category tx with Some c => Some (category_id c) | None => None end.

Definition row_category_name (tx : Transaction) : string :=
  match category tx with Some c => category_name c | None => "Uncategorized" end.

Definition prepare_transaction_data (transactions : list Transaction)
  : list Transaction := transactions.

(** *** [detect_spending_anomalies] *)

Definition option_Z_eqb (a b : option Z) : bool :=
  match a, b with
  | Some x, Some y => x =? y
  | _, _ => false
  end.

(** [df['category_id'].map(df['category_id'].value_counts())]: the
    number of rows with the same category id; NaN ([None]) for a row
    without category. *)
Definition category_frequency (df : list Transaction) (tx : Transaction)
  : option nat :=
  match row_category_id tx with
  | None => None
  | Some _ =>
      Some (length (List.filter
                      (fun r => option_Z_eqb (row_category_id r) (row_category_id tx))
                      df))
  end.

(** The feature matrix [df[['amount', 'category_frequency']]]. *)
Definition features (df : list Transaction) : list (Q * option nat) :=
  map (fun tx => (amount tx, category_frequency df tx)) df.

(** The rows of [df] whose anomaly score is -1, by their ids. *)
Fixpoint anomalous_ids (df : list Transaction) (scores : list Z) : list Z :=
  match df, scores with
  | tx :: df', s :: scores' =>
      if s =? -1 then id tx :: anomalous_ids df' scores'
      else anomalous_ids df' scores'
  | _, _ => []
  end.

Section Detection.

(** [IsolationForest(random_state=42).set_params(contamination=c)
    .fit_predict(X)]: the labels, 1 or -1 per row, or the exception the
    library raises. *)
Variable fit_predict : Q -> list (Q * option nat) -> result (list Z).

Definition detect_spending_anomalies (self_user : option User)
    (transactions : list Transaction) (sensitivity : option Q) : list Z :=
  let expense_transactions := List.filter is_expense transactions in
  if (length expense_transactions <? 10)%nat then []
  else
    let default (o : option Q) (d : Q) := match o with Some s => s | None => d end in
    let '(min_amount, sensitivity) :=
      match self_user with
      | Some u =>
          match userprofile u with
          | Some profile =>
              (anomaly_min_amount profile,
               default sensitivity (anomaly_detection_sensitivity profile))
          | None => (100%Q, default sensitivity 1%Q)
          end
      | None => (100%Q, default sensitivity 1%Q)
      end in
    let expense_transactions :=
      List.filter (fun tx => Qgeb (amount tx) min_amount) expense_transactions in
    let df := prepare_transaction_data expense_transactions in
    match df with
    | [] => []
    | _ =>
        match fit_predict ((5 # 100) * sensitivity)%Q (features df) with
        | Raised _ => []
        | Returned scores =>
            if (length scores =? length df)%nat then anomalous_ids df scores
            else []
        end
    end.

(** *** [detect_anomalies] *)

Record anomaly_info : Type := {
  info_id : Z;
  info_date : date;
  info_description : string;
  info_amount : Q;
  info_category : string;
  info_reason : string
}.

Fixpoint format_anomalies (transactions : list Transaction) (anomaly_ids : list Z)
  : list anomaly_info :=
  match anomaly_ids with
  | [] => []
  | tx_id :: rest =>
      match find (fun t => id t =? tx_id) transactions with
      | Some tx =>
          {| info_id := id tx; info_date := tx_date tx;
             info_description := description tx; info_amount := amount tx;
             info_category := row_category_name tx;
             info_reason := "Unusual spending pattern" |}
          :: format_anomalies transactions rest
      | None => format_anomalies transactions rest
      end
  end.

Definition detect_anomalies (self_user : option User)
    (transactions : list Transaction) : list anomaly_info :=
  format_anomalies transactions
    (detect_spending_anomalies self_user transactions None).

End Detection.

(** *** [analyze_spending_by_category] *)

(** The f-string messages, with the values they format. *)
Inductive insight_message : Type :=
| spending_increased (category : string) (mom_change : float64)
| spending_reduced (category : string) (mom_change : float64)
| expenses_exceed_income (excess : Q)
| saved_only (net_flow percent_of_income : Q)
| great_job (net_flow percent_of_income : Q).

Definition Z_keys (groups : list (Z * Q)) : list Z := map fst groups.

(** One cell of [monthly_category_spending]: the spending of a category
    in a month, 0 where the frame has no row. *)
Definition monthly_category_cell (df : list Transaction) (m : Z) (c : string) : Q :=
  sum_amounts
    (List.filter
       (fun tx => (to_period (tx_date tx) =? m) && String.eqb (row_category_name tx) c)
       df).

(** The ['insights'] entry of the dictionary [analyze_spending_by_category]
    returns (the one entry [generate_insights] reads); [today] is
    [timezone.now().date()]. *)
Definition analyze_spending_by_category (today : date)
    (transactions : list Transaction) (months : Z) : list insight_message :=
  let expense_transactions := List.filter is_expense transactions in
  match expense_transactions with
  | [] => []
  | _ =>
      let df := prepare_transaction_data expense_transactions in
      let cutoff := toordinal today - 30 * months in
      let df := List.filter (fun tx => cutoff <=? toordinal (tx_date tx)) df in
      match df with
      | [] => []
      | _ =>
          let month_index :=
            Z_keys (groupby_sum Z.eqb Z.ltb
                      (map (fun tx => (to_period (tx_date tx), amount tx)) df)) in
          let total_by_category :=
            sort_desc snd
              (groupby_sum String.eqb String.ltb
                 (map (fun tx => (row_category_name tx, amount tx)) df)) in
          flat_map
            (fun category =>
               let category_data :=
                 map (fun m => monthly_category_cell df m category) month_index in
               match rev category_data with
               | current :: previous :: _ =>
                   let mom_change := np_div (current - previous)%Q previous in
                   if np_gtb mom_change (2 # 10)
                   then [spending_increased category mom_change]
                   else if np_ltb mom_change (- (2 # 10))%Q
                   then [spending_reduced category mom_change]
                   else []
               | _ => []
               end)
            (firstn 5 (map fst total_by_category))
      end
  end.

(** *** [generate_insights] *)

Record insight : Type := {
  insight_type : string;
  message : insight_message;
  priority : string
}.

Definition generate_insights (today : date) (transactions : list Transaction)
  : result (list insight) :=
  let category_analysis := analyze_spending_by_category today transactions 3 in
  let insights :=
    map (fun m => {| insight_type := "category_trend"; message := m;
                     priority := "medium" |}) category_analysis in
  let income_transactions := List.filter is_income transactions in
  let expense_transactions := List.filter is_expense transactions in
  let total_income := sum_amounts income_transactions in
  let total_expenses := sum_amounts expense_transactions in
  let net_flow := (total_income - total_expenses)%Q in
  if Qltb net_flow 0 then
    Returned (insights ++
      [{| insight_type := "cash_flow";
          message := expenses_exceed_income (Qabs net_flow);
          priority := "high" |}])
  else if Qgtb net_flow 0 && Qltb net_flow (total_income * (1 # 10))%Q then
    match py_div net_flow total_income with
    | Raised e => Raised e
    | Returned ratio =>
        Returned (insights ++
          [{| insight_type := "cash_flow";
              message := saved_only net_flow (ratio * 100%Q)%Q;
              priority := "medium" |}])
    end
  else if Qgtb net_flow (total_income * (2 # 10))%Q then
    match py_div net_flow total_income with
    | Raised e => Raised e
    | Returned ratio =>
        Returned (insights ++
          [{| insight_type := "cash_flow";
              message := great_job net_flow (ratio * 100%Q)%Q;
              priority := "low" |}])
    end
  else Returned insights.

Definition generate_spending_insights := generate_insights.

(** *** [predict_monthly_spending] *)

Record monthly_prediction : Type := {
  prediction_month : Z;      (* the period formatted by [strftime('%b %Y')] *)
  prediction_amount : Q
}.

Definition predict_monthly_spending (transactions : list Transaction)
    (months_ahead : nat) : list monthly_prediction :=
  let expense_transactions := List.filter is_expense transactions in
  if (length expense_transactions <? 3)%nat then []
  else
    let df := prepare_transaction_data expense_transactions in
    let monthly_totals :=
      groupby_sum Z.eqb Z.ltb
        (map (fun tx => (to_period (tx_date tx), amount tx)) df) in
    if (length monthly_totals <? 3)%nat then []
    else
      let totals := map snd monthly_totals in
      let avg_spending := mean (tail_n 3 totals) in
      let trend_factor :=
        if (6 <=? length monthly_totals)%nat then
          let recent := mean (tail_n 3 totals) in
          let older := mean (firstn 3 (tail_n 6 totals)) in
          if Qgtb older 0 then (recent / older)%Q else 1%Q
        else 1%Q in
      let last_date := List.last (map fst monthly_totals) 0 in
      map (fun i =>
             {| prediction_month := last_date + Z.of_nat i;
                prediction_amount := (avg_spending * Qpower trend_factor (Z.of_nat i))%Q |})
          (seq 1 months_ahead).

Definition forecast_monthly_spending (transactions : list Transaction)
  : list monthly_prediction :=
  predict_monthly_spending transactions 3.

(** *** Vocabulary of the statements about the analyzer *)

(** The minimum amount [detect_spending_anomalies] filters with. *)
Definition min_amount_threshold (self_user : option User) : Q :=
  match self_user with
  | Some u =>
      match userprofile u with
      | Some profile => anomaly_min_amount profile
      | None => 100%Q
      end
  | None => 100%Q
  end.

(** The monthly expense totals [predict_monthly_spending] averages, and
    the trend factor it derives from them. *)
Definition monthly_totals (transactions : list Transaction) : list (Z * Q) :=
  groupby_sum Z.eqb Z.ltb
    (map (fun tx => (to_period (tx_date tx), amount tx))
         (List.filter is_expense transactions)).

Definition trend_factor (totals : list Q) : Q :=
  if (6 <=? length totals)%nat then
    if Qgtb (mean (firstn 3 (tail_n 6 totals))) 0
    then (mean (tail_n 3 totals) / mean (firstn 3 (tail_n 6 totals)))%Q
    else 1%Q
  else 1%Q.


End SpendingAnalyzer.

(** ** [analytics/ml_utils/budget_analyzer.py] *)

Module BudgetAnalyzer.
Import Models Pandas.

(** *** [analyze_budget_performance] *)

Inductive budget_status : Type :=
| over_budget
| at_risk
| warning
| on_track.

(** The four f-string messages, with the values they format. *)
Inductive performance_message : Type :=
| exceeded_by (excess : Q)
| used_be_careful (percentage : Q)
| used (percentage : Q)
| on_track_remaining (left : Q).

Record budget_performance : Type := {
  perf_budget_id : Z;
  perf_category : string;
  perf_amount : Q;
  spent : Q;
  remaining : Q;
  percentage_used : Q;
  status : budget_status;
  perf_message : performance_message;
  daily_rate : Q;
  projected_total : Q;
  projected_remaining : Q;
  days_elapsed : Z;
  days_in_period : Z
}.

(** The returned dictionary: ['success': False] with its message, or
    ['success': True] with the metrics. *)
Inductive performance_result : Type :=
| performance_failure (reason : string)
| performance_success (metrics : budget_performance).

Definition in_budget_category (budget : Budget) (tx : Transaction) : bool :=
  match category tx with
  | Some c => (category_id c =? category_id (budget_category budget)) && is_expense tx
  | None => false
  end.

(** [today] is [timezone.now().date()]. *)
Definition analyze_budget_performance (today : date) (budget : option Budget)
    (transactions : list Transaction) : performance_result :=
  match budget, transactions with
  | None, _ | _, [] => performance_failure "No budget or transactions provided"
  | Some budget, _ =>
      let category_transactions := List.filter (in_budget_category budget) transactions in
      match category_transactions with
      | [] => performance_failure "No transactions found for this budget category"
      | _ =>
          let total_spent := sum_amounts category_transactions in
          let budget_amount := budget_amount budget in
          let remaining := (budget_amount - total_spent)%Q in
          let percentage_used :=
            if Qgtb budget_amount 0
            then ((total_spent / budget_amount) * 100%Q)%Q else 0%Q in
          let '(status, message) :=
            if Qgtb percentage_used (100%Q)
            then (over_budget, exceeded_by (- remaining)%Q)
            else if Qgeb percentage_used (90%Q)
            then (at_risk, used_be_careful percentage_used)
            else if Qgeb percentage_used (75%Q)
            then (warning, used percentage_used)
            else (on_track, on_track_remaining remaining) in
          let days_in_period := 30 in
          let days_elapsed :=
            Z.min days_in_period (days_between today (start_date budget) + 1) in
          let daily_rate :=
            if 0 <? days_elapsed then (total_spent / inject_Z days_elapsed)%Q
            else 0%Q in
          let projected_total :=
            (total_spent + daily_rate * inject_Z (days_in_period - days_elapsed))%Q in
          let projected_remaining := (budget_amount - projected_total)%Q in
          performance_success
            {| perf_budget_id := budget_id budget;
               perf_category := category_name (budget_category budget);
               perf_amount := budget_amount;
               spent := total_spent;
               remaining := remaining;
               percentage_used := percentage_used;
               status := status;
               perf_message := message;
               daily_rate := daily_rate;
               projected_total := projected_total;
               projected_remaining := projected_remaining;
               days_elapsed := days_elapsed;
               days_in_period := days_in_period |}
      end
  end.

(** *** [generate_budget_recommendations] *)

Inductive adjustment_kind : Type :=
| increase
| decrease
| new.

Inductive recommendation_message : Type :=
| consider_increasing (category : string) (percent : Q)
| may_reduce (category : string) (percent : Q)
| consider_setting (amount : Q) (category : string).

Record recommendation : Type := {
  rec_category : string;
  current_amount : Q;
  recommended_amount : Q;
  average_spending : Q;
  rec_message : recommendation_message;
  adjustment : adjustment_kind
}.

Inductive result_message : Type :=
| not_enough_history
| not_enough_categorized
| generated (count : nat).

Record recommendations_result : Type := {
  success : bool;
  summary : result_message;
  recommendations : list recommendation
}.

Definition is_categorized_expense (tx : Transaction) : bool :=
  is_expense tx && truthy (category tx).

(** [category.name] of a transaction that has a category. *)
Definition name_of (tx : Transaction) : string :=
  match category tx with Some c => category_name c | None => "" end.

(** The dictionary [current_budget_amounts]: category name to budget
    amount, a later budget of the same name replacing an earlier one. *)
Definition budget_amounts (current_budgets : list Budget) : gmap string Q :=
  fold_left
    (fun amounts budget =>
       <[category_name (budget_category budget) := budget_amount budget]> amounts)
    current_budgets ∅.

(** The body of the loop over [category_avgs.items()] for one category:
    the recommendation appended, if any. *)
Definition recommend (current_budget_amounts : gmap string Q)
    (category : string) (avg_spend : Q) : option recommendation :=
  if Qltb avg_spend (100%Q) then None
  else
    let recommended_amount := (avg_spend * (11 # 10))%Q in
    let current_amount := default 0%Q (current_budget_amounts !! category) in
    let make message adjustment :=
      Some {| rec_category := category;
              current_amount := current_amount;
              recommended_amount := recommended_amount;
              average_spending := avg_spend;
              rec_message := message;
              adjustment := adjustment |} in
    if Qgtb current_amount 0 then
      if Qgtb recommended_amount (current_amount * (12 # 10))%Q then
        make (consider_increasing category
                (((recommended_amount / current_amount) - 1) * 100%Q)%Q)
             increase
      else if Qgtb current_amount (recommended_amount * (12 # 10))%Q then
        make (may_reduce category
                (((current_amount / recommended_amount) - 1) * 100%Q)%Q)
             decrease
      else None
    else make (consider_setting recommended_amount category) new.

(** [current_budgets=None] is the empty list of budgets. *)
Definition generate_budget_recommendations (transactions : list Transaction)
    (current_budgets : list Budget) : recommendations_result :=
  match transactions with
  | [] => {| success := false; summary := not_enough_history; recommendations := [] |}
  | _ =>
      let expense_transactions := List.filter is_categorized_expense transactions in
      if (length expense_transactions <? 5)%nat
      then {| success := false; summary := not_enough_categorized;
              recommendations := [] |}
      else
        let df := expense_transactions in
        let unique_months :=
          length (groupby_sum Z.eqb Z.ltb
                    (map (fun tx => (to_period (tx_date tx), amount tx)) df)) in
        let unique_months := if (unique_months <? 1)%nat then 1%nat else unique_months in
        let category_totals :=
          groupby_sum String.eqb String.ltb
            (map (fun tx => (name_of tx, amount tx)) df) in
        let category_avgs :=
          map (fun kv => (fst kv, (snd kv / inject_Z (Z.of_nat unique_months))%Q))
              category_totals in
        let current_budget_amounts := budget_amounts current_budgets in
        let recommendations :=
          omap (fun kv => recommend current_budget_amounts (fst kv) (snd kv))
               category_avgs in
        let recommendations := sort_desc recommended_amount recommendations in
        {| success := true; summary := generated (length recommendations);
           recommendations := recommendations |}
  end.

(** *** Vocabulary of the statements about the analyzer *)

(** The average monthly spending of a category: what was spent on it in
    the categorized expenses, divided by the number of distinct months
    these expenses fall in. *)
Definition distinct_months (txs : list Transaction) : nat :=
  length (nodup Z.eq_dec
            (map (fun tx => to_period (tx_date tx))
                 (List.filter is_categorized_expense txs))).

Definition category_total (txs : list Transaction) (c : string) : Q :=
  fold_left Qplus
    (map amount
       (List.filter (fun tx => String.eqb (name_of tx) c)
          (List.filter is_categorized_expense txs))) 0%Q.

Definition average_monthly_spending (txs : list Transaction) (c : string) : Q :=
  (category_total txs c / inject_Z (Z.of_nat (distinct_months txs)))%Q.

(** The amount of the current budget of a category, 0 without one. *)
Definition current_budget (current_budgets : list Budget) (c : string) : Q :=
  default 0%Q (budget_amounts current_budgets !! c).

(** The categories that occur among the categorized expenses. *)
Definition spending_categories (txs : list Transaction) : list string :=
  map name_of (List.filter is_categorized_expense txs).

(** The recommendations before sorting: one pass of the loop body per
    entry of [category_avgs]. *)
Definition unsorted_recommendations (transactions : list Transaction)
    (current_budgets : list Budget) : list recommendation :=
  omap (fun kv => recommend (budget_amounts current_budgets) (fst kv) (snd kv))
    (map (fun kv => (fst kv,
                     (snd kv / inject_Z (Z.of_nat (distinct_months transactions)))%Q))
       (groupby_sum String.eqb String.ltb
          (map (fun tx => (name_of tx, amount tx))
             (List.filter is_categorized_expense transactions)))).

End BudgetAnalyzer.

(** ** The [random] module *)

Module Random.

(** The generator, by the values its successive [_randbelow] calls
    reduce: a run of the program is given the tape of its draws, and a
    tape that is used up keeps answering 0. *)
Definition tape : Type := list nat.

Definition randbelow (n : nat) (t : tape) : nat * tape :=
  match t with
  | [] => (O, [])
  | x :: rest => (x mod n, rest)%nat
  end.

(** [random.sample(population, k)], selection without replacement: draw
    a position of the pool, take the element there, and move the last
    element of the pool into its place. *)
Fixpoint sample {A : Type} (pool : list A) (k : nat) (t : tape) : list A * tape :=
  match k with
  | O => ([], t)
  | S k' =>
      let '(j, t) := randbelow (length pool) t in
      match nth_error pool j, List.last (map Some pool) None with
      | Some chosen, Some moved =>
          let '(rest, t) := sample (removelast (<[j := moved]> pool)) k' t in
          (chosen :: rest, t)
      | _, _ => ([], t)
      end
  end.

(** [random.choice(seq)] for a non-empty [seq] with first element [d]. *)
Definition choice {A : Type} (d : A) (seq : list A) (t : tape) : A * tape :=
  let '(j, t) := randbelow (length seq) t in (nth j seq d, t).

(** [random.randint(a, b)] *)
Definition randint (a b : Z) (t : tape) : Z * tape :=
  let '(j, t) := randbelow (Z.to_nat (b - a + 1)) t in (a + Z.of_nat j, t).

End Random.

(** ** [analytics/views.py] *)

Module Views.
Import Models Pandas.

(** *** The database *)

(** [analytics.models.SpendingAnomaly] *)
Inductive anomaly_description : Type :=
| unusual_transaction
| amount_above_average (ratio : Q)
| first_merchant
| unusual_day (day_of_week : Z)
| unusual_pattern.

Record SpendingAnomaly : Type := {
  anomaly_pk : Z;
  anomaly_user : Z;
  anomaly_transaction_id : Z;
  anomaly_score : Q;
  anomaly_text : anomaly_description;
  is_verified : bool
}.

(** The tables the analytics handlers touch, each in the order its
    default manager returns it. *)
Record database : Type := {
  transactions : list Transaction;
  category_table : list Category;
  budgets : list Budget;
  anomalies : list SpendingAnomaly;
  profiles : list UserProfile
}.

(** The database together with the file at the categorizer's
    [model_path]. *)
Record world : Type := {
  db : database;
  model_file : TransactionCategorizer.disk
}.

Definition default_profile (u : Z) : UserProfile :=
  {| profile_user := u; enable_ai_insights := true;
     enable_ai_categorization := true;
     anomaly_detection_sensitivity := 1%Q; anomaly_min_amount := 100%Q |}.

(** [UserProfile.objects.get_or_create(user=u)] *)
Definition get_or_create_profile (u : Z) (d : database) : UserProfile * database :=
  match find (fun p => profile_user p =? u) (profiles d) with
  | Some p => (p, d)
  | None =>
      (default_profile u,
       {| transactions := transactions d; category_table := category_table d;
          budgets := budgets d; anomalies := anomalies d;
          profiles := profiles d ++ [default_profile u] |})
  end.

(** [Transaction.objects.get(id=pk, user=u)]; [None] is [DoesNotExist]. *)
Definition get_transaction (pk u : Z) (d : database) : option Transaction :=
  find (fun tx => (id tx =? pk) && (user tx =? u)) (transactions d).

(** [Category.objects.get(id=pk)] *)
Definition get_category (pk : Z) (d : database) : option Category :=
  find (fun c => category_id c =? pk) (category_table d).

(** [transaction.save()] of an object loaded from the table: the row with
    its primary key is rewritten (a row is inserted if there is none). *)
Definition save_transaction (tx : Transaction) (d : database) : database :=
  {| transactions :=
       if existsb (fun row => id row =? id tx) (transactions d)
       then map (fun row => if id row =? id tx then tx else row) (transactions d)
       else transactions d ++ [tx];
     category_table := category_table d; budgets := budgets d;
     anomalies := anomalies d; profiles := profiles d |}.

(** [SpendingAnomaly.objects.create(...)]: a new row with a fresh
    primary key, [is_verified] at its default. *)
Definition create_anomaly (u tx_id : Z) (score : Q) (text : anomaly_description)
    (d : database) : database :=
  let pk := 1 + fold_right Z.max 0 (map anomaly_pk (anomalies d)) in
  {| transactions := transactions d; category_table := category_table d;
     budgets := budgets d;
     anomalies := anomalies d ++
       [{| anomaly_pk := pk; anomaly_user := u; anomaly_transaction_id := tx_id;
           anomaly_score := score; anomaly_text := text; is_verified := false |}];
     profiles := profiles d |}.

Definition with_db (w : world) (d : database) : world :=
  {| db := d; model_file := model_file w |}.

(** *** [categorize_transaction] and [auto_categorize_transactions] *)

Inductive categorize_response : Type :=
| json_failure (message : string)
| json_prediction (transaction_id category_id : Z) (category_name : option string)
                  (confidence : Q)
| json_categorized (categorized_count total_uncategorized : nat)
                   (results : list (Z * string * option string * Q))
| server_error (exn : string).

(** The object [transaction] after
    [transaction.category = category; transaction.ai_categorized = True]. *)
Definition assign_category (tx : Transaction) (c : Category) : Transaction :=
  {| id := id tx; user := user tx; account_name := account_name tx;
     category := Some c; amount := amount tx;
     transaction_type := transaction_type tx; tx_date := tx_date tx;
     description := description tx; ai_categorized := true |}.

Section Categorization.
Import TransactionCategorizer.

Variable train_test_split :
  list string -> list Z -> (list string * list string) * (list Z * list Z).
Variable fit : list string -> list Z -> result Pipeline.
Variable score : Pipeline -> list string -> list Z -> result Q.

Definition categorize_transaction (u transaction_id : Z) (w : world)
  : categorize_response * world :=
  match get_transaction transaction_id u (db w) with
  | None => (json_failure "Transaction not found", w)
  | Some transaction =>
      let '(profile, d) := get_or_create_profile u (db w) in
      let w := with_db w d in
      if negb (enable_ai_categorization profile)
      then (json_failure "AI categorization is disabled in your profile settings.", w)
      else
        let training_transactions :=
          List.filter
            (fun tx => (user tx =? u) && truthy (category tx)
                       && negb (id tx =? transaction_id))
            (transactions d) in
        let categorizer := __init__ in
        let '(trained, categorizer, fs) :=
          train train_test_split fit score categorizer (model_file w)
                training_transactions false in
        let w := {| db := d; model_file := fs |} in
        match trained with
        | Raised e => (server_error e, w)
        | Returned _ =>
            match fst (predict categorizer fs (description transaction)) with
            | Raised e => (server_error e, w)
            | Returned (category_id, category_name, confidence) =>
                match category_id with
                | None | Some 0 =>
                    (json_failure "Could not confidently predict a category", w)
                | Some category_id =>
                    match get_category category_id d with
                    | Some category =>
                        (json_prediction transaction_id category_id category_name
                           confidence, w)
                    | None =>
                        (json_failure "Predicted category not found in database", w)
                    end
                end
            end
        end
  end.

(** The loop of [auto_categorize_transactions] over the uncategorized
    transactions: the results collected so far are extended, rows are
    saved as they are categorized, and an exception of [predict] ends the
    request with the rows saved until then. *)
Fixpoint categorize_loop (categorizer : Categorizer) (fs : disk)
    (uncategorized : list Transaction) (d : database)
    (results : list (Z * string * option string * Q))
  : result (list (Z * string * option string * Q)) * database :=
  match uncategorized with
  | [] => (Returned results, d)
  | transaction :: rest =>
      let '(predicted, categorizer) :=
        predict categorizer fs (description transaction) in
      match predicted with
      | Raised e => (Raised e, d)
      | Returned (category_id, category_name, confidence) =>
          match category_id with
          | None | Some 0 => categorize_loop categorizer fs rest d results
          | Some category_id =>
              match get_category category_id d with
              | Some category =>
                  let transaction := assign_category transaction category in
                  categorize_loop categorizer fs rest
                    (save_transaction transaction d)
                    (results ++ [(id transaction, description transaction,
                                  category_name, confidence)])
              | None => categorize_loop categorizer fs rest d results
              end
          end
      end
  end.

Definition auto_categorize_transactions (u : Z) (w : world)
  : categorize_response * world :=
  let '(profile, d) := get_or_create_profile u (db w) in
  let w := with_db w d in
  if negb (enable_ai_categorization profile)
  then (json_failure "AI categorization is disabled in your profile settings.", w)
  else
    let training_transactions :=
      List.filter (fun tx => (user tx =? u) && truthy (category tx)) (transactions d) in
    if (length training_transactions <? 10)%nat
    then (json_failure "Not enough categorized transactions for training. Please categorize at least 10 transactions manually.", w)
    else
      let uncategorized :=
        List.filter (fun tx => (user tx =? u) && negb (truthy (category tx)))
                    (transactions d) in
      match uncategorized with
      | [] => (json_categorized 0 0 [], w)
      | _ =>
          let categorizer := __init__ in
          let '(trained, categorizer, fs) :=
            train train_test_split fit score categorizer (model_file w)
                  training_transactions false in
          match trained with
          | Raised e => (server_error e, {| db := d; model_file := fs |})
          | Returned _ =>
              let '(looped, d) := categorize_loop categorizer fs uncategorized d [] in
              let w := {| db := d; model_file := fs |} in
              match looped with
              | Raised e => (server_error e, w)
              | Returned results =>
                  (json_categorized (length results) (length uncategorized) results, w)
              end
          end
      end.

End Categorization.

(** *** [anomaly_detection] *)

Record Anomaly : Type := {
  anomaly_id : Z;
  anomaly_tx : Transaction;
  anomaly_type : string;
  reason : anomaly_description;
  anomaly_status : string;
  score : Q
}.

(** [a == b] on two [category] attributes. *)
Definition same_category (a b : option Category) : bool :=
  match a, b with
  | None, None => true
  | Some x, Some y => category_id x =? category_id y
  | _, _ => false
  end.

(** [needle in haystack] *)
Fixpoint contains (needle haystack : string) {struct haystack} : bool :=
  Middleware.startswith haystack needle
  || match haystack with
     | EmptyString => false
     | String _ rest => contains needle rest
     end.

Definition determine_anomaly_type (transaction : Transaction)
    (all_transactions : list Transaction) : result (string * anomaly_description) :=
  let expenses := List.filter is_expense all_transactions in
  match expenses with
  | [] => Returned ("amount"%string, unusual_transaction)
  | _ =>
      let category_transactions :=
        List.filter (fun tx => same_category (category tx) (category transaction))
                    expenses in
      let above_average :=
        match category_transactions with
        | [] => Returned None
        | _ =>
            let avg_amount :=
              (sum_amounts category_transactions
               / inject_Z (Z.of_nat (length category_transactions)))%Q in
            if Qgtb (amount transaction) (avg_amount * 2)%Q
            then match py_div (amount transaction) avg_amount with
                 | Raised e => Raised e
                 | Returned ratio => Returned (Some ratio)
                 end
            else Returned None
        end in
      match above_average with
      | Raised e => Raised e
      | Returned (Some ratio) => Returned ("amount"%string, amount_above_average ratio)
      | Returned None =>
          let mine := TransactionCategorizer.lower (description transaction) in
          let similar_desc_count :=
            length (List.filter
                      (fun tx =>
                         let theirs := TransactionCategorizer.lower (description tx) in
                         contains theirs mine || contains mine theirs)
                      expenses) in
          if (similar_desc_count <=? 1)%nat
          then Returned ("merchant"%string, first_merchant)
          else
            let transaction_day := weekday (tx_date transaction) in
            let day_counts :=
              map (fun d => length (List.filter
                                      (fun tx => weekday (tx_date tx) =? d) expenses))
                  [0; 1; 2; 3; 4; 5; 6] in
            let on_day := nth (Z.to_nat transaction_day) day_counts O in
            let busiest := fold_right Nat.max O day_counts in
            if Qltb (inject_Z (Z.of_nat on_day))
                    (inject_Z (Z.of_nat busiest) * (2 # 10))%Q
            then Returned ("frequency"%string, unusual_day transaction_day)
            else Returned ("amount"%string, unusual_pattern)
      end
  end.

(** The [timeframe] query parameter: ['all'], text that [int] parses, or
    text on which it raises [ValueError]. *)
Inductive timeframe_param : Type :=
| timeframe_all
| timeframe_days (n : Z)
| timeframe_invalid.

(** What the template is given: the anomalies after the status filter
    and the page of them that is shown.  (The chart statistics, which are
    computed from the same list, are left out.) *)
Inductive anomaly_page : Type :=
| rendered (anomalies_list page_items : list Anomaly)
| anomaly_error (exn : string).

(** [Paginator(items, 10).get_page(page).object_list] *)
Definition get_page {A : Type} (items : list A) (page : Z) : list A :=
  let count := Z.of_nat (length items) in
  let num_pages := Z.max 1 ((count + 9) / 10) in
  let number := if (page <? 1) || (num_pages <? page) then num_pages else page in
  firstn 10 (skipn (Z.to_nat ((number - 1) * 10)) items).

(** The query set [transactions] of [anomaly_detection]: the user's
    transactions dated from [start_date] to [end_date]. *)
Definition period_transactions (today : date) (u : Z) (timeframe : timeframe_param)
    (d : database) : list Transaction :=
  let days :=
    match timeframe with
    | timeframe_all => 9999
    | timeframe_days n => n
    | timeframe_invalid => 30
    end in
  let end_date := toordinal today in
  let start_date := end_date - days in
  List.filter
    (fun tx => (user tx =? u) && (start_date <=? toordinal (tx_date tx))
               && (toordinal (tx_date tx) <=? end_date))
    (transactions d).

Section AnomalyDetection.
Variable fit_predict : Q -> list (Q * option nat) -> result (list Z).

(** The loop that turns the analyzer's results into [Anomaly] tuples. *)
Fixpoint build_anomalies (u : Z) (d : database) (period : list Transaction)
    (existing_anomalies : list SpendingAnomaly)
    (anomaly_results : list SpendingAnalyzer.anomaly_info)
    (anomalies_list : list Anomaly) : result (list Anomaly) :=
  match anomaly_results with
  | [] => Returned anomalies_list
  | anomaly_data :: rest =>
      match get_transaction (SpendingAnalyzer.info_id anomaly_data) u d with
      | None => build_anomalies u d period existing_anomalies rest anomalies_list
      | Some tx =>
          let '(anomaly_status, anomaly_id, anomaly_score) :=
            match find (fun existing => anomaly_transaction_id existing =? id tx)
                       existing_anomalies with
            | Some existing =>
                ((if is_verified existing then "reviewed" else "new")%string,
                 anomaly_pk existing, anomaly_score existing)
            | None => ("new"%string, Z.of_nat (length anomalies_list) + 1, 0%Q)
            end in
          match determine_anomaly_type tx period with
          | Raised e => Raised e
          | Returned (anomaly_type, reason) =>
              build_anomalies u d period existing_anomalies rest
                (anomalies_list ++
                   [{| anomaly_id := anomaly_id; anomaly_tx := tx;
                       anomaly_type := anomaly_type; reason := reason;
                       anomaly_status := anomaly_status; score := anomaly_score |}])
          end
      end
  end.

(** "Save new anomalies to database". *)
Fixpoint save_new_anomalies (u : Z) (existing_tx_ids : list Z)
    (anomalies_list : list Anomaly) (d : database) : database :=
  match anomalies_list with
  | [] => d
  | anomaly :: rest =>
      let d :=
        if existsb (Z.eqb (id (anomaly_tx anomaly))) existing_tx_ids then d
        else create_anomaly u (id (anomaly_tx anomaly))
               (if Qeq_bool (score anomaly) 0 then (8 # 10)%Q else score anomaly)
               (reason anomaly) d in
      save_new_anomalies u existing_tx_ids rest d
  end.

(** [today] is [timezone.now().date()].  The user object handed to the
    analyzer is [request.user], on which [userprofile] is not an
    attribute (the profile's [related_name] is ['profile']). *)
Definition anomaly_detection (today : date) (u : Z) (status : string)
    (timeframe : timeframe_param) (page : Z) (w : world) : anomaly_page * world :=
  let period := period_transactions today u timeframe (db w) in
  let '(profile, d) := get_or_create_profile u (db w) in
  let built :=
    if negb (enable_ai_insights profile) then (Returned [], d)
    else
      let '(self_user, _) :=
        SpendingAnalyzer.__init__ (Some {| user_id := u; userprofile := None |}) in
      let anomaly_results := SpendingAnalyzer.detect_anomalies fit_predict self_user period in
      let existing_anomalies :=
        List.filter (fun a => anomaly_user a =? u) (anomalies d) in
      let existing_tx_ids := map anomaly_transaction_id existing_anomalies in
      match build_anomalies u d period existing_anomalies anomaly_results [] with
      | Raised e => (Raised e, d)
      | Returned anomalies_list =>
          (Returned anomalies_list,
           save_new_anomalies u existing_tx_ids anomalies_list d)
      end in
  match built with
  | (Raised e, d) => (anomaly_error e, with_db w d)
  | (Returned anomalies_list, d) =>
      let anomalies_list :=
        if String.eqb status "all" then anomalies_list
        else List.filter (fun a => String.eqb (anomaly_status a) status) anomalies_list in
      (rendered anomalies_list (get_page anomalies_list page), with_db w d)
  end.

End AnomalyDetection.

(** *** [get_anomalies] *)

Record anomaly_json : Type := {
  json_id : Z;
  json_date : date;
  json_description : string;
  json_category : string;
  json_amount : Q;
  json_account : string;
  json_reason : string;
  json_confidence : Z
}.

Inductive anomalies_response : Type :=
| anomalies_message (message : string)
| anomalies_found (paged_anomalies : list anomaly_json)
                  (total_items : nat) (total_pages current_page : Z).

Definition reasons : list string :=
  [ "Unusually high amount for this category";
    "Transaction frequency is higher than normal";
    "First transaction with this merchant";
    "Amount significantly different from previous patterns";
    "Irregular transaction timing" ]%string.

(** The loop over [enumerate(sample_transactions)]. *)
Fixpoint describe_sample (i : Z) (sample_transactions : list Transaction)
    (t : Random.tape) : list anomaly_json * Random.tape :=
  match sample_transactions with
  | [] => ([], t)
  | transaction :: rest =>
      let '(why, t) := Random.choice ""%string reasons t in
      let '(confidence, t) := Random.randint 65 95 t in
      let '(others, t) := describe_sample (i + 1) rest t in
      ({| json_id := i + 1;
          json_date := tx_date transaction;
          json_description := description transaction;
          json_category := SpendingAnalyzer.row_category_name transaction;
          json_amount := amount transaction;
          json_account := account_name transaction;
          json_reason := why;
          json_confidence := confidence |} :: others, t)
  end.

(** The transactions the endpoint draws from: the user's, within the
    time frame, newest first. *)
Definition stored_transactions (today : date) (u : Z) (timeframe : string)
    (d : database) : list Transaction :=
  let days :=
    if String.eqb timeframe "3months" then 90
    else if String.eqb timeframe "6months" then 180
    else if String.eqb timeframe "1year" then 365
    else if String.eqb timeframe "all" then 9999
    else 30 in
  let transactions_query := List.filter (fun tx => user tx =? u) (transactions d) in
  let transactions_query :=
    if String.eqb timeframe "all" then transactions_query
    else List.filter (fun tx => toordinal today - days <=? toordinal (tx_date tx))
                     transactions_query in
  sort_desc (fun tx => inject_Z (toordinal (tx_date tx))) transactions_query.

(** The transactions [random.sample] picks in [get_anomalies]. *)
Definition sample_transactions (today : date) (u : Z) (timeframe : string)
    (d : database) (t : Random.tape) : list Transaction :=
  let transactions := stored_transactions today u timeframe d in
  let anomaly_count := Nat.min (length transactions / 5) 20 in
  fst (Random.sample transactions anomaly_count t).

(** [today] is [datetime.now()]'s date, [t] the draws of this run. *)
Definition get_anomalies (t : Random.tape) (today : date) (u : Z)
    (timeframe : string) (page : Z) (w : world)
  : anomalies_response * world * Random.tape :=
  let '(profile, d) := get_or_create_profile u (db w) in
  let w := with_db w d in
  if negb (enable_ai_insights profile)
  then (anomalies_message "Anomaly detection is disabled in your profile settings.", w, t)
  else
    let transactions := stored_transactions today u timeframe d in
    if (length transactions <? 5)%nat
    then (anomalies_message "Need at least 5 transactions for anomaly detection.", w, t)
    else
      let anomaly_count := Nat.min (length transactions / 5) 20 in
      let '(sample_transactions, t) := Random.sample transactions anomaly_count t in
      let '(anomalies, t) := describe_sample 0 sample_transactions t in
      let items_per_page := 10 in
      let total_pages := (Z.of_nat (length anomalies) + items_per_page - 1) / items_per_page in
      let page := Z.max 1 (Z.min page total_pages) in
      let start_idx := (page - 1) * items_per_page in
      let paged_anomalies :=
        firstn (Z.to_nat items_per_page) (skipn (Z.to_nat start_idx) anomalies) in
      (anomalies_found paged_anomalies (length anomalies) total_pages page, w, t).

(** *** [spending_forecast] and [spending_predictions] *)

Inductive forecast_response : Type :=
| forecast_failure (message : string)
| forecast_success (predictions : list SpendingAnalyzer.monthly_prediction).

(** The response, the database after the request, and the scikit-learn
    calls made on the way. *)
Definition spending_forecast (u : Z) (w : world)
  : forecast_response * world * list SpendingAnalyzer.sklearn_call :=
  let '(profile, d) := get_or_create_profile u (db w) in
  let w := with_db w d in
  if negb (enable_ai_insights profile)
  then (forecast_failure "AI insights are disabled in your profile settings.", w, [])
  else
    let transactions := List.filter (fun tx => user tx =? u) (transactions d) in
    if (length transactions <? 10)%nat
    then (forecast_failure "Not enough transaction history for forecasting.", w, [])
    else
      let '(_, calls) := SpendingAnalyzer.__init__ None in
      let forecast := SpendingAnalyzer.predict_monthly_spending transactions 3 in
      (forecast_success forecast, w, calls).

Record predictions_context : Type := {
  context_predictions : list SpendingAnalyzer.monthly_prediction;
  suggested_goal : option (Q * Q * Q);   (* before [round(_, 2)] *)
  savings_per_month : list Q
}.

(** [monthly_savings]: per month ['%Y-%m'], the income and the expenses
    added up; the months in increasing order. *)
Definition monthly_savings (transactions : list Transaction) : list Q :=
  let income := List.filter is_income transactions in
  let expenses := List.filter is_expense transactions in
  let months :=
    map fst (groupby_sum Z.eqb Z.ltb
               (map (fun tx => (to_period (tx_date tx), 0%Q)) (income ++ expenses))) in
  map (fun m =>
         (sum_amounts (List.filter (fun tx => to_period (tx_date tx) =? m) income)
          - sum_amounts (List.filter (fun tx => to_period (tx_date tx) =? m) expenses))%Q)
      months.

Definition spending_predictions (u : Z) (w : world)
  : predictions_context * list SpendingAnalyzer.sklearn_call :=
  let transactions := List.filter (fun tx => user tx =? u) (transactions (db w)) in
  let '(_, calls) :=
    SpendingAnalyzer.__init__ (Some {| user_id := u; userprofile := None |}) in
  let predictions := SpendingAnalyzer.predict_monthly_spending transactions 6 in
  let savings_per_month := monthly_savings transactions in
  let avg_savings :=
    match savings_per_month with
    | [] => 0%Q
    | _ => mean savings_per_month
    end in
  let suggested_goal :=
    if Qgtb avg_savings 0
    then Some (avg_savings, (avg_savings * 6)%Q, (avg_savings * 12)%Q)
    else None in
  ({| context_predictions := predictions; suggested_goal := suggested_goal;
      savings_per_month := savings_per_month |}, calls).

(** *** Vocabulary of the statements about the handlers *)

(** The transaction, category and budget tables are the same. *)
Definition same_records (d d' : database) : Prop :=
  transactions d' = transactions d /\
  category_table d' = category_table d /\
  budgets d' = budgets d.




End Views.

(** ** Concrete inputs used by the examples below *)

Module Examples.
Import Models TransactionCategorizer.

Definition food : Category := {| category_id := 1; category_name := "Food" |}.
Definition rent : Category := {| category_id := 2; category_name := "Rent" |}.

(** A classifier over the classes 1 and 2 that is sure of class 2. *)
Definition rent_model : Pipeline :=
  {| predict_proba := fun _ => Returned [2 # 10; 8 # 10]; classes_ := [1; 2] |}.

(** A classifier with the single class 1. *)
Definition food_model : Pipeline :=
  {| predict_proba := fun _ => Returned [1%Q]; classes_ := [1] |}.

Definition both_names : gmap Z string := <[1 := "Food"]> (<[2 := "Rent"]> ∅).
Definition both_ids : gmap string Z := <["Food" := 1]> (<["Rent" := 2]> ∅).

Definition rent_categorizer : Categorizer :=
  {| model := Some rent_model; categories := both_names;
     category_id_map := both_ids; min_confidence := 35 # 100 |}.

Definition food_categorizer : Categorizer :=
  {| model := Some food_model; categories := <[1 := "Food"]> ∅;
     category_id_map := <["Food" := 1]> ∅; min_confidence := 35 # 100 |}.

Definition empty_disk : disk := {| file := None; writable := true |}.

(** A disk on which another categorizer has saved [rent_model]. *)
Definition rent_disk : disk :=
  {| file := Some (model_data rent_model both_names both_ids); writable := true |}.

(** Library stand-ins for the calls of [train] that the examples never
    reach. *)
Definition no_split (X : list string) (y : list Z)
  : (list string * list string) * (list Z * list Z) := ((X, []), (y, [])).
Definition no_fit (X : list string) (y : list Z) : result Pipeline :=
  Raised "ValueError".
Definition no_score (m : Pipeline) (X : list string) (y : list Z) : result Q :=
  Returned 0%Q.

(** Five categorized expenses of 300 each in January 2024, and a budget
    of amount 0 for their category. *)
Definition grocery (n : Z) : Transaction :=
  {| id := n; user := 1; account_name := "Cash"; category := Some food;
     amount := 300%Q;
     transaction_type := "expense";
     tx_date := {| year := 2024; month := 1; day := n |};
     description := "Grocery store"; ai_categorized := false |}.

Definition groceries : list Transaction :=
  [grocery 1; grocery 2; grocery 3; grocery 4; grocery 5].


(** Twelve expenses of user 1, four of 100 in each of January, February
    and March 2024, in a database with nothing else. *)
Definition bill (month day : Z) : Transaction :=
  {| id := month * 100 + day; user := 1; account_name := "Cash";
     category := Some rent; amount := 100%Q; transaction_type := "expense";
     tx_date := {| year := 2024; month := month; day := day |};
     description := "Utility bill"; ai_categorized := false |}.

Definition quarter_of_bills : list Transaction :=
  flat_map (fun m => [bill m 1; bill m 8; bill m 15; bill m 22]) [1; 2; 3].

Definition empty_database : Views.database :=
  {| Views.transactions := []; Views.category_table := []; Views.budgets := [];
     Views.anomalies := []; Views.profiles := [] |}.

Definition bills_world : Views.world :=
  {| Views.db :=
       {| Views.transactions := quarter_of_bills;
          Views.category_table := [food; rent]; Views.budgets := [];
          Views.anomalies := []; Views.profiles := [] |};
     Views.model_file := empty_disk |}.

(** Five transactions of user 1 on five days, told apart by their
    descriptions. *)
Definition purchase (n : Z) (what : string) : Transaction :=
  {| id := n; user := 1; account_name := "Cash"; category := Some food;
     amount := 250%Q; transaction_type := "expense";
     tx_date := {| year := 2024; month := 5; day := n |};
     description := what; ai_categorized := false |}.

Definition five_purchases : list Transaction :=
  [purchase 5 "Bakery"; purchase 4 "Butcher"; purchase 3 "Market";
   purchase 2 "Dairy"; purchase 1 "Orchard"].

Definition purchases_world : Views.world :=
  {| Views.db :=
       {| Views.transactions := five_purchases;
          Views.category_table := [food; rent]; Views.budgets := [];
          Views.anomalies := []; Views.profiles := [] |};
     Views.model_file := empty_disk |}.

Definition may_31 : date := {| year := 2024; month := 5; day := 31 |}.


(** A single expense of negative amount (a refund booked as an
    expense), with no income. *)
Definition refund_only : list Transaction :=
  [ {| id := 1; user := 1; account_name := "Bank"; category := Some food;
       amount := (-5)%Q; transaction_type := "expense";
       tx_date := {| year := 2024; month := 5; day := 3 |};
       description := "Refund"; ai_categorized := false |} ].

Definition food_budget : Budget :=
  {| budget_id := 7; budget_user := 1; budget_category := food;
     budget_amount := 1000%Q;
     start_date := {| year := 2024; month := 1; day := 1 |} |}.

Definition jan_10 : date := {| year := 2024; month := 1; day := 10 |}.

(** Isolation forests that flag every row, and none. *)
Definition flag_all (contamination : Q) (X : list (Q * option nat))
  : result (list Z) := Returned (map (fun _ => -1) X).
Definition flag_none (contamination : Q) (X : list (Q * option nat))
  : result (list Z) := Returned (map (fun _ => 1) X).

End Examples.

(** ** [analytics/views.py]: the insight and budget endpoints *)

Module Endpoints.
Import Models Pandas Views.

(** *** [get_spending_insights] *)

(** The query set of the endpoint: the user's transactions dated from
    [days] days before [now] on, newest first; [now] is the date of
    [datetime.now()]. *)
Definition insight_transactions (now : date) (u : Z) (timeframe : string)
    (d : database) : list Transaction :=
  let days :=
    if String.eqb timeframe "3months" then 90
    else if String.eqb timeframe "6months" then 180
    else if String.eqb timeframe "1year" then 365
    else if String.eqb timeframe "all" then 9999
    else 30 in
  sort_desc (fun tx => inject_Z (toordinal (tx_date tx)))
    (List.filter
       (fun tx => (user tx =? u) && (toordinal now - days <=? toordinal (tx_date tx)))
       (transactions d)).

(** The ['insights'] of the JSON response, or the exception that leaves
    the view; [today] is the date of [timezone.now()], which the
    analyzer reads. *)
Definition get_spending_insights (now today : date) (u : Z) (timeframe : string)
    (d : database) : result (list SpendingAnalyzer.insight) :=
  let transactions := insight_transactions now u timeframe d in
  if (length transactions <? 5)%nat then Returned []
  else SpendingAnalyzer.generate_spending_insights today transactions.

(** *** [get_budget_recommendations] *)

Inductive recommendations_response : Type :=
| insights_disabled (message : string)      (* with ['recommendations': []] *)
| recommendations_of (answer : BudgetAnalyzer.recommendations_result).

Definition get_budget_recommendations (u : Z) (w : world)
  : recommendations_response * world :=
  let '(profile, d) := get_or_create_profile u (db w) in
  let w := with_db w d in
  if negb (enable_ai_insights profile)
  then (insights_disabled "AI insights are disabled in your profile settings.", w)
  else
    let transactions := List.filter (fun tx => user tx =? u) (transactions d) in
    let budgets := List.filter (fun b => budget_user b =? u) (budgets d) in
    (recommendations_of
       (BudgetAnalyzer.generate_budget_recommendations transactions budgets), w).

(** *** [analyze_budget_performance] *)

Inductive performance_response : Type :=
| budget_not_found
| performance_of (answer : BudgetAnalyzer.performance_result).

(** [category=budget.category] on a transaction. *)
Definition of_budget_category (budget : Budget) (tx : Transaction) : bool :=
  match category tx with
  | Some c => category_id c =? category_id (budget_category budget)
  | None => false
  end.

Section BudgetEndpoint.

(** The column [end_date] of a budget row, which the [Budget] record
    leaves out. *)
Variable end_date : Budget -> option date.

(** The transactions the view hands to the analyzer. *)
Definition budget_transactions (today : date) (u : Z) (budget : Budget)
    (d : database) : list Transaction :=
  let last := match end_date budget with Some e => e | None => today end in
  List.filter
    (fun tx => (user tx =? u) && of_budget_category budget tx
               && (toordinal (start_date budget) <=? toordinal (tx_date tx))
               && (toordinal (tx_date tx) <=? toordinal last))
    (transactions d).

Definition analyze_budget_performance (today : date) (u pk : Z) (d : database)
  : performance_response :=
  match find (fun b => (budget_id b =? pk) && (budget_user b =? u)) (budgets d) with
  | None => budget_not_found
  | Some budget =>
      performance_of
        (BudgetAnalyzer.analyze_budget_performance today (Some budget)
           (budget_transactions today u budget d))
  end.

End BudgetEndpoint.

End Endpoints.

(** ** [analytics/views.py]: reviewing anomalies and their settings *)

Module Review.
Import Models Views.

(** *** The stored anomalies *)

(** The text column [description] of a [SpendingAnomaly] row: the reason
    [anomaly_detection] stored, or the text [mark_anomaly_reviewed]
    writes. *)
Inductive stored_description : Type :=
| detected (reason : anomaly_description)
| manually_reviewed.

Record AnomalyRow : Type := {
  row_pk : Z;
  row_user : Z;
  row_transaction_id : Z;
  row_score : Q;
  row_description : stored_description;
  row_is_verified : bool
}.

(** The two tables the review handlers touch. *)
Record tables : Type := {
  stored : list Transaction;
  anomaly_rows : list AnomalyRow
}.

(** The POST parameter [anomaly_id]: absent or empty, text that the
    [id] field converts to a number, or text on which that conversion
    raises [ValueError]. *)
Inductive id_param : Type :=
| id_absent
| id_number (n : Z)
| id_malformed.

Inductive review_response : Type :=
| marked_reviewed                    (* 'Anomaly marked as reviewed' *)
| ignored (anomaly_count : nat)      (* 'Ignored n similar anomalies' *)
| review_error (error : string)      (* ['success': False] with a fixed text *)
| review_exception (exn : string).   (* ['success': False] with [str(e)] *)

(** [SpendingAnomaly.objects.get(id=pk, user=u)] *)
Definition get_anomaly (n u : Z) (t : tables) : option AnomalyRow :=
  find (fun a => (row_pk a =? n) && (row_user a =? u)) (anomaly_rows t).

(** [Transaction.objects.get(id=pk, user=u)] *)
Definition get_own_transaction (n u : Z) (t : tables) : option Transaction :=
  find (fun tx => (id tx =? n) && (user tx =? u)) (stored t).

(** [anomaly.is_verified = True; anomaly.save()]: the row with the
    object's primary key is rewritten from the object. *)
Definition verify (anomaly : AnomalyRow) : AnomalyRow :=
  {| row_pk := row_pk anomaly; row_user := row_user anomaly;
     row_transaction_id := row_transaction_id anomaly;
     row_score := row_score anomaly;
     row_description := row_description anomaly;
     row_is_verified := true |}.

Definition save_verified (anomaly : AnomalyRow) (t : tables) : tables :=
  {| stored := stored t;
     anomaly_rows :=
       map (fun row => if row_pk row =? row_pk anomaly then verify anomaly else row)
           (anomaly_rows t) |}.

(** [SpendingAnomaly.objects.create(...)]: the object created, with a
    fresh primary key, and the table with its row. *)
Definition create_row (u tx_id : Z) (score : Q) (text : stored_description)
    (t : tables) : AnomalyRow * tables :=
  let created :=
    {| row_pk := 1 + fold_right Z.max 0 (map row_pk (anomaly_rows t));
       row_user := u; row_transaction_id := tx_id; row_score := score;
       row_description := text; row_is_verified := false |} in
  (created, {| stored := stored t; anomaly_rows := anomaly_rows t ++ [created] |}).

(** *** [mark_anomaly_reviewed] *)

Definition mark_anomaly_reviewed (u : Z) (anomaly_id : id_param) (t : tables)
  : review_response * tables :=
  match anomaly_id with
  | id_absent => (review_error "Anomaly ID is required", t)
  | id_malformed => (review_exception "ValueError", t)
  | id_number n =>
      match get_anomaly n u t with
      | Some anomaly => (marked_reviewed, save_verified anomaly t)
      | None =>
          match get_own_transaction n u t with
          | None => (review_error "Transaction not found", t)
          | Some transaction =>
              let '(anomaly, t) :=
                create_row u (id transaction) (8 # 10) manually_reviewed t in
              (marked_reviewed, save_verified anomaly t)
          end
      end
  end.

(** *** [ignore_similar_anomalies] *)

Section Similar.

(** [description__icontains=needle] on a row with description
    [haystack]: the case-insensitive containment test of the database. *)
Variable icontains : string -> string -> bool.

(** The loop over [similar_transactions]: the count so far, or the
    exception of a [get] that finds more than one row, and the table with
    the rows saved until then. *)
Fixpoint verify_similar (u : Z) (similar_transactions : list Transaction)
    (t : tables) (anomaly_count : nat) : result nat * tables :=
  match similar_transactions with
  | [] => (Returned anomaly_count, t)
  | similar_tx :: rest =>
      match List.filter
              (fun a => (row_transaction_id a =? id similar_tx) && (row_user a =? u))
              (anomaly_rows t) with
      | [] => verify_similar u rest t anomaly_count
      | [similar_anomaly] =>
          verify_similar u rest (save_verified similar_anomaly t) (S anomaly_count)
      | _ => (Raised "MultipleObjectsReturned", t)
      end
  end.

(** The query set [similar_transactions] for a transaction. *)
Definition similar_to (u : Z) (transaction : Transaction) (t : tables)
  : list Transaction :=
  List.filter
    (fun tx => (user tx =? u)
               && icontains (String.substring 0 10 (description transaction))
                            (description tx)
               && same_category (category tx) (category transaction)
               && negb (id tx =? id transaction))
    (stored t).

Definition ignore_similar_anomalies (u : Z) (anomaly_id : id_param) (t : tables)
  : review_response * tables :=
  match anomaly_id with
  | id_absent => (review_error "Anomaly ID is required", t)
  | id_malformed => (review_exception "ValueError", t)
  | id_number n =>
      let anomaly := get_anomaly n u t in
      let transaction :=
        match anomaly with
        | Some anomaly =>
            find (fun tx => id tx =? row_transaction_id anomaly) (stored t)
        | None => get_own_transaction n u t
        end in
      match transaction with
      | None => (review_error "Transaction not found", t)
      | Some transaction =>
          match verify_similar u (similar_to u transaction t) t 0 with
          | (Raised e, t) => (review_exception e, t)
          | (Returned anomaly_count, t) =>
              match anomaly with
              | None => (review_exception "UnboundLocalError", t)
              | Some anomaly => (ignored (S anomaly_count), save_verified anomaly t)
              end
          end
      end
  end.

End Similar.

(** *** Vocabulary of the statements about the review handlers *)

(** The primary key [create_row] gives a new row. *)
Definition next_pk (t : tables) : Z :=
  1 + fold_right Z.max 0 (map row_pk (anomaly_rows t)).

(** A row after a review request of user [u]: as it was, or a row of
    [u] that is now verified. *)
Definition verified_only (u : Z) (old new : AnomalyRow) : Prop :=
  new = old \/ (row_user old = u /\ new = verify old).

(** *** [update_anomaly_settings] *)

Inductive http_method : Type := GET | POST.

(** A POST parameter handed to [float]: absent, text that [float]
    parses (to a finite value), or text on which it raises. *)
Inductive float_param : Type :=
| float_absent
| float_text (value : Q)
| float_invalid.

Inductive settings_response : Type :=
| redirect_to_anomaly_detection
| settings_updated
| settings_error (exn : string).

(** [profile.save()] *)
Definition save_profile (profile : UserProfile) (d : database) : database :=
  {| transactions := transactions d; category_table := category_table d;
     budgets := budgets d; anomalies := anomalies d;
     profiles :=
       map (fun row => if profile_user row =? profile_user profile then profile else row)
           (profiles d) |}.

(** [ajax] tells that the request carries the header
    [X-Requested-With: XMLHttpRequest].  (The notification switch, which
    the handler stores as well, is not a column of the [UserProfile]
    record.) *)
Definition update_anomaly_settings (method : http_method) (ajax : bool)
    (sensitivity min_amount : float_param) (u : Z) (d : database)
  : settings_response * database :=
  match method with
  | GET => (redirect_to_anomaly_detection, d)
  | POST =>
      if negb ajax then (redirect_to_anomaly_detection, d)
      else
        let '(profile, d) := get_or_create_profile u d in
        match sensitivity, min_amount with
        | float_invalid, _ | _, float_invalid => (settings_error "ValueError", d)
        | _, _ =>
            let sensitivity :=
              match sensitivity with float_text q => q | _ => 1%Q end in
            let min_amount :=
              match min_amount with float_text q => q | _ => 100%Q end in
            (settings_updated,
             save_profile
               {| profile_user := profile_user profile;
                  enable_ai_insights := enable_ai_insights profile;
                  enable_ai_categorization := enable_ai_categorization profile;
                  anomaly_detection_sensitivity := sensitivity;
                  anomaly_min_amount := min_amount |} d)
        end
  end.

End Review.

(** ** [financial/models.py]: savings goals, and their forecast in
       [analytics/views.py] *)

Module Goals.
Import Models Pandas Views.








(** *** [savings_forecast] *)





End Goals.

(** ** Further concrete inputs *)

Module MoreExamples.
Import Models TransactionCategorizer Examples.

(** The twelve bills and one uncategorized rent payment of user 1, with
    the model of [rent_disk] on disk. *)
Definition rent_april : Transaction :=
  {| id := 500; user := 1; account_name := "Bank"; category := None;
     amount := 900%Q; transaction_type := "expense";
     tx_date := {| year := 2024; month := 4; day := 2 |};
     description := "RENT April"; ai_categorized := false |}.

Definition rent_world : Views.world :=
  {| Views.db :=
       {| Views.transactions := quarter_of_bills ++ [rent_april];
          Views.category_table := [food; rent]; Views.budgets := [];
          Views.anomalies := []; Views.profiles := [] |};
     Views.model_file := rent_disk |}.

(** A fit that always produces [rent_model]. *)
Definition fit_rent (X : list string) (y : list Z) : result Pipeline :=
  Returned rent_model.

(** Food bought for 100 in January and for 300 in February 2024. *)
Definition food_purchase (n month : Z) (cost : Q) : Transaction :=
  {| id := n; user := 1; account_name := "Cash"; category := Some food;
     amount := cost; transaction_type := "expense";
     tx_date := {| year := 2024; month := month; day := 5 |};
     description := "Supermarket"; ai_categorized := false |}.

Definition rising_food : list Transaction :=
  [food_purchase 1 1 100%Q; food_purchase 2 2 300%Q].

Definition feb_20 : date := {| year := 2024; month := 2; day := 20 |}.

(** The twelve bills with two unverified anomalies of user 1, on the
    bills 101 and 108. *)
Definition flagged_bills : Review.tables :=
  {| Review.stored := quarter_of_bills;
     Review.anomaly_rows :=
       [ {| Review.row_pk := 1; Review.row_user := 1;
            Review.row_transaction_id := 101; Review.row_score := 8 # 10;
            Review.row_description := Review.detected Views.unusual_pattern;
            Review.row_is_verified := false |};
         {| Review.row_pk := 2; Review.row_user := 1;
            Review.row_transaction_id := 108; Review.row_score := 8 # 10;
            Review.row_description := Review.detected Views.unusual_pattern;
            Review.row_is_verified := false |} ] |}.

(** Containment of the lower-cased texts, as a database would test
    [icontains] on ASCII text. *)
Definition ascii_icontains (needle haystack : string) : bool :=
  Views.contains (lower needle) (lower haystack).

(** The five groceries of user 1 with the food budget of 1000. *)
Definition grocery_world : Views.world :=
  {| Views.db :=
       {| Views.transactions := groceries;
          Views.category_table := [food; rent]; Views.budgets := [food_budget];
          Views.anomalies := []; Views.profiles := [] |};
     Views.model_file := empty_disk |}.

(** A budget table without end dates. *)
Definition open_ended (b : Budget) : option date := None.


End MoreExamples.

(** * Properties *)

Section MiddlewareFacts.
Import Middleware.

Lemma startswith_slash (s : string) :
  startswith (String "/" s) "/" = true.
Proof. reflexivity. Qed.

(** Every path that begins with a slash is matched by the first entry
    of [exempt_urls], so the redirect branch is never reached. *)
Lemma process_request_rooted (login_url : string) (auth : bool) (p nxt : string) :
  process_request login_url
    {| is_authenticated := auth; path_info := String "/" p; path := nxt |} = None.
Proof.
  unfold process_request; simpl. destruct auth; reflexivity.
Qed.

(** C1 (the authenticated half): a request of an authenticated user
    proceeds. *)
Lemma process_request_authenticated (login_url : string) (request : HttpRequest) :
  is_authenticated request = true ->
  process_request login_url request = None.
Proof. intros H. unfold process_request. rewrite H. reflexivity. Qed.

(** C1: an unauthenticated request for ["/dashboard/"], a path that is
    none of the documented exemptions, is not redirected to the login
    page: [process_request] returns [None] and the request proceeds. *)
Theorem C1_unauthenticated_dashboard_not_redirected :
  let request := {| is_authenticated := false;
                    path_info := "/dashboard/"; path := "/dashboard/" |} in
  documented_exempt (path_info request) = false /\
  process_request "/accounts/login/" request = None /\
  process_request "/accounts/login/" request
    <> Some (redirect_to_login "/dashboard/" "/accounts/login/").
Proof.
  simpl. split; [reflexivity|]. split; [reflexivity|discriminate].
Qed.

End MiddlewareFacts.

Section CategorizerFacts.
Import Models TransactionCategorizer.

(** *** Maximum and argmax *)





Lemma predict_unavailable (self : Categorizer) (fs : disk) (description : string) :
  available self fs = None ->
  fst (predict self fs description) = Returned no_prediction.
Proof.
  unfold available, predict, _load_model. intros Hav.
  destruct (model self) as [m|] eqn:Hm; [discriminate|].
  destruct (file fs) as [[m cats idmap|]|]; simpl; try discriminate;
    rewrite ?Hm; reflexivity.
Qed.

Lemma predict_available (self : Categorizer) (fs : disk) (description : string)
    (m : Pipeline) (cats : gmap Z string) :
  available self fs = Some (m, cats) ->
  fst (predict self fs description) =
    let processed_text := _preprocess_text description in
    if String.eqb processed_text "" then Returned no_prediction
    else match predict_proba m processed_text with
         | Raised e => Raised e
         | Returned probabilities =>
             match py_max probabilities with
             | None => Raised "ValueError"
             | Some max_prob =>
                 match nth_error (classes_ m) (argmax probabilities) with
                 | None => Raised "IndexError"
                 | Some cid =>
                     if negb (Qle_bool (min_confidence self) max_prob)
                     then Returned no_prediction
                     else Returned (Some cid, cats !! cid, max_prob)
                 end
             end
         end.
Proof.
  unfold available, predict, _load_model. intros Hav.
  destruct (model self) as [m0|] eqn:Hm.
  - inversion Hav; subst. rewrite Hm. simpl.
    destruct (String.eqb _ _); [reflexivity|].
    destruct (predict_proba m _); [|reflexivity].
    destruct (py_max a); [|reflexivity].
    destruct (nth_error _ _); [|reflexivity].
    destruct (negb _); reflexivity.
  - destruct (file fs) as [[m0 cats0 idmap|]|]; try discriminate.
    inversion Hav; subst. simpl.
    destruct (String.eqb _ _); [reflexivity|].
    destruct (predict_proba m _); [|reflexivity].
    destruct (py_max a); [|reflexivity].
    destruct (nth_error _ _); [|reflexivity].
    destruct (negb _); reflexivity.
Qed.



(** *** Persistence *)

Lemma save_then_load (self other : Categorizer) (fs fs' : disk) (m : Pipeline) :
  model self = Some m ->
  _save_model self fs = Returned fs' ->
  _load_model other fs' =
    (true, {| model := Some m; categories := categories self;
              category_id_map := category_id_map self;
              min_confidence := min_confidence other |}).
Proof.
  unfold _save_model, _load_model. intros Hm. rewrite Hm.
  destruct (writable fs); intros Hsave; inversion Hsave; subst; reflexivity.
Qed.

Section TrainFacts.
Variable train_test_split :
  list string -> list Z -> (list string * list string) * (list Z * list Z).
Variable fit : list string -> list Z -> result Pipeline.
Variable score : Pipeline -> list string -> list Z -> result Q.

Lemma train_already_loaded (self : Categorizer) (fs : disk) (txs : list Transaction) :
  truthy (model self) = true ->
  train train_test_split fit score self fs txs false
    = (Returned (None, skipped), self, fs).
Proof. unfold train. intros ->. reflexivity. Qed.

Lemma train_file_exists (self : Categorizer) (fs : disk) (txs : list Transaction) :
  model self = None ->
  truthy (file fs) = true ->
  train train_test_split fit score self fs txs false
    = (Returned (None, loaded), snd (_load_model self fs), fs).
Proof. unfold train. intros -> ->. reflexivity. Qed.

End TrainFacts.

(** C7, as stated, fails: a categorizer that holds [food_model] in
    memory is asked to train without [force_retrain] while the file on
    disk holds [rent_model]; [train] returns at once, and the model it
    leaves in place is not the persisted one. *)
Lemma C7_loaded_model_is_not_reloaded :
  let outcome := train Examples.no_split Examples.no_fit Examples.no_score
                   Examples.food_categorizer Examples.rent_disk [] false in
  truthy (model Examples.food_categorizer) = true /\
  file Examples.rent_disk
    = Some (model_data Examples.rent_model Examples.both_names Examples.both_ids) /\
  outcome = (Returned (None, skipped), Examples.food_categorizer, Examples.rent_disk) /\
  model (snd (fst outcome)) <> Some Examples.rent_model /\
  categories (snd (fst outcome)) <> Examples.both_names.
Proof.
  cbv zeta. repeat split.
  - intros H. apply (f_equal (fun o => match o with
                                        | Some m => classes_ m
                                        | None => []
                                        end)) in H.
    discriminate H.
  - intros H. apply (f_equal (fun cats : gmap Z string => cats !! 2)) in H.
    vm_compute in H. discriminate H.
Qed.

(** C7 (amended): a successful [_save_model] followed by [_load_model]
    restores the model, the categories map and the category id map; and
    [train] without [force_retrain] never fits a model when one is loaded
    or the file exists: with a model already loaded it returns at once
    and leaves the categorizer and the disk as they are (the file is not
    read); with no model loaded and the file present it does what
    [_load_model] does, which for a readable file installs the persisted
    model, categories and category id map. *)
Theorem C7_persistence
    (train_test_split :
       list string -> list Z -> (list string * list string) * (list Z * list Z))
    (fit : list string -> list Z -> result Pipeline)
    (score : Pipeline -> list string -> list Z -> result Q)
    (self other : Categorizer) (fs fs' : disk) (m : Pipeline)
    (txs : list Transaction) :
  (model self = Some m -> _save_model self fs = Returned fs' ->
     _load_model other fs' =
       (true, {| model := Some m; categories := categories self;
                 category_id_map := category_id_map self;
                 min_confidence := min_confidence other |})) /\
  (truthy (model self) = true ->
     train train_test_split fit score self fs txs false
       = (Returned (None, skipped), self, fs)) /\
  (model self = None -> truthy (file fs) = true ->
     train train_test_split fit score self fs txs false
       = (Returned (None, loaded), snd (_load_model self fs), fs) /\
     forall m' cats idmap,
       file fs = Some (model_data m' cats idmap) ->
       snd (_load_model self fs) =
         {| model := Some m'; categories := cats; category_id_map := idmap;
            min_confidence := min_confidence self |}).
Proof.
  split; [apply save_then_load|]. split; [apply train_already_loaded|].
  intros Hnone Hfile. split; [apply train_file_exists; assumption|].
  intros m' cats idmap Hf. unfold _load_model. rewrite Hf. reflexivity.
Qed.

Lemma C7_persistence_witness :
  (_load_model __init__
     {| file := Some (model_data Examples.food_model
                        (categories Examples.food_categorizer)
                        (category_id_map Examples.food_categorizer));
        writable := true |}
   = (true, {| model := Some Examples.food_model;
               categories := categories Examples.food_categorizer;
               category_id_map := category_id_map Examples.food_categorizer;
               min_confidence := min_confidence __init__ |})) /\
  (train Examples.no_split Examples.no_fit Examples.no_score
     Examples.food_categorizer Examples.empty_disk [] false
   = (Returned (None, skipped), Examples.food_categorizer, Examples.empty_disk)) /\
  (train Examples.no_split Examples.no_fit Examples.no_score
     __init__ Examples.rent_disk [] false
   = (Returned (None, loaded), snd (_load_model __init__ Examples.rent_disk),
      Examples.rent_disk)).
Proof.
  pose proof (C7_persistence Examples.no_split Examples.no_fit Examples.no_score
                Examples.food_categorizer __init__ Examples.empty_disk
                {| file := Some (model_data Examples.food_model
                                   (categories Examples.food_categorizer)
                                   (category_id_map Examples.food_categorizer));
                   writable := true |}
                Examples.food_model []) as (Hround & Hskip & _).
  pose proof (C7_persistence Examples.no_split Examples.no_fit Examples.no_score
                __init__ __init__ Examples.rent_disk Examples.rent_disk
                Examples.food_model []) as (_ & _ & Hload).
  split; [apply Hround; reflexivity|]. split; [apply Hskip; reflexivity|].
  apply Hload; reflexivity.
Defined.

End CategorizerFacts.

Section AnalyzerFacts.
Import Models Pandas SpendingAnalyzer.

(** *** Comparisons *)

Lemma Qltb_lt (a b : Q) : Qltb a b = true <-> (a < b)%Q.
Proof.
  unfold Qltb. rewrite negb_true_iff. split.
  - intros H. apply Qnot_le_lt. intros Hle. apply Qle_bool_iff in Hle. congruence.
  - intros H. destruct (Qle_bool b a) eqn:E; [|reflexivity].
    apply Qle_bool_iff in E. exfalso. eapply Qlt_not_le; eassumption.
Qed.

Lemma Qltb_ge (a b : Q) : Qltb a b = false <-> (b <= a)%Q.
Proof.
  unfold Qltb. rewrite negb_false_iff. apply Qle_bool_iff.
Qed.

Lemma Qgeb_ge (a b : Q) : Qgeb a b = true <-> (b <= a)%Q.
Proof. apply Qle_bool_iff. Qed.

(** *** Anomaly detection *)

Lemma anomalous_ids_in (df : list Transaction) (scores : list Z) (tx_id : Z) :
  In tx_id (anomalous_ids df scores) -> exists tx, In tx df /\ id tx = tx_id.
Proof.
  revert scores. induction df as [|tx df IH]; intros [|s scores] Hin;
    simpl in Hin; try contradiction.
  destruct (s =? -1).
  - destruct Hin as [<-|Hin].
    + exists tx. split; [left; reflexivity|reflexivity].
    + destruct (IH _ Hin) as (tx' & Htx' & Hid). exists tx'. split; [right|]; assumption.
  - destruct (IH _ Hin) as (tx' & Htx' & Hid). exists tx'. split; [right|]; assumption.
Qed.

Lemma is_expense_type (tx : Transaction) :
  is_expense tx = true <-> transaction_type tx = "expense"%string.
Proof. apply String.eqb_eq. Qed.

(** Every id [detect_spending_anomalies] returns belongs to an expense
    of the input that passed the minimum-amount filter. *)
Lemma detect_spending_anomalies_sound
    (fit_predict : Q -> list (Q * option nat) -> result (list Z))
    (self_user : option User) (transactions : list Transaction)
    (sensitivity : option Q) (tx_id : Z) :
  In tx_id (detect_spending_anomalies fit_predict self_user transactions sensitivity) ->
  exists tx, In tx transactions /\ id tx = tx_id /\
             transaction_type tx = "expense"%string /\
             (min_amount_threshold self_user <= amount tx)%Q.
Proof.
  unfold detect_spending_anomalies, prepare_transaction_data.
  destruct (length (List.filter is_expense transactions) <? 10)%nat; [intros []|].
  set (settings := match self_user with
                   | Some u => _
                   | None => _
                   end).
  assert (Hmin : fst settings = min_amount_threshold self_user).
  { unfold settings, min_amount_threshold.
    destruct self_user as [u|]; [destruct (userprofile u)|]; reflexivity. }
  destruct settings as [min_amount sens]. simpl in Hmin. subst min_amount.
  set (df := List.filter _ (List.filter is_expense transactions)).
  assert (Hdf : forall tx, In tx df ->
            In tx transactions /\ transaction_type tx = "expense"%string /\
            (min_amount_threshold self_user <= amount tx)%Q).
  { intros tx Hin. unfold df in Hin.
    apply filter_In in Hin as [Hin Hge]. apply filter_In in Hin as [Hin Hexp].
    split; [assumption|]. split; [apply is_expense_type; assumption|].
    apply Qgeb_ge; assumption. }
  destruct df as [|tx0 df'] eqn:Edf; [intros []|].
  destruct (fit_predict _ _) as [scores|e]; [|intros []].
  destruct (length scores =? length (tx0 :: df'))%nat; [|intros []].
  intros Hin. apply anomalous_ids_in in Hin as (tx & Htx & Hid).
  destruct (Hdf tx Htx) as (H1 & H2 & H3). exists tx. auto.
Qed.

(** C8: [detect_spending_anomalies] returns the empty list when the
    input has fewer than 10 expense transactions, and every id it
    returns is the id of an input transaction of type ['expense'] whose
    amount is at least the minimum-amount threshold, which is 100 when
    no user profile setting applies. *)
Theorem C8_anomalies_are_large_expenses
    (fit_predict : Q -> list (Q * option nat) -> result (list Z))
    (self_user : option User) (transactions : list Transaction)
    (sensitivity : option Q) :
  ((length (List.filter is_expense transactions) < 10)%nat ->
     detect_spending_anomalies fit_predict self_user transactions sensitivity = []) /\
  (forall tx_id,
     In tx_id (detect_spending_anomalies fit_predict self_user transactions sensitivity) ->
     exists tx, In tx transactions /\ id tx = tx_id /\
                transaction_type tx = "expense"%string /\
                (min_amount_threshold self_user <= amount tx)%Q) /\
  ((self_user = None \/ exists u, self_user = Some u /\ userprofile u = None) ->
     min_amount_threshold self_user = 100%Q).
Proof.
  split; [|split].
  - intros Hlt. unfold detect_spending_anomalies.
    apply Nat.ltb_lt in Hlt. rewrite Hlt. reflexivity.
  - intros tx_id. apply detect_spending_anomalies_sound.
  - intros [->|(u & -> & Hnone)]; unfold min_amount_threshold;
      [reflexivity|rewrite Hnone; reflexivity].
Qed.

(** *** Cash-flow insights *)

Lemma fold_amounts_ge (txs : list Transaction) (acc : Q) :
  Forall (fun tx => (0 <= amount tx)%Q) txs ->
  (acc <= fold_left (fun a tx => a + amount tx) txs acc)%Q.
Proof.
  revert acc. induction txs as [|tx txs IH]; intros acc Hall; simpl.
  - apply Qle_refl.
  - inversion Hall as [|? ? Htx Hrest]; subst.
    eapply Qle_trans; [|apply IH; assumption]. lra.
Qed.

Lemma sum_amounts_nonneg (txs : list Transaction) :
  Forall (fun tx => (0 <= amount tx)%Q) txs -> (0 <= sum_amounts txs)%Q.
Proof. apply fold_amounts_ge. Qed.

Lemma Forall_filter_amounts (f : Transaction -> bool) (txs : list Transaction) :
  Forall (fun tx => (0 <= amount tx)%Q) txs ->
  Forall (fun tx => (0 <= amount tx)%Q) (List.filter f txs).
Proof.
  intros Hall. apply List.Forall_forall. intros tx Hin.
  apply filter_In in Hin as [Hin _].
  rewrite List.Forall_forall in Hall. auto.
Qed.





(** [generate_insights] raises exactly when the total income is zero
    while the expenses add up to a negative amount. *)
Lemma generate_insights_raises_iff (today : date) (transactions : list Transaction) :
  let total_income := sum_amounts (List.filter is_income transactions) in
  let total_expenses := sum_amounts (List.filter is_expense transactions) in
  (exists e, generate_insights today transactions = Raised e) <->
  (total_income == 0)%Q /\ (total_expenses < 0)%Q.
Proof.
  intros total_income total_expenses. unfold generate_insights.
  fold total_income total_expenses.
  set (net_flow := (total_income - total_expenses)%Q).
  set (insights := map _ _).
  unfold py_div.
  destruct (Qltb net_flow 0) eqn:Hneg.
  { apply Qltb_lt in Hneg. split; [intros (e & He); discriminate|].
    intros [H0 Hexp]. exfalso. unfold net_flow in Hneg. lra. }
  apply Qltb_ge in Hneg.
  destruct (Qgtb net_flow 0 && Qltb net_flow (total_income * (1 # 10))) eqn:Hsmall.
  { apply andb_true_iff in Hsmall as [Hgt Hlt].
    apply Qltb_lt in Hgt. apply Qltb_lt in Hlt.
    destruct (Qeq_bool total_income 0) eqn:Hz.
    - apply Qeq_bool_iff in Hz. exfalso. lra.
    - split; [intros (e & He); discriminate|].
      intros [H0 _]. apply Qeq_bool_neq in Hz. contradiction. }
  destruct (Qgtb net_flow (total_income * (2 # 10))) eqn:Hlarge.
  { apply Qltb_lt in Hlarge.
    destruct (Qeq_bool total_income 0) eqn:Hz.
    - apply Qeq_bool_iff in Hz. split; [|intros _; eexists; reflexivity].
      intros _. split; [assumption|]. unfold net_flow in Hlarge. lra.
    - split; [intros (e & He); discriminate|].
      intros [H0 _]. apply Qeq_bool_neq in Hz. contradiction. }
  split; [intros (e & He); discriminate|].
  intros [H0 Hexp]. exfalso.
  assert (Hle : (net_flow <= total_income * (2 # 10))%Q).
  { apply Qltb_ge. exact Hlarge. }
  unfold net_flow in Hle. lra.
Qed.


End AnalyzerFacts.

Section GroupByFacts.
Import Pandas.
Context {K : Type}.
Variable key_eqb key_ltb : K -> K -> bool.
Hypothesis key_eqb_eq : forall a b, key_eqb a b = true <-> a = b.
Hypothesis key_ltb_irrefl : forall a, key_ltb a a = false.
Hypothesis key_ltb_trans :
  forall a b c, key_ltb a b = true -> key_ltb b c = true -> key_ltb a c = true.
Hypothesis key_ltb_total :
  forall a b, key_eqb a b = false -> key_ltb a b = false -> key_ltb b a = true.

Local Abbreviation add := (add_to_group key_eqb key_ltb).
Local Abbreviation groupby := (groupby_sum key_eqb key_ltb).
Local Abbreviation ksum := (key_sum key_eqb).

Lemma key_ltb_neq (a b : K) : key_ltb a b = true -> a <> b.
Proof. intros H ->. rewrite key_ltb_irrefl in H. discriminate. Qed.

Lemma add_keys (k : K) (v : Q) (groups : list (K * Q)) (k' : K) :
  In k' (map fst (add k v groups)) <-> k' = k \/ In k' (map fst groups).
Proof.
  induction groups as [|[k1 v1] rest IH]; simpl.
  - intuition.
  - destruct (key_eqb k k1) eqn:E.
    + apply key_eqb_eq in E. subst k1. simpl. intuition.
    + destruct (key_ltb k k1); simpl; [intuition|]. rewrite IH. intuition.
Qed.

Lemma add_increasing (k : K) (v : Q) (groups : list (K * Q)) :
  keys_increasing key_ltb groups -> keys_increasing key_ltb (add k v groups).
Proof.
  unfold keys_increasing.
  induction groups as [|[k1 v1] rest IH]; intros Hs; simpl.
  - constructor; constructor.
  - apply StronglySorted_inv in Hs as [Hrest Hhd].
    destruct (key_eqb k k1) eqn:E.
    + constructor; assumption.
    + destruct (key_ltb k k1) eqn:L.
      * constructor; [constructor; assumption|].
        constructor; [exact L|].
        eapply List.Forall_impl; [|exact Hhd]. intros [k2 v2] H2. simpl in *.
        eapply key_ltb_trans; eassumption.
      * constructor; [apply IH; assumption|].
        apply List.Forall_forall. intros [k2 v2] Hin. simpl.
        assert (Hk : In k2 (map fst (add k v rest))).
        { apply in_map_iff. exists (k2, v2). auto. }
        apply add_keys in Hk as [->|Hk].
        -- apply key_ltb_total; assumption.
        -- apply in_map_iff in Hk as ([k3 v3] & Heq & Hin3). simpl in Heq. subst k3.
           rewrite List.Forall_forall in Hhd. apply (Hhd _ Hin3).
Qed.

Lemma increasing_head_fresh (k1 : K) (v1 : Q) (rest : list (K * Q)) :
  keys_increasing key_ltb ((k1, v1) :: rest) -> ~ In k1 (map fst rest).
Proof.
  intros Hs Hin. apply StronglySorted_inv in Hs as [_ Hhd].
  apply in_map_iff in Hin as ([k2 v2] & Heq & Hin). simpl in Heq. subst k2.
  rewrite List.Forall_forall in Hhd. specialize (Hhd _ Hin). simpl in Hhd.
  rewrite key_ltb_irrefl in Hhd. discriminate.
Qed.

Lemma increasing_NoDup (groups : list (K * Q)) :
  keys_increasing key_ltb groups -> List.NoDup (map fst groups).
Proof.
  induction groups as [|[k1 v1] rest IH]; intros Hs; simpl.
  - constructor.
  - apply List.NoDup_cons.
    + apply (increasing_head_fresh _ _ _ Hs).
    + apply IH. apply StronglySorted_inv in Hs. tauto.
Qed.

(** An entry of the groups after [add]: an untouched entry of another
    key, the entry of [k] increased by [v], or a fresh entry [(k, v)]. *)
Lemma add_In (k : K) (v : Q) (groups : list (K * Q)) (k' : K) (v' : Q) :
  keys_increasing key_ltb groups ->
  In (k', v') (add k v groups) ->
  (k' <> k /\ In (k', v') groups)
  \/ (k' = k /\ exists v0, In (k, v0) groups /\ v' = (v0 + v)%Q)
  \/ (k' = k /\ ~ In k (map fst groups) /\ v' = v).
Proof.
  induction groups as [|[k1 v1] rest IH]; intros Hs Hin; simpl in Hin.
  - destruct Hin as [Heq|[]]. inversion Heq; subst. right; right. simpl. tauto.
  - pose proof (increasing_head_fresh _ _ _ Hs) as Hfresh.
    pose proof Hs as Hs0.
    apply StronglySorted_inv in Hs as [Hrest Hhd].
    destruct (key_eqb k k1) eqn:E.
    + apply key_eqb_eq in E. subst k1. destruct Hin as [Heq|Hin].
      * inversion Heq; subst. right; left. split; [reflexivity|].
        exists v1. split; [left; reflexivity|reflexivity].
      * left. split; [|right; assumption]. intros ->. apply Hfresh.
        apply in_map_iff. exists (k, v'). auto.
    + assert (Hne : k <> k1).
      { intros ->. assert (key_eqb k1 k1 = true) by (apply key_eqb_eq; reflexivity).
        congruence. }
      destruct (key_ltb k k1) eqn:L.
      * assert (Hnew : ~ In k (map fst ((k1, v1) :: rest))).
        { simpl. intros [Hc|Hc]; [congruence|].
          apply in_map_iff in Hc as ([k2 v2] & Heq & Hin2). simpl in Heq. subst k2.
          rewrite List.Forall_forall in Hhd. specialize (Hhd _ Hin2). simpl in Hhd.
          apply (key_ltb_neq k k). eapply key_ltb_trans; eassumption. reflexivity. }
        destruct Hin as [Heq|Hin].
        -- inversion Heq; subst. right; right. auto.
        -- left. split; [|assumption]. intros ->. apply Hnew.
           apply in_map_iff. exists (k, v'). auto.
      * destruct Hin as [Heq|Hin].
        -- inversion Heq; subst. left. split; [congruence|left; reflexivity].
        -- destruct (IH Hrest Hin) as [[H1 H2]|[(H1 & v0 & H2 & H3)|(H1 & H2 & H3)]].
           ++ left. split; [assumption|right; assumption].
           ++ right; left. split; [assumption|]. exists v0. split; [right|]; assumption.
           ++ right; right. split; [assumption|]. split; [|assumption].
              simpl. intros [Hc|Hc]; [congruence|contradiction].
Qed.

Lemma groupby_snoc (rows : list (K * Q)) (row : K * Q) :
  groupby (rows ++ [row]) = add (fst row) (snd row) (groupby rows).
Proof. unfold groupby_sum. rewrite fold_left_app. reflexivity. Qed.

Lemma ksum_snoc (k : K) (rows : list (K * Q)) (row : K * Q) :
  ksum k (rows ++ [row]) =
    if key_eqb (fst row) k then (ksum k rows + snd row)%Q else ksum k rows.
Proof.
  unfold key_sum. rewrite List.filter_app. simpl.
  destruct (key_eqb (fst row) k).
  - rewrite map_app, fold_left_app. reflexivity.
  - rewrite app_nil_r. reflexivity.
Qed.

Lemma ksum_absent (k : K) (rows : list (K * Q)) :
  ~ In k (map fst rows) -> ksum k rows = 0%Q.
Proof.
  intros Hnot. unfold key_sum.
  replace (List.filter (fun row => key_eqb (fst row) k) rows) with (@nil (K * Q));
    [reflexivity|].
  symmetry. induction rows as [|[k1 v1] rest IH]; [reflexivity|]. simpl in *.
  destruct (key_eqb k1 k) eqn:E.
  - apply key_eqb_eq in E. exfalso. apply Hnot. left. assumption.
  - apply IH. tauto.
Qed.

(** [groupby_sum] has one entry per key of the rows, in increasing key
    order, and the entry of a key is the sum of the values of its rows. *)
Lemma groupby_spec (rows : list (K * Q)) :
  keys_increasing key_ltb (groupby rows) /\
  (forall k, In k (map fst (groupby rows)) <-> In k (map fst rows)) /\
  (forall k v, In (k, v) (groupby rows) -> (v == ksum k rows)%Q).
Proof.
  induction rows as [|row rows IH] using rev_ind.
  - split; [constructor|]. split; [reflexivity|intros k v []].
  - destruct IH as (Hs & Hkeys & Hsum).
    rewrite groupby_snoc. split; [apply add_increasing; assumption|]. split.
    + intros k. rewrite add_keys, Hkeys, map_app, in_app_iff. simpl. intuition.
    + intros k v Hin. rewrite ksum_snoc.
      apply add_In in Hin; [|assumption].
      destruct Hin as [[Hne Hin]|[(-> & v0 & Hin & ->)|(-> & Hnew & ->)]].
      * destruct (key_eqb (fst row) k) eqn:E;
          [apply key_eqb_eq in E; congruence|auto].
      * assert (E : key_eqb (fst row) (fst row) = true) by (apply key_eqb_eq; reflexivity).
        rewrite E. rewrite (Hsum _ _ Hin). reflexivity.
      * assert (E : key_eqb (fst row) (fst row) = true) by (apply key_eqb_eq; reflexivity).
        rewrite E. rewrite ksum_absent; [ring|]. rewrite <- Hkeys. assumption.
Qed.

End GroupByFacts.

Section SortFacts.
Import Models Pandas.
Context {A : Type}.
Variable value : A -> Q.

Lemma insert_desc_perm (x : A) (l : list A) :
  Permutation (x :: l) (insert_desc value x l).
Proof.
  induction l as [|y rest IH]; simpl; [reflexivity|].
  destruct (Qltb (value x) (value y)); [|reflexivity].
  etransitivity; [apply perm_swap|]. apply perm_skip. exact IH.
Qed.

Lemma sort_desc_perm (l : list A) : Permutation l (sort_desc value l).
Proof.
  induction l as [|x rest IH]; simpl; [reflexivity|].
  etransitivity; [apply perm_skip; exact IH|]. apply insert_desc_perm.
Qed.



Lemma sort_desc_In (l : list A) (x : A) : In x (sort_desc value l) <-> In x l.
Proof.
  split; apply Permutation_in; [symmetry|]; apply sort_desc_perm.
Qed.

End SortFacts.

Section StringOrder.

Lemma ascii_compare_refl (a : ascii) : Ascii.compare a a = Eq.
Proof. unfold Ascii.compare. apply N.compare_refl. Qed.

Lemma ascii_compare_lt_trans (a b c : ascii) :
  Ascii.compare a b = Lt -> Ascii.compare b c = Lt -> Ascii.compare a c = Lt.
Proof.
  unfold Ascii.compare. rewrite !N.compare_lt_iff. apply N.lt_trans.
Qed.

Lemma string_compare_refl (s : string) : String.compare s s = Eq.
Proof.
  induction s as [|a s IH]; simpl; [reflexivity|].
  rewrite ascii_compare_refl. exact IH.
Qed.

Lemma string_compare_lt_trans (s1 s2 s3 : string) :
  String.compare s1 s2 = Lt -> String.compare s2 s3 = Lt ->
  String.compare s1 s3 = Lt.
Proof.
  revert s2 s3. induction s1 as [|a s1 IH]; intros [|b s2] [|c s3]; simpl;
    try discriminate; auto.
  destruct (Ascii.compare a b) eqn:Hab; try discriminate.
  - apply Ascii.compare_eq_iff in Hab. subst b.
    destruct (Ascii.compare a c); try discriminate; auto.
    apply IH.
  - intros _. destruct (Ascii.compare b c) eqn:Hbc; try discriminate.
    + apply Ascii.compare_eq_iff in Hbc. subst c. rewrite Hab. reflexivity.
    + rewrite (ascii_compare_lt_trans _ _ _ Hab Hbc). reflexivity.
Qed.

Lemma string_ltb_irrefl (s : string) : String.ltb s s = false.
Proof. unfold String.ltb. rewrite string_compare_refl. reflexivity. Qed.

Lemma string_ltb_trans (a b c : string) :
  String.ltb a b = true -> String.ltb b c = true -> String.ltb a c = true.
Proof.
  unfold String.ltb.
  destruct (String.compare a b) eqn:Hab; try discriminate.
  destruct (String.compare b c) eqn:Hbc; try discriminate.
  rewrite (string_compare_lt_trans _ _ _ Hab Hbc). reflexivity.
Qed.

Lemma string_ltb_total (a b : string) :
  String.eqb a b = false -> String.ltb a b = false -> String.ltb b a = true.
Proof.
  unfold String.ltb. intros Hne Hlt. rewrite String.compare_antisym.
  destruct (String.compare a b) eqn:Hab; simpl; try reflexivity; try discriminate.
  apply String.compare_eq_iff in Hab. apply String.eqb_neq in Hne. contradiction.
Qed.

Lemma Z_ltb_total (a b : Z) : (a =? b) = false -> (a <? b) = false -> (b <? a) = true.
Proof. intros H1 H2. lia. Qed.

Lemma Z_ltb_trans (a b c : Z) : (a <? b) = true -> (b <? c) = true -> (a <? c) = true.
Proof. lia. Qed.

End StringOrder.

Section BudgetFacts.
Import Models Pandas BudgetAnalyzer.

(** *** Budget performance *)



End BudgetFacts.

Section RecommendationFacts.
Import Models Pandas BudgetAnalyzer.

Lemma groupby_length {K : Type} (key_eqb key_ltb : K -> K -> bool)
    (dec : forall a b : K, {a = b} + {a <> b}) (rows : list (K * Q)) :
  (forall a b, key_eqb a b = true <-> a = b) ->
  (forall a, key_ltb a a = false) ->
  (forall a b c, key_ltb a b = true -> key_ltb b c = true -> key_ltb a c = true) ->
  (forall a b, key_eqb a b = false -> key_ltb a b = false -> key_ltb b a = true) ->
  length (groupby_sum key_eqb key_ltb rows) = length (nodup dec (map fst rows)).
Proof.
  intros H1 H2 H3 H4.
  destruct (groupby_spec key_eqb key_ltb H1 H2 H3 H4 rows) as (Hs & Hkeys & _).
  rewrite <- (length_map fst (groupby_sum key_eqb key_ltb rows)).
  apply Permutation_length. apply Permutation.NoDup_Permutation.
  - eapply increasing_NoDup; eassumption.
  - apply List.NoDup_nodup.
  - intros k. rewrite Hkeys, nodup_In. reflexivity.
Qed.

Lemma key_sum_names (df : list Transaction) (c : string) :
  key_sum String.eqb c (map (fun tx => (name_of tx, amount tx)) df)
  = fold_left Qplus
      (map amount (List.filter (fun tx => String.eqb (name_of tx) c) df)) 0%Q.
Proof.
  unfold key_sum. f_equal.
  induction df as [|tx df IH]; simpl; [reflexivity|].
  destruct (String.eqb (name_of tx) c); simpl; rewrite IH; reflexivity.
Qed.

(** What one pass of the loop body decides. *)
Lemma recommend_Some (amounts : gmap string Q) (c : string) (avg : Q)
    (r : recommendation) :
  recommend amounts c avg = Some r ->
  rec_category r = c /\ average_spending r = avg /\
  recommended_amount r = (avg * (11 # 10))%Q /\
  current_amount r = default 0%Q (amounts !! c) /\
  (100 <= avg)%Q /\
  ((0 < current_amount r)%Q /\
     ((adjustment r = increase /\
         (current_amount r * (12 # 10) < recommended_amount r)%Q)
      \/ (adjustment r = decrease /\
          (recommended_amount r <= current_amount r * (12 # 10))%Q /\
          (recommended_amount r * (12 # 10) < current_amount r)%Q))
   \/ (current_amount r <= 0)%Q /\ adjustment r = new).
Proof.
  unfold recommend.
  destruct (Qltb avg 100) eqn:Hsmall; [discriminate|]. apply Qltb_ge in Hsmall.
  unfold Qgtb.
  destruct (Qltb 0 (default 0%Q (amounts !! c))) eqn:Hcur.
  - apply Qltb_lt in Hcur.
    destruct (Qltb (default 0%Q (amounts !! c) * (12 # 10)) (avg * (11 # 10))) eqn:Hinc.
    + apply Qltb_lt in Hinc. intros H. injection H as <-. simpl.
      do 4 (split; [reflexivity|]). split; [assumption|].
      left. split; [assumption|]. left. split; [reflexivity|assumption].
    + apply Qltb_ge in Hinc.
      destruct (Qltb (avg * (11 # 10) * (12 # 10)) (default 0%Q (amounts !! c))) eqn:Hdec;
        [|discriminate].
      apply Qltb_lt in Hdec. intros H. injection H as <-. simpl.
      do 4 (split; [reflexivity|]). split; [assumption|].
      left. split; [assumption|]. right. split; [reflexivity|]. split; assumption.
  - apply Qltb_ge in Hcur. intros H. injection H as <-. simpl.
    do 4 (split; [reflexivity|]). split; [assumption|].
    right. split; [assumption|reflexivity].
Qed.


Lemma In_omap {A B : Type} (f : A -> option B) (l : list A) (y : B) :
  In y (omap f l) <-> exists x, In x l /\ f x = Some y.
Proof.
  rewrite <- list_elem_of_In, list_elem_of_omap.
  split; intros (x & Hx & Hf); exists x; split; auto; apply list_elem_of_In; auto.
Qed.

Lemma nodup_nonempty {A : Type} (dec : forall a b : A, {a = b} + {a <> b})
    (l : list A) :
  l <> [] -> (1 <= length (nodup dec l))%nat.
Proof.
  destruct l as [|a l]; [congruence|]. intros _.
  assert (Hin : In a (nodup dec (a :: l))) by (apply nodup_In; left; reflexivity).
  destruct (nodup dec (a :: l)); [contradiction|simpl; lia].
Qed.

Lemma generate_enough (transactions : list Transaction) (current_budgets : list Budget) :
  (5 <= length (List.filter is_categorized_expense transactions))%nat ->
  generate_budget_recommendations transactions current_budgets =
    let recs := sort_desc recommended_amount
                  (unsorted_recommendations transactions current_budgets) in
    {| success := true; summary := generated (length recs); recommendations := recs |}.
Proof.
  intros Hlen. unfold generate_budget_recommendations.
  destruct transactions as [|tx0 txs]; [simpl in Hlen; lia|].
  set (transactions := tx0 :: txs) in *.
  destruct (length (List.filter is_categorized_expense transactions) <? 5)%nat eqn:E;
    [apply Nat.ltb_lt in E; lia|].
  rewrite (groupby_length Z.eqb Z.ltb Z.eq_dec _ Z.eqb_eq Z.ltb_irrefl
             Z_ltb_trans Z_ltb_total).
  rewrite map_map. cbn [fst].
  fold (distinct_months transactions).
  assert (Hm : (1 <= distinct_months transactions)%nat).
  { unfold distinct_months. apply nodup_nonempty.
    destruct (List.filter is_categorized_expense transactions);
      [simpl in Hlen; lia|discriminate]. }
  assert (E1 : (distinct_months transactions <? 1)%nat = false)
    by (apply Nat.ltb_ge; lia).
  rewrite E1. reflexivity.
Qed.

Lemma category_entry (transactions : list Transaction) (c : string) (total : Q) :
  In (c, total)
     (groupby_sum String.eqb String.ltb
        (map (fun tx => (name_of tx, amount tx))
           (List.filter is_categorized_expense transactions))) ->
  In c (spending_categories transactions) /\
  (total / inject_Z (Z.of_nat (distinct_months transactions))
   == average_monthly_spending transactions c)%Q.
Proof.
  intros Hin.
  destruct (groupby_spec String.eqb String.ltb String.eqb_eq string_ltb_irrefl
              string_ltb_trans string_ltb_total
              (map (fun tx => (name_of tx, amount tx))
                 (List.filter is_categorized_expense transactions)))
    as (_ & Hkeys & Hsum).
  split.
  - unfold spending_categories.
    assert (Hk : In c (map fst (groupby_sum String.eqb String.ltb
              (map (fun tx => (name_of tx, amount tx))
                 (List.filter is_categorized_expense transactions))))).
    { apply in_map_iff. exists (c, total). auto. }
    apply Hkeys in Hk. rewrite map_map in Hk. exact Hk.
  - unfold average_monthly_spending, category_total.
    rewrite (Hsum _ _ Hin), key_sum_names. reflexivity.
Qed.



End RecommendationFacts.

Section HandlerFacts.
Import Models Pandas TransactionCategorizer SpendingAnalyzer Views.

(** *** The object-relational layer *)

Lemma get_or_create_profile_records (u : Z) (d : database) :
  same_records d (snd (get_or_create_profile u d)) /\
  anomalies (snd (get_or_create_profile u d)) = anomalies d.
Proof.
  unfold get_or_create_profile, same_records.
  destruct (find _ (profiles d)); simpl; auto.
Qed.


Lemma get_transaction_Some (pk u : Z) (d : database) (tx : Transaction) :
  get_transaction pk u d = Some tx ->
  In tx (transactions d) /\ id tx = pk /\ user tx = u.
Proof.
  unfold get_transaction. intros H. apply find_some in H as [Hin Hb].
  apply andb_true_iff in Hb as [H1 H2]. split; [assumption|]. split; lia.
Qed.


Lemma Forall2_In_left {A B : Type} (R : A -> B -> Prop)
    (l0 : list A) (l : list B) (a : A) :
  Forall2 R l0 l -> In a l0 -> exists b, In b l /\ R a b.
Proof.
  induction 1 as [|a0 b0 l0 l Hab _ IH]; intros Hin; [contradiction|].
  destruct Hin as [->|Hin].
  - exists b0. split; [left; reflexivity|assumption].
  - destruct (IH Hin) as (b & Hb & HR). exists b. split; [right|]; assumption.
Qed.


Lemma NoDup_id_eq (rows : list Transaction) (a b : Transaction) :
  List.NoDup (map id rows) -> In a rows -> In b rows -> id a = id b -> a = b.
Proof.
  induction rows as [|r rows IH]; intros Hnd Ha Hb Hid; [contradiction|].
  simpl in Hnd. apply List.NoDup_cons_iff in Hnd as [Hfresh Hnd].
  destruct Ha as [->|Ha], Hb as [->|Hb]; auto.
  - exfalso. apply Hfresh. rewrite Hid. apply in_map. assumption.
  - exfalso. apply Hfresh. rewrite <- Hid. apply in_map. assumption.
Qed.

(** *** What the categorization loop leaves behind *)




Section CategorizationFacts.
Variable train_test_split :
  list string -> list Z -> (list string * list string) * (list Z * list Z).
Variable fit : list string -> list Z -> result Pipeline.
Variable score : Pipeline -> list string -> list Z -> result Q.



End CategorizationFacts.

(** *** What [anomaly_detection] creates *)












End HandlerFacts.

Section ForecastFacts.
Import Models Pandas SpendingAnalyzer Views.

Lemma trend_factor_short (totals : list Q) :
  (length totals < 6)%nat -> trend_factor totals = 1%Q.
Proof.
  intros H. unfold trend_factor.
  destruct (6 <=? length totals)%nat eqn:E; [apply Nat.leb_le in E; lia|reflexivity].
Qed.

(** The shape of the forecast once there is enough history. *)
Lemma predict_monthly_spending_enough (txs : list Transaction) (months_ahead : nat) :
  (3 <= length (List.filter is_expense txs))%nat ->
  (3 <= length (monthly_totals txs))%nat ->
  predict_monthly_spending txs months_ahead =
    let totals := map snd (monthly_totals txs) in
    map (fun i =>
           {| prediction_month :=
                List.last (map fst (monthly_totals txs)) 0 + Z.of_nat i;
              prediction_amount :=
                (mean (tail_n 3 totals) * Qpower (trend_factor totals) (Z.of_nat i))%Q |})
        (seq 1 months_ahead).
Proof.
  intros He Hm. unfold predict_monthly_spending, prepare_transaction_data.
  fold (monthly_totals txs).
  assert (E1 : (length (List.filter is_expense txs) <? 3)%nat = false)
    by (apply Nat.ltb_ge; assumption).
  assert (E2 : (length (monthly_totals txs) <? 3)%nat = false)
    by (apply Nat.ltb_ge; assumption).
  rewrite E1, E2. cbv zeta. unfold trend_factor. rewrite length_map. reflexivity.
Qed.

Lemma predict_monthly_spending_short (txs : list Transaction) (months_ahead : nat) :
  (length (List.filter is_expense txs) < 3)%nat \/
  (length (monthly_totals txs) < 3)%nat ->
  predict_monthly_spending txs months_ahead = [].
Proof.
  intros H. unfold predict_monthly_spending, prepare_transaction_data.
  fold (monthly_totals txs).
  destruct (length (List.filter is_expense txs) <? 3)%nat eqn:E1; [reflexivity|].
  destruct (length (monthly_totals txs) <? 3)%nat eqn:E2; [reflexivity|].
  apply Nat.ltb_ge in E1, E2. lia.
Qed.

Lemma spending_forecast_outcome (u : Z) (w : world) :
  let outcome := spending_forecast u w in
  (snd outcome = [] \/ snd outcome = [construct IsolationForest]) /\
  forall predictions,
    fst (fst outcome) = forecast_success predictions ->
    predictions =
      predict_monthly_spending
        (List.filter (fun tx => user tx =? u) (transactions (db w))) 3.
Proof.
  cbv zeta. unfold spending_forecast.
  destruct (get_or_create_profile_records u (db w)) as ((Ht & _) & _).
  destruct (get_or_create_profile u (db w)) as [profile d]. simpl in Ht.
  rewrite Ht.
  destruct (negb (enable_ai_insights profile)); simpl; [split; [auto|discriminate]|].
  destruct (length _ <? 10)%nat; simpl; [split; [auto|discriminate]|].
  split; [auto|]. intros predictions H. injection H as <-. reflexivity.
Qed.

(** C3, as stated, fails: on a database with twelve expenses over three
    months [spending_forecast] answers with three predictions, each the
    mean, 400, of the last three monthly totals, and the only
    scikit-learn call on its path is the construction of the analyzer's
    isolation forest; no random forest regressor is built or fit. *)
Lemma C3_forecast_without_random_forest :
  let outcome := spending_forecast 1 Examples.bills_world in
  (exists predictions,
     fst (fst outcome) = forecast_success predictions /\
     map prediction_month predictions = [24291; 24292; 24293] /\
     map (fun p => Qred (prediction_amount p)) predictions = [400; 400; 400]%Q) /\
  snd outcome = [construct IsolationForest] /\
  ~ In (fit_call RandomForestRegressor) (snd outcome) /\
  ~ In (construct RandomForestRegressor) (snd outcome).
Proof.
  cbv zeta. split; [|split; [|split]].
  - eexists. split; [vm_compute; reflexivity|]. split; reflexivity.
  - reflexivity.
  - vm_compute. intros [H|[]]. discriminate H.
  - vm_compute. intros [H|[]]. discriminate H.
Qed.

(** C3 (amended): the forecast handed to the request handlers involves
    no model fit.  On the path of [spending_forecast] no estimator is
    fit and no random forest regressor is built, and on that of
    [spending_predictions] the only scikit-learn call builds the
    analyzer's isolation forest; the predictions of both are
    those of [predict_monthly_spending], which are empty with fewer than
    3 expense transactions or fewer than 3 months of expenses, and
    otherwise consist of one prediction per month ahead, for the months
    that follow the last month with expenses, of the mean of the last
    three monthly totals times the trend factor raised to the number of
    months ahead; the trend factor is 1, and every prediction equals
    that mean, when fewer than 6 months of expenses exist. *)
Theorem C3_forecast_is_moving_average (u : Z) (w : world)
    (txs : list Transaction) (months_ahead : nat) :
  let outcome := spending_forecast u w in
  let totals := map snd (monthly_totals txs) in
  let last_month := List.last (map fst (monthly_totals txs)) 0 in
  let predictions := predict_monthly_spending txs months_ahead in
  (forall e, ~ In (fit_call e) (snd outcome)) /\
  ~ In (construct RandomForestRegressor) (snd outcome) /\
  (forall forecast,
     fst (fst outcome) = forecast_success forecast ->
     forecast =
       predict_monthly_spending
         (List.filter (fun tx => user tx =? u) (transactions (db w))) 3) /\
  snd (spending_predictions u w) = [construct IsolationForest] /\
  context_predictions (fst (spending_predictions u w))
    = predict_monthly_spending
        (List.filter (fun tx => user tx =? u) (transactions (db w))) 6 /\
  ((length (List.filter is_expense txs) < 3)%nat \/ (length totals < 3)%nat ->
     predictions = []) /\
  ((3 <= length (List.filter is_expense txs))%nat -> (3 <= length totals)%nat ->
     length predictions = months_ahead /\
     forall i p,
       nth_error predictions i = Some p ->
       prediction_month p = last_month + Z.of_nat (S i) /\
       prediction_amount p
         = (mean (tail_n 3 totals) * Qpower (trend_factor totals) (Z.of_nat (S i)))%Q /\
       ((length totals < 6)%nat ->
          (prediction_amount p == mean (tail_n 3 totals))%Q)).
Proof.
  cbv zeta. destruct (spending_forecast_outcome u w) as (Hcalls & Hresp).
  split; [|split; [|split; [|split; [|split; [|split]]]]].
  - intros e Hin. destruct Hcalls as [H|H]; rewrite H in Hin; simpl in Hin;
      [contradiction|]. destruct Hin as [Hin|[]]. discriminate Hin.
  - intros Hin. destruct Hcalls as [H|H]; rewrite H in Hin; simpl in Hin;
      [contradiction|]. destruct Hin as [Hin|[]]. discriminate Hin.
  - exact Hresp.
  - reflexivity.
  - reflexivity.
  - rewrite length_map. apply predict_monthly_spending_short.
  - rewrite length_map. intros He Hm.
    rewrite (predict_monthly_spending_enough _ _ He Hm). cbv zeta.
    split; [rewrite length_map, length_seq; reflexivity|].
    intros i p Hnth. rewrite nth_error_map in Hnth.
    destruct (nth_error (seq 1 months_ahead) i) as [k|] eqn:Hk; [|discriminate].
    assert (Hlt : (i < length (seq 1 months_ahead))%nat)
      by (apply nth_error_Some; congruence).
    rewrite length_seq in Hlt.
    rewrite nth_error_nth' with (d := O) in Hk by (rewrite length_seq; assumption).
    rewrite seq_nth in Hk by assumption. injection Hk as <-.
    simpl in Hnth. injection Hnth as <-. cbn [prediction_month prediction_amount].
    split; [reflexivity|]. split; [reflexivity|].
    intros Hshort. rewrite trend_factor_short by (rewrite length_map; assumption).
    rewrite Qpower_positive_1. ring.
Qed.

End ForecastFacts.

Section SamplingFacts.
Import Models Pandas SpendingAnalyzer Views.

Lemma In_removelast {A : Type} (l : list A) (x : A) :
  In x (removelast l) -> In x l.
Proof.
  induction l as [|a [|b l] IH]; simpl; [tauto|tauto|].
  intros [->|Hin]; [left; reflexivity|right]. apply IH. exact Hin.
Qed.

Lemma length_removelast {A : Type} (l : list A) :
  length (removelast l) = (length l - 1)%nat.
Proof.
  induction l as [|a l IH]; [reflexivity|].
  destruct l as [|b l]; [reflexivity|].
  change (removelast (a :: b :: l)) with (a :: removelast (b :: l)).
  change (length (a :: removelast (b :: l))) with (S (length (removelast (b :: l)))).
  rewrite IH. cbn [length]. lia.
Qed.

Lemma In_list_insert {A : Type} (l : list A) (j : nat) (y x : A) :
  In x (<[j := y]> l) -> x = y \/ In x l.
Proof.
  revert j. induction l as [|a l IH]; intros [|j]; simpl; try tauto.
  - intros [<-|Hin]; auto.
  - intros [<-|Hin]; auto. destruct (IH _ Hin); auto.
Qed.

Lemma last_Some_In {A : Type} (l : list A) (x : A) :
  List.last (map Some l) None = Some x -> In x l.
Proof.
  induction l as [|a [|b l] IH]; simpl; [discriminate| |].
  - intros H. injection H as <-. left. reflexivity.
  - intros H. right. apply IH. exact H.
Qed.

Lemma last_Some_nonempty {A : Type} (l : list A) :
  l <> [] -> exists x, List.last (map Some l) None = Some x.
Proof.
  induction l as [|a [|b l] IH]; intros Hne; [congruence|eexists; reflexivity|].
  destruct IH as [x Hx]; [discriminate|]. exists x. exact Hx.
Qed.

Lemma randbelow_lt (n : nat) (t : Random.tape) :
  (0 < n)%nat -> (fst (Random.randbelow n t) < n)%nat.
Proof.
  intros Hn. destruct t as [|x rest]; simpl; [assumption|].
  apply Nat.mod_upper_bound. lia.
Qed.

(** [random.sample] returns elements of the population ... *)
Lemma sample_In {A : Type} (k : nat) :
  forall (pool : list A) (t : Random.tape) (x : A),
    In x (fst (Random.sample pool k t)) -> In x pool.
Proof.
  induction k as [|k IH]; intros pool t x; simpl; [tauto|].
  destruct (Random.randbelow (length pool) t) as [j t'].
  destruct (nth_error pool j) as [chosen|] eqn:Hnth; [|simpl; tauto].
  destruct (List.last (map Some pool) None) as [moved|] eqn:Hlast; [|simpl; tauto].
  destruct (Random.sample (removelast (<[j:=moved]> pool)) k t') as [rest t''] eqn:Hrest.
  simpl. intros [<-|Hin].
  - eapply nth_error_In. eassumption.
  - assert (Hx : In x (removelast (<[j:=moved]> pool))).
    { apply (IH _ t'). rewrite Hrest. exact Hin. }
    apply In_removelast, In_list_insert in Hx as [->|Hx]; [|assumption].
    apply last_Some_In. assumption.
Qed.

(** ... and as many of them as were asked for. *)
Lemma sample_length {A : Type} (k : nat) :
  forall (pool : list A) (t : Random.tape),
    (k <= length pool)%nat -> length (fst (Random.sample pool k t)) = k.
Proof.
  induction k as [|k IH]; intros pool t Hk; simpl; [reflexivity|].
  pose proof (randbelow_lt (length pool) t ltac:(lia)) as Hj.
  destruct (Random.randbelow (length pool) t) as [j t']. simpl in Hj.
  destruct (nth_error pool j) as [chosen|] eqn:Hnth;
    [|apply nth_error_None in Hnth; lia].
  destruct (last_Some_nonempty pool) as [moved Hlast];
    [intros ->; simpl in Hk; lia|].
  rewrite Hlast.
  destruct (Random.sample (removelast (<[j:=moved]> pool)) k t') as [rest t''] eqn:Hrest.
  simpl. f_equal. change rest with (fst (rest, t'')). rewrite <- Hrest.
  apply IH. rewrite length_removelast, length_insert. lia.
Qed.

Lemma describe_sample_sources (sampled : list Transaction) :
  forall (i : Z) (t : Random.tape),
    length (fst (describe_sample i sampled t)) = length sampled /\
    Forall (fun a => exists tx, In tx sampled /\
                       json_date a = tx_date tx /\
                       json_description a = description tx /\
                       json_amount a = amount tx /\
                       json_category a = row_category_name tx /\
                       json_account a = account_name tx)
           (fst (describe_sample i sampled t)).
Proof.
  induction sampled as [|tx rest IH]; intros i t; simpl; [split; [reflexivity|constructor]|].
  destruct (Random.choice _ reasons t) as [why t1].
  destruct (Random.randint 65 95 t1) as [confidence t2].
  destruct (IH (i + 1) t2) as (Hlen & Hall).
  destruct (describe_sample (i + 1) rest t2) as [others t3]. simpl in *.
  split; [congruence|]. constructor.
  - exists tx. simpl. repeat split; auto.
  - eapply List.Forall_impl; [|exact Hall].
    intros a (tx' & Hin & Hrest). exists tx'. split; [right; assumption|assumption].
Qed.

Lemma In_page {A : Type} (n m : nat) (l : list A) (x : A) :
  In x (firstn n (skipn m l)) -> In x l.
Proof.
  intros Hin.
  assert (Hs : In x (skipn m l)).
  { rewrite <- (firstn_skipn n (skipn m l)). apply in_or_app. left. assumption. }
  rewrite <- (firstn_skipn m l). apply in_or_app. right. assumption.
Qed.

Lemma filter_idempotent {A : Type} (f : A -> bool) (l : list A) :
  List.filter f (List.filter f l) = List.filter f l.
Proof.
  induction l as [|a l IH]; simpl; [reflexivity|].
  destruct (f a) eqn:E; simpl; [rewrite E, IH; reflexivity|exact IH].
Qed.

Lemma stored_transactions_of_user (today : date) (u : Z) (timeframe : string)
    (d : database) :
  Forall (fun tx => In tx (transactions d) /\ user tx = u)
         (stored_transactions today u timeframe d).
Proof.
  apply List.Forall_forall. intros tx Hin. unfold stored_transactions in Hin.
  apply sort_desc_In in Hin.
  assert (Hu : In tx (List.filter (fun tx => user tx =? u) (transactions d))).
  { destruct (String.eqb timeframe "all"); [assumption|].
    apply filter_In in Hin. tauto. }
  apply filter_In in Hu as [H1 H2]. split; [assumption|lia].
Qed.

Lemma stored_transactions_profile (today : date) (u : Z) (timeframe : string)
    (d : database) :
  stored_transactions today u timeframe (snd (get_or_create_profile u d))
  = stored_transactions today u timeframe d.
Proof.
  unfold stored_transactions.
  destruct (get_or_create_profile_records u d) as ((-> & _) & _). reflexivity.
Qed.

(** C2, as stated, fails for the [get_anomalies] endpoint: two runs over
    the same five stored transactions, one whose first draw is 0 and one
    whose first draw is 1, flag different transactions. *)
Lemma C2_two_runs_flag_different_transactions :
  let run (t : Random.tape) :=
    fst (fst (get_anomalies t Examples.may_31 1 "all" 1 Examples.purchases_world)) in
  exists a b,
    run [0; 0; 0]%nat = anomalies_found [a] 1 1 1 /\
    run [1; 0; 0]%nat = anomalies_found [b] 1 1 1 /\
    json_description a = "Bakery"%string /\
    json_description b = "Butcher"%string /\
    sample_transactions Examples.may_31 1 "all" (db Examples.purchases_world) [0; 0; 0]%nat
      <> sample_transactions Examples.may_31 1 "all" (db Examples.purchases_world)
           [1; 0; 0]%nat.
Proof.
  cbv zeta. eexists. eexists.
  split; [vm_compute; reflexivity|]. split; [vm_compute; reflexivity|].
  split; [reflexivity|]. split; [reflexivity|].
  vm_compute. intros H. discriminate H.
Qed.

(** C2 (amended): [detect_spending_anomalies] is a function of the
    user's expense transactions (and of the forest fit with its fixed
    seed): the other transactions of the input do not influence it.  The
    [get_anomalies] endpoint does not analyse the spending history: from
    the user's stored transactions of the time frame it answers with a
    message when there are fewer than 5, and otherwise flags
    [min(n // 5, 20)] of them drawn by [random.sample], each flagged
    entry copying the date, description, amount, category and account of
    a drawn transaction, so that the flagged set is determined by the
    transactions together with the draws of the random generator. *)
Theorem C2_anomaly_flagging
    (fit_predict : Q -> list (Q * option nat) -> result (list Z))
    (self_user : option User) (txs : list Transaction) (sensitivity : option Q)
    (t : Random.tape) (today : date) (u : Z) (timeframe : string) (page : Z)
    (w : world) :
  let stored := stored_transactions today u timeframe (db w) in
  let sampled := sample_transactions today u timeframe (db w) t in
  let response := fst (fst (get_anomalies t today u timeframe page w)) in
  detect_spending_anomalies fit_predict self_user txs sensitivity
    = detect_spending_anomalies fit_predict self_user
        (List.filter is_expense txs) sensitivity /\
  Forall (fun tx => In tx (transactions (db w)) /\ user tx = u) stored /\
  ((length stored < 5)%nat -> exists message, response = anomalies_message message) /\
  (forall paged total pages current,
     response = anomalies_found paged total pages current ->
     (5 <= length stored)%nat /\
     total = length sampled /\
     length sampled = Nat.min (length stored / 5) 20 /\
     Forall (fun tx => In tx stored) sampled /\
     Forall (fun a => exists tx, In tx sampled /\
                        json_date a = tx_date tx /\
                        json_description a = description tx /\
                        json_amount a = amount tx /\
                        json_category a = row_category_name tx /\
                        json_account a = account_name tx)
            paged).
Proof.
  cbv zeta. split; [|split].
  - unfold detect_spending_anomalies. rewrite filter_idempotent. reflexivity.
  - apply stored_transactions_of_user.
  - unfold get_anomalies, sample_transactions.
    pose proof (stored_transactions_profile today u timeframe (db w)) as Hst.
    destruct (get_or_create_profile u (db w)) as [profile d]. simpl in Hst.
    rewrite Hst.
    set (stored := stored_transactions today u timeframe (db w)).
    destruct (negb (enable_ai_insights profile)).
    { split; [intros _; eexists; reflexivity|discriminate]. }
    destruct (length stored <? 5)%nat eqn:Hfew.
    { split; [intros _; eexists; reflexivity|discriminate]. }
    apply Nat.ltb_ge in Hfew. split; [intros Hc; lia|].
    assert (Hk : (Nat.min (length stored / 5) 20 <= length stored)%nat).
    { pose proof (Nat.Div0.div_le_upper_bound (length stored) 5 (length stored)).
      assert (length stored / 5 <= length stored)%nat by (apply H; lia). lia. }
    pose proof (sample_length _ stored t Hk) as Hlen.
    pose proof (fun x => sample_In (Nat.min (length stored / 5) 20) stored t x) as Hin.
    destruct (Random.sample stored (Nat.min (length stored / 5) 20) t)
      as [sampled t1]. simpl in Hlen, Hin.
    destruct (describe_sample_sources sampled 0 t1) as (Hdl & Hsrc).
    destruct (describe_sample 0 sampled t1) as [anomalies t2]. simpl in Hdl, Hsrc.
    simpl. intros paged total pages current H. injection H as <- <- _ _.
    split; [assumption|]. split; [assumption|]. split; [assumption|].
    split; [apply List.Forall_forall; assumption|].
    apply List.Forall_forall. intros a Ha. apply In_page in Ha.
    rewrite List.Forall_forall in Hsrc. auto.
Qed.

End SamplingFacts.

(** * Worked examples *)

Section WorkedExamples.

Example preprocess_punctuation :
  TransactionCategorizer._preprocess_text "  UBER *Trip,  42 " = "uber trip 42"%string.
Proof. reflexivity. Qed.

Example preprocess_symbols_only :
  TransactionCategorizer._preprocess_text "***" = ""%string.
Proof. reflexivity. Qed.

Example toordinal_may_31 : Models.toordinal Examples.may_31 = 739037.
Proof. reflexivity. Qed.

Example weekday_may_31 : Models.weekday Examples.may_31 = 4.
Proof. reflexivity. Qed.

(** A sure classifier predicts; a description without letters or digits
    gets no prediction. *)
Example predict_rent :
  fst (TransactionCategorizer.predict Examples.rent_categorizer Examples.empty_disk
         "RENT March")
  = Returned (Some 2, Some "Rent"%string, (8 # 10)%Q).
Proof. vm_compute. reflexivity. Qed.

Example predict_symbols_only :
  fst (TransactionCategorizer.predict Examples.rent_categorizer Examples.empty_disk "***")
  = Returned TransactionCategorizer.no_prediction.
Proof. vm_compute. reflexivity. Qed.

(** Five expenses are too few for the anomaly detector, whatever the
    forest would say. *)
Example detect_too_few :
  SpendingAnalyzer.detect_spending_anomalies Examples.flag_all None
    Examples.groceries None = [].
Proof. reflexivity. Qed.

(** With a budget of 1000 for food, the recommendation of 1650 asks for
    an increase. *)
Example recommend_increase :
  map (fun r => (BudgetAnalyzer.rec_category r, BudgetAnalyzer.adjustment r))
      (BudgetAnalyzer.recommendations
         (BudgetAnalyzer.generate_budget_recommendations Examples.groceries
            [Examples.food_budget]))
  = [("Food"%string, BudgetAnalyzer.increase)].
Proof. vm_compute. reflexivity. Qed.

(** A refund booked as an expense, with no income, makes
    [generate_insights] divide by zero: the non-negativity of the
    amounts that C10 assumes is needed. *)
Example generate_insights_refund_raises :
  SpendingAnalyzer.generate_insights Examples.may_31 Examples.refund_only
  = Raised "ZeroDivisionError".
Proof. vm_compute. reflexivity. Qed.



Lemma C8_anomalies_are_large_expenses_witness :
  In 101 (SpendingAnalyzer.detect_spending_anomalies Examples.flag_all None
            Examples.quarter_of_bills None) /\
  exists tx, In tx Examples.quarter_of_bills /\ Models.id tx = 101 /\
             Models.transaction_type tx = "expense"%string /\
             (100 <= Models.amount tx)%Q.
Proof.
  assert (H : In 101 (SpendingAnalyzer.detect_spending_anomalies Examples.flag_all None
                        Examples.quarter_of_bills None)).
  { vm_compute. left. reflexivity. }
  split; [exact H|].
  destruct (C8_anomalies_are_large_expenses Examples.flag_all None
              Examples.quarter_of_bills None) as (_ & Hids & _).
  exact (Hids 101 H).
Defined.



Lemma C3_forecast_is_moving_average_witness :
  (3 <= length (List.filter Models.is_expense Examples.quarter_of_bills))%nat /\
  (3 <= length (map snd (SpendingAnalyzer.monthly_totals Examples.quarter_of_bills)))%nat /\
  length (SpendingAnalyzer.predict_monthly_spending Examples.quarter_of_bills 3) = 3%nat.
Proof.
  assert (H1 : (3 <= length (List.filter Models.is_expense Examples.quarter_of_bills))%nat)
    by (vm_compute; lia).
  assert (H2 : (3 <= length (map snd (SpendingAnalyzer.monthly_totals
                                         Examples.quarter_of_bills)))%nat)
    by (vm_compute; lia).
  split; [exact H1|]. split; [exact H2|].
  destruct (C3_forecast_is_moving_average 1 Examples.bills_world
              Examples.quarter_of_bills 3) as (_ & _ & _ & _ & _ & _ & Henough).
  destruct (Henough H1 H2) as (Hlen & _). exact Hlen.
Defined.

Lemma C2_anomaly_flagging_witness :
  fst (fst (Views.get_anomalies [2; 0; 0]%nat Examples.may_31 1 "all" 1
              Examples.purchases_world))
  = Views.anomalies_found
      [{| Views.json_id := 1;
          Views.json_date := {| Models.year := 2024; Models.month := 5; Models.day := 3 |};
          Views.json_description := "Market"; Views.json_category := "Food";
          Views.json_amount := 250%Q; Views.json_account := "Cash";
          Views.json_reason := "Unusually high amount for this category";
          Views.json_confidence := 65 |}] 1 1 1 /\
  length (Views.sample_transactions Examples.may_31 1 "all"
            (Views.db Examples.purchases_world) [2; 0; 0]%nat) = 1%nat.
Proof.
  assert (H : fst (fst (Views.get_anomalies [2; 0; 0]%nat Examples.may_31 1 "all" 1
                          Examples.purchases_world))
              = Views.anomalies_found
                  [{| Views.json_id := 1;
                      Views.json_date :=
                        {| Models.year := 2024; Models.month := 5; Models.day := 3 |};
                      Views.json_description := "Market"; Views.json_category := "Food";
                      Views.json_amount := 250%Q; Views.json_account := "Cash";
                      Views.json_reason := "Unusually high amount for this category";
                      Views.json_confidence := 65 |}] 1 1 1).
  { vm_compute. reflexivity. }
  split; [exact H|].
  destruct (C2_anomaly_flagging Examples.flag_none None Examples.five_purchases None
              [2; 0; 0]%nat Examples.may_31 1 "all"%string 1 Examples.purchases_world)
    as (_ & _ & _ & Hfound).
  destruct (Hfound _ _ _ _ H) as (_ & Htotal & _). symmetry. exact Htotal.
Defined.

End WorkedExamples.

(** * Further properties of the code *)

Section RedirectFacts.
Import Middleware.

Lemma exempt_loop_rooted (p : string) :
  exempt_loop p exempt_urls = startswith p "/".
Proof.
  destruct p as [|a s]; [reflexivity|].
  unfold exempt_urls, exempt_loop. cbn [startswith].
  destruct (Ascii.eqb a "/"); reflexivity.
Qed.

(** X1: [process_request] lets a request through exactly when the user
    is authenticated or the path begins with a slash; every other
    request is redirected to the login page, with the requested path as
    [next]. *)
Theorem process_request_redirects_iff (login_url : string) (request : HttpRequest) :
  (process_request login_url request = None <->
     is_authenticated request = true \/ startswith (path_info request) "/" = true) /\
  (process_request login_url request <> None ->
     process_request login_url request
       = Some (redirect_to_login (path request) login_url)).
Proof.
  unfold process_request. rewrite exempt_loop_rooted.
  destruct (is_authenticated request); [split; [tauto|congruence]|].
  destruct (startswith (path_info request) "/").
  - split; [tauto|congruence].
  - split; [|reflexivity]. split; [discriminate|]. intros [H|H]; discriminate.
Qed.

End RedirectFacts.

Lemma process_request_redirects_iff_witness :
  Middleware.process_request "/accounts/login/"
    {| Middleware.is_authenticated := false;
       Middleware.path_info := "dashboard"; Middleware.path := "dashboard" |}
  = Some (Middleware.redirect_to_login "dashboard" "/accounts/login/").
Proof.
  apply (process_request_redirects_iff "/accounts/login/"
           {| Middleware.is_authenticated := false;
              Middleware.path_info := "dashboard"; Middleware.path := "dashboard" |}).
  vm_compute. discriminate.
Defined.

Section PreprocessFacts.
Import TransactionCategorizer.

Lemma blank_is_space : is_space " " = true.
Proof. reflexivity. Qed.

Lemma lower_alnum_char (c : ascii) :
  is_lower_alnum c = true ->
  is_space c = false /\ Ascii.eqb c " " = false /\ lower_char c = c.
Proof.
  destruct c as [b0 b1 b2 b3 b4 b5 b6 b7].
  destruct b0, b1, b2, b3, b4, b5, b6, b7; vm_compute; intros H;
    try discriminate H; repeat split.
Qed.

Lemma not_space_not_blank (c : ascii) : is_space c = false -> Ascii.eqb c " " = false.
Proof.
  destruct (Ascii.eqb c " ") eqn:E; [|reflexivity].
  apply Ascii.eqb_eq in E. subst c. discriminate.
Qed.

Lemma lstrip_collapse (in_run : bool) (text : string) :
  lstrip (collapse_spaces in_run text) = collapse_spaces true text.
Proof.
  revert in_run. induction text as [|c rest IH]; intros in_run; [reflexivity|].
  cbn [collapse_spaces]. destruct (is_space c) eqn:Hc.
  - destruct in_run; [apply IH|]. cbn [lstrip]. rewrite blank_is_space. apply IH.
  - cbn [lstrip]. rewrite Hc. reflexivity.
Qed.

Lemma single_spaced_nonempty (text : string) :
  single_spaced true text = true -> text <> EmptyString.
Proof. destruct text; [discriminate|discriminate]. Qed.

Lemma rstrip_collapse (in_run : bool) (text : string) :
  let kept := rstrip (collapse_spaces in_run (remove_special text)) in
  kept = EmptyString \/ single_spaced in_run kept = true.
Proof.
  revert in_run. induction text as [|c rest IH]; intros in_run; [left; reflexivity|].
  cbn [remove_special collapse_spaces].
  set (c' := if is_lower_alnum c || is_space c then c else " "%char).
  destruct (is_space c') eqn:Hspace.
  - destruct in_run; [apply IH|].
    cbn [rstrip]. destruct (IH true) as [E|E]; cbv zeta in E.
    + rewrite E. rewrite blank_is_space. left. reflexivity.
    + pose proof (single_spaced_nonempty _ E) as Hne.
      destruct (rstrip (collapse_spaces true (remove_special rest))) as [|k ks] eqn:Ek;
        [contradiction|].
      right. cbn [single_spaced]. cbn [single_spaced] in E.
      change (Ascii.eqb " " " ") with true. cbn [negb andb]. exact E.
  - assert (Halnum : is_lower_alnum c' = true).
    { unfold c' in *. destruct (is_lower_alnum c) eqn:Ha; [exact Ha|].
      destruct (is_space c) eqn:Hs; cbn [orb] in *; [congruence|].
      rewrite blank_is_space in Hspace. discriminate. }
    pose proof (not_space_not_blank _ Hspace) as Hblank.
    right. cbn [rstrip].
    destruct (IH false) as [E|E]; cbv zeta in E.
    + rewrite E. rewrite Hspace. cbn [single_spaced]. rewrite Hblank, Halnum. reflexivity.
    + destruct (rstrip (collapse_spaces false (remove_special rest))) as [|k ks] eqn:Ek.
      * rewrite Hspace. cbn [single_spaced]. rewrite Hblank, Halnum. reflexivity.
      * cbn [single_spaced]. rewrite Hblank, Halnum. exact E.
Qed.

Lemma preprocess_collapse (text : string) :
  _preprocess_text text = rstrip (collapse_spaces true (remove_special (lower text))).
Proof.
  destruct text as [|c rest]; [reflexivity|].
  unfold _preprocess_text. rewrite lstrip_collapse. reflexivity.
Qed.

Lemma preprocess_single_spaced (text : string) :
  normalized (_preprocess_text text) = true.
Proof.
  rewrite preprocess_collapse.
  destruct (rstrip_collapse true (lower text)) as [E|E]; cbv zeta in E.
  - rewrite E. reflexivity.
  - destruct (rstrip _) eqn:Ek; [reflexivity|exact E].
Qed.

Lemma single_spaced_weaken (text : string) :
  single_spaced true text = true -> single_spaced false text = true.
Proof.
  destruct text as [|c rest]; [discriminate|].
  cbn [single_spaced]. destruct (Ascii.eqb c " "); [discriminate|auto].
Qed.

(** On a text of that shape, each step of [_preprocess_text] changes
    nothing. *)
Lemma single_spaced_fixed (after_blank : bool) (text : string) :
  single_spaced after_blank text = true ->
  lower text = text /\ remove_special text = text /\
  collapse_spaces after_blank text = text /\ rstrip text = text.
Proof.
  revert after_blank. induction text as [|c rest IH]; intros after_blank H;
    [repeat split|].
  cbn [single_spaced] in H. cbn [lower remove_special collapse_spaces rstrip].
  destruct (Ascii.eqb c " ") eqn:Hc.
  - apply Ascii.eqb_eq in Hc. subst c.
    apply andb_true_iff in H as [Hb H]. apply negb_true_iff in Hb. subst after_blank.
    destruct (IH true H) as (E1 & E2 & E3 & E4).
    rewrite blank_is_space. change (lower_char " ") with " "%char.
    change (is_lower_alnum " " || true) with true. cbn iota.
    rewrite E1, E2, E3, E4. repeat split.
    pose proof (single_spaced_nonempty _ H) as Hne.
    destruct rest; [contradiction|reflexivity].
  - apply andb_true_iff in H as [Ha H].
    destruct (lower_alnum_char c Ha) as (Hs & _ & Hl).
    destruct (IH false H) as (E1 & E2 & E3 & E4).
    rewrite Hl, Ha, Hs. cbn [orb]. rewrite E1, E2, E3, E4. repeat split.
    destruct rest; reflexivity.
Qed.

Lemma normalized_fixed (text : string) :
  normalized text = true -> _preprocess_text text = text.
Proof.
  destruct text as [|c rest]; [reflexivity|]. intros H.
  change (single_spaced true (String c rest) = true) in H.
  rewrite preprocess_collapse.
  destruct (single_spaced_fixed true _ H) as (E1 & E2 & E3 & E4).
  rewrite E1, E2, E3, E4. reflexivity.
Qed.

(** X2: whatever the description, [_preprocess_text] returns words of
    lower-case letters and digits separated by single blanks, with no
    blank at either end (or the empty text). *)
Theorem preprocess_text_normalized (text : string) :
  normalized (_preprocess_text text) = true.
Proof. apply preprocess_single_spaced. Qed.

(** X3: [_preprocess_text] leaves a text unchanged exactly when the text
    already has that shape; preprocessing twice is preprocessing once. *)
Theorem preprocess_text_idempotent (text : string) :
  (_preprocess_text text = text <-> normalized text = true) /\
  _preprocess_text (_preprocess_text text) = _preprocess_text text.
Proof.
  split.
  - split; [|apply normalized_fixed].
    intros E. rewrite <- E. apply preprocess_single_spaced.
  - apply normalized_fixed, preprocess_single_spaced.
Qed.

End PreprocessFacts.

Section TrainingFacts.
Import Models TransactionCategorizer.

Lemma collect_length (txs : list Transaction) (ds : list string) (ls : list Z)
    (cats : gmap Z string) (idmap : gmap string Z) :
  length (fst (fst (fst (collect txs ds ls cats idmap))))
    = (length ds + length (categorized txs))%nat.
Proof.
  revert ds ls cats idmap. unfold categorized.
  induction txs as [|tx txs IH]; intros ds ls cats idmap; cbn [collect List.filter].
  - cbn. lia.
  - destruct (category tx) as [c|]; cbn [truthy]; [|apply IH].
    rewrite IH, length_app. cbn [length]. lia.
Qed.

(** Every name in the categories map after the loop was there before or
    is the name of a category of the input with that id. *)
Lemma collect_categories (txs : list Transaction) (ds : list string) (ls : list Z)
    (cats : gmap Z string) (idmap : gmap string Z) (k : Z) (n : string) :
  snd (fst (collect txs ds ls cats idmap)) !! k = Some n ->
  cats !! k = Some n \/
  exists tx c, In tx txs /\ category tx = Some c /\
               category_id c = k /\ category_name c = n.
Proof.
  revert ds ls cats idmap.
  induction txs as [|tx txs IH]; intros ds ls cats idmap; cbn [collect].
  - cbn. auto.
  - destruct (category tx) as [c|] eqn:Hc.
    + intros H. apply IH in H as [H|(tx' & c' & Hin & H)].
      * apply lookup_insert_Some in H as [[<- <-]|[_ H]]; [|left; exact H].
        right. exists tx, c. split; [left; reflexivity|auto].
      * right. exists tx', c'. split; [right; exact Hin|exact H].
    + intros H. apply IH in H as [H|(tx' & c' & Hin & H)]; [left; exact H|].
      right. exists tx', c'. split; [right; exact Hin|exact H].
Qed.

Lemma collect_keeps_names (txs : list Transaction) (ds : list string) (ls : list Z)
    (cats : gmap Z string) (idmap : gmap string Z) (k : Z) :
  is_Some (cats !! k) ->
  is_Some (snd (fst (collect txs ds ls cats idmap)) !! k).
Proof.
  revert ds ls cats idmap.
  induction txs as [|tx txs IH]; intros ds ls cats idmap H; cbn [collect]; [exact H|].
  destruct (category tx) as [c|]; [|apply IH; exact H].
  apply IH. apply lookup_insert_is_Some.
  destruct (decide (category_id c = k)); [left; assumption|right; auto].
Qed.

(** Every category of the input has a name after the loop. *)
Lemma collect_names_all (txs : list Transaction) (ds : list string) (ls : list Z)
    (cats : gmap Z string) (idmap : gmap string Z) (tx : Transaction) (c : Category) :
  In tx txs -> category tx = Some c ->
  is_Some (snd (fst (collect txs ds ls cats idmap)) !! category_id c).
Proof.
  revert ds ls cats idmap.
  induction txs as [|tx' txs IH]; intros ds ls cats idmap Hin Hc; [destruct Hin|].
  cbn [collect]. destruct Hin as [->|Hin].
  - rewrite Hc. apply collect_keeps_names. rewrite lookup_insert_eq. eauto.
  - destruct (category tx'); apply IH; assumption.
Qed.

(** The loop only adds to the category id map. *)
Lemma collect_id_map_frame (txs : list Transaction) (ds : list string) (ls : list Z)
    (cats : gmap Z string) (idmap : gmap string Z) (name : string) :
  (forall tx c, In tx txs -> category tx = Some c -> category_name c <> name) ->
  snd (collect txs ds ls cats idmap) !! name = idmap !! name.
Proof.
  revert ds ls cats idmap.
  induction txs as [|tx txs IH]; intros ds ls cats idmap H; cbn [collect]; [reflexivity|].
  assert (Hrest : forall tx' c, In tx' txs -> category tx' = Some c ->
                                category_name c <> name).
  { intros tx' c Hin. apply H. right. exact Hin. }
  destruct (category tx) as [c|] eqn:Hc; [|apply IH; exact Hrest].
  rewrite IH by exact Hrest. apply lookup_insert_ne.
  apply (H tx c); [left; reflexivity|exact Hc].
Qed.

Variable train_test_split :
  list string -> list Z -> (list string * list string) * (list Z * list Z).
Variable fit : list string -> list Z -> result Pipeline.
Variable score : Pipeline -> list string -> list Z -> result Q.

(** X4: [train] writes the model file only when it returns [True]; the
    file then holds the model and the two maps the categorizer has in
    memory, so that a categorizer without a model that falls back on the
    file predicts as the trained one does. *)
Theorem train_writes_only_on_success (self : Categorizer) (fs : disk)
    (transactions : list Transaction) (force_retrain : bool) :
  let outcome := train train_test_split fit score self fs transactions force_retrain in
  let self' := snd (fst outcome) in
  let fs' := snd outcome in
  (fst (fst outcome) <> Returned (Some true, fitted) -> fs' = fs) /\
  (fst (fst outcome) = Returned (Some true, fitted) ->
     exists m,
       model self' = Some m /\
       file fs' = Some (model_data m (categories self') (category_id_map self')) /\
       forall (other : Categorizer) (description : string),
         model other = None -> min_confidence other = min_confidence self' ->
         fst (predict other fs' description) = fst (predict self' fs' description)).
Proof.
  unfold train.
  destruct (truthy (model self) && negb force_retrain);
    [cbn; split; [reflexivity|discriminate]|].
  destruct (truthy (file fs) && negb force_retrain);
    [cbn; split; [reflexivity|discriminate]|].
  destruct (collect transactions [] [] ∅ (category_id_map self))
    as [[[descriptions labels] cats] idmap].
  destruct (length descriptions <? 10)%nat;
    [cbn; split; [reflexivity|discriminate]|].
  destruct (train_test_split descriptions labels) as [[X_train X_test] [y_train y_test]].
  destruct (fit X_train y_train) as [m|e]; [|cbn; split; [reflexivity|discriminate]].
  destruct (score m X_test y_test) as [accuracy|e];
    [|cbn; split; [reflexivity|discriminate]].
  unfold _save_model. cbn [model categories category_id_map min_confidence].
  destruct (writable fs); [|cbn; split; [reflexivity|discriminate]].
  cbn [fst snd]. split; [congruence|]. intros _. exists m.
  cbn [model categories category_id_map file]. split; [reflexivity|].
  split; [reflexivity|].
  intros other description Hnone Hconf. cbn [min_confidence] in Hconf.
  unfold predict. rewrite Hnone. unfold _load_model.
  cbn [file snd model]. rewrite Hconf. reflexivity.
Qed.

(** X5: when [train] gets past its two early returns (a retraining is
    forced, or no model is loaded and no file exists), it rebuilds
    [categories] from the input and only adds to [category_id_map]:
    every entry of [categories] afterwards is the id and name of a
    category of the input, every category of the input has a name, and
    the entries of [category_id_map] for names that do not occur in the
    input are the old ones.  With fewer than 10 categorized transactions
    it then returns [False], with the model and the file as before. *)
Theorem train_rebuilds_categories (self : Categorizer) (fs : disk)
    (transactions : list Transaction) (force_retrain : bool) :
  force_retrain = true \/ (model self = None /\ file fs = None) ->
  let outcome := train train_test_split fit score self fs transactions force_retrain in
  let self' := snd (fst outcome) in
  (forall k n, categories self' !! k = Some n ->
     exists tx c, In tx transactions /\ category tx = Some c /\
                  category_id c = k /\ category_name c = n) /\
  (forall tx c, In tx transactions -> category tx = Some c ->
     is_Some (categories self' !! category_id c)) /\
  (forall name,
     (forall tx c, In tx transactions -> category tx = Some c ->
        category_name c <> name) ->
     category_id_map self' !! name = category_id_map self !! name) /\
  ((length (categorized transactions) < 10)%nat ->
     fst (fst outcome) = Returned (Some false, too_few_samples) /\
     model self' = model self /\ snd outcome = fs).
Proof.
  intros Hpast. unfold train.
  assert (E1 : truthy (model self) && negb force_retrain = false).
  { destruct Hpast as [->|[-> _]]; [apply andb_false_r|reflexivity]. }
  assert (E2 : truthy (file fs) && negb force_retrain = false).
  { destruct Hpast as [->|[_ ->]]; [apply andb_false_r|reflexivity]. }
  rewrite E1, E2.
  pose proof (collect_length transactions [] [] ∅ (category_id_map self)) as Hlen.
  pose proof (collect_categories transactions [] [] ∅ (category_id_map self)) as Hcats.
  pose proof (collect_names_all transactions [] [] ∅ (category_id_map self)) as Hall.
  pose proof (collect_id_map_frame transactions [] [] ∅ (category_id_map self)) as Hmap.
  destruct (collect transactions [] [] ∅ (category_id_map self))
    as [[[descriptions labels] cats] idmap].
  cbn [fst snd length Nat.add] in Hlen, Hcats, Hall, Hmap.
  assert (Hcats' : forall k n, cats !! k = Some n ->
            exists tx c, In tx transactions /\ category tx = Some c /\
                         category_id c = k /\ category_name c = n).
  { intros k n H. destruct (Hcats k n H) as [H'|H']; [|exact H'].
    rewrite lookup_empty in H'. discriminate. }
  destruct (length descriptions <? 10)%nat eqn:Hfew.
  { cbn. repeat split; auto. }
  apply Nat.ltb_ge in Hfew.
  assert (Hmany : (length (categorized transactions) < 10)%nat -> False) by lia.
  destruct (train_test_split descriptions labels) as [[X_train X_test] [y_train y_test]].
  destruct (fit X_train y_train) as [m|e].
  - destruct (score m X_test y_test) as [accuracy|e].
    + destruct (_save_model _ fs); cbn; repeat split; auto; exfalso; apply Hmany; assumption.
    + cbn; repeat split; auto; exfalso; apply Hmany; assumption.
  - cbn; repeat split; auto; exfalso; apply Hmany; assumption.
Qed.

End TrainingFacts.

Lemma train_rebuilds_categories_witness :
  fst (fst (TransactionCategorizer.train Examples.no_split Examples.no_fit
              Examples.no_score TransactionCategorizer.__init__ Examples.empty_disk
              Examples.groceries false))
  = Returned (Some false, TransactionCategorizer.too_few_samples).
Proof.
  destruct (train_rebuilds_categories Examples.no_split Examples.no_fit
              Examples.no_score TransactionCategorizer.__init__ Examples.empty_disk
              Examples.groceries false (or_intror (conj eq_refl eq_refl)))
    as (_ & _ & _ & H).
  apply H. vm_compute. lia.
Defined.

Lemma train_writes_only_on_success_witness :
  fst (TransactionCategorizer.predict TransactionCategorizer.__init__
         (snd (TransactionCategorizer.train Examples.no_split MoreExamples.fit_rent
                 Examples.no_score TransactionCategorizer.__init__ Examples.empty_disk
                 Examples.quarter_of_bills false))
         "Rent")
  = Returned (Some 2, Some "Rent"%string, (8 # 10)%Q).
Proof.
  destruct (train_writes_only_on_success Examples.no_split MoreExamples.fit_rent
              Examples.no_score TransactionCategorizer.__init__ Examples.empty_disk
              Examples.quarter_of_bills false) as (_ & H).
  destruct (H eq_refl) as (m & _ & _ & Hsame).
  rewrite (Hsame TransactionCategorizer.__init__ "Rent"%string eq_refl eq_refl).
  vm_compute. reflexivity.
Defined.

Section CategorizeFacts.
Import Models TransactionCategorizer Views.

Lemma predict_confident (self : Categorizer) (fs : disk) (description : string)
    (cid : Z) (name : option string) (conf : Q) :
  fst (predict self fs description) = Returned (Some cid, name, conf) ->
  (min_confidence self <= conf)%Q.
Proof.
  destruct (available self fs) as [[m cats]|] eqn:Hav.
  - rewrite (predict_available _ _ _ _ _ Hav). cbv zeta.
    destruct (String.eqb _ _); [discriminate|].
    destruct (predict_proba m _) as [ps|e]; [|discriminate].
    destruct (py_max ps) as [p|]; [|discriminate].
    destruct (nth_error _ _); [|discriminate].
    destruct (Qle_bool (min_confidence self) p) eqn:Hle; cbn [negb]; [|discriminate].
    intros H. inversion H; subst. apply Qle_bool_iff. exact Hle.
  - rewrite (predict_unavailable _ _ _ Hav). discriminate.
Qed.

Lemma predict_keeps_confidence (self : Categorizer) (fs : disk) (description : string) :
  min_confidence (snd (predict self fs description)) = min_confidence self.
Proof.
  unfold predict.
  assert (E : min_confidence
                match model self with
                | Some _ => self
                | None => snd (_load_model self fs)
                end = min_confidence self).
  { destruct (model self); [reflexivity|]. unfold _load_model.
    destruct (file fs) as [[m cats idmap|]|]; reflexivity. }
  revert E.
  generalize (match model self with
              | Some _ => self
              | None => snd (_load_model self fs)
              end).
  intros self' E. destruct (model self'); [|exact E].
  destruct (String.eqb _ _); [exact E|].
  destruct (predict_proba _ _) as [ps|e]; [|exact E].
  destruct (py_max ps); [|exact E].
  destruct (nth_error _ _); [|exact E].
  destruct (negb _); exact E.
Qed.

(** The loop of [auto_categorize_transactions] extends the results by
    at most one entry per transaction, each with the id and description
    of one of them and a confidence of at least the categorizer's
    threshold. *)
Lemma categorize_loop_results (q : Q) (uncategorized : list Transaction) :
  forall categorizer fs d results results' d',
    min_confidence categorizer = q ->
    categorize_loop categorizer fs uncategorized d results = (Returned results', d') ->
    exists added,
      results' = results ++ added /\
      (length added <= length uncategorized)%nat /\
      Forall (fun r => exists tx, In tx uncategorized /\
                         fst (fst (fst r)) = id tx /\
                         snd (fst (fst r)) = description tx /\
                         (q <= snd r)%Q)
             added.
Proof.
  induction uncategorized as [|tx rest IH];
    intros categorizer fs d results results' d' Hq; cbn [categorize_loop].
  - intros H. inversion H; subst. exists []. rewrite app_nil_r.
    split; [reflexivity|]. split; [cbn; lia|constructor].
  - pose proof (predict_confident categorizer fs (description tx)) as Hconf.
    pose proof (predict_keeps_confidence categorizer fs (description tx)) as Hkeep.
    destruct (predict categorizer fs (description tx))
      as [[[[cid name] conf]|e] categorizer']; [|discriminate].
    cbn [fst snd] in Hconf, Hkeep. rewrite Hq in Hkeep, Hconf.
    assert (Hskip : forall d0,
              categorize_loop categorizer' fs rest d0 results = (Returned results', d') ->
              exists added,
                results' = results ++ added /\
                (length added <= length (tx :: rest))%nat /\
                Forall (fun r => exists tx0, In tx0 (tx :: rest) /\
                                   fst (fst (fst r)) = id tx0 /\
                                   snd (fst (fst r)) = description tx0 /\
                                   (q <= snd r)%Q)
                       added).
    { intros d0 H. destruct (IH _ _ _ _ _ _ Hkeep H) as (added & E & Hlen & Hall).
      exists added. split; [exact E|]. split; [cbn [length]; lia|].
      eapply List.Forall_impl; [|exact Hall].
      intros r (tx0 & Hin & Hr). exists tx0. split; [right; exact Hin|exact Hr]. }
    assert (Hsave : forall cid0 c,
              cid = Some cid0 ->
              categorize_loop categorizer' fs rest
                (save_transaction (assign_category tx c) d)
                (results ++ [(id (assign_category tx c),
                              description (assign_category tx c), name, conf)])
                = (Returned results', d') ->
              exists added,
                results' = results ++ added /\
                (length added <= length (tx :: rest))%nat /\
                Forall (fun r => exists tx0, In tx0 (tx :: rest) /\
                                   fst (fst (fst r)) = id tx0 /\
                                   snd (fst (fst r)) = description tx0 /\
                                   (q <= snd r)%Q)
                       added).
    { intros cid0 c -> H.
      destruct (IH _ _ _ _ _ _ Hkeep H) as (added & E & Hlen & Hall).
      exists ((id tx, description tx, name, conf) :: added).
      split; [rewrite E, <- app_assoc; reflexivity|].
      split; [cbn [length]; lia|].
      constructor.
      - exists tx. split; [left; reflexivity|]. cbn [fst snd].
        split; [reflexivity|]. split; [reflexivity|]. eapply Hconf. reflexivity.
      - eapply List.Forall_impl; [|exact Hall].
        intros r (tx0 & Hin & Hr). exists tx0. split; [right; exact Hin|exact Hr]. }
    destruct cid as [[|cid|cid]|]; try (apply Hskip).
    + destruct (get_category (Z.pos cid) d) as [c|]; [|apply Hskip].
      apply (Hsave (Z.pos cid) c eq_refl).
    + destruct (get_category (Z.neg cid) d) as [c|]; [|apply Hskip].
      apply (Hsave (Z.neg cid) c eq_refl).
Qed.

Variable train_test_split :
  list string -> list Z -> (list string * list string) * (list Z * list Z).
Variable fit : list string -> list Z -> result Pipeline.
Variable score : Pipeline -> list string -> list Z -> result Q.

Lemma train_keeps_confidence (self : Categorizer) (fs : disk)
    (transactions : list Transaction) (force_retrain : bool) :
  min_confidence
    (snd (fst (train train_test_split fit score self fs transactions force_retrain)))
  = min_confidence self.
Proof.
  unfold train.
  destruct (truthy (model self) && negb force_retrain); [reflexivity|].
  destruct (truthy (file fs) && negb force_retrain).
  { unfold _load_model. destruct (file fs) as [[m cats idmap|]|]; reflexivity. }
  destruct (collect transactions [] [] ∅ (category_id_map self))
    as [[[descriptions labels] cats] idmap].
  destruct (length descriptions <? 10)%nat; [reflexivity|].
  destruct (train_test_split descriptions labels) as [[X_train X_test] [y_train y_test]].
  destruct (fit X_train y_train) as [m|e]; [|reflexivity].
  destruct (score m X_test y_test) as [accuracy|e]; [|reflexivity].
  destruct (_save_model _ fs); reflexivity.
Qed.

(** X6: when [auto_categorize_transactions] reports its results, the
    categorized count is their number and at most the number of the
    user's uncategorized transactions, which is the total it reports;
    every result carries the id and the description of one of these
    transactions and a confidence of at least 0.35. *)
Theorem auto_categorize_results (u : Z) (w : world) (categorized_count total : nat)
    (results : list (Z * string * option string * Q)) :
  fst (auto_categorize_transactions train_test_split fit score u w)
    = json_categorized categorized_count total results ->
  categorized_count = length results /\
  (categorized_count <= total)%nat /\
  total = length (List.filter (fun tx => (user tx =? u) && negb (truthy (category tx)))
                    (transactions (db w))) /\
  Forall (fun r => exists tx,
            In tx (transactions (db w)) /\ user tx = u /\ category tx = None /\
            fst (fst (fst r)) = id tx /\ snd (fst (fst r)) = description tx /\
            (35 # 100 <= snd r)%Q)
         results.
Proof.
  unfold auto_categorize_transactions.
  destruct (get_or_create_profile_records u (db w)) as ((Htx & _) & _).
  destruct (get_or_create_profile u (db w)) as [profile d]. cbn [snd] in Htx.
  rewrite Htx.
  destruct (negb (enable_ai_categorization profile)); [discriminate|].
  destruct (length _ <? 10)%nat; [discriminate|].
  set (uncategorized := List.filter _ (transactions (db w))).
  assert (Hun : forall tx, In tx uncategorized ->
            In tx (transactions (db w)) /\ user tx = u /\ category tx = None).
  { intros tx Hin. apply filter_In in Hin as [Hin Hf].
    apply andb_true_iff in Hf as [Hu Hc]. split; [exact Hin|].
    split; [apply Z.eqb_eq; exact Hu|]. destruct (category tx); [discriminate|reflexivity]. }
  destruct uncategorized as [|tx0 rest] eqn:Eun.
  { cbn [fst]. intros H. inversion H; subst.
    split; [reflexivity|]. split; [lia|]. split; [reflexivity|constructor]. }
  pose proof (train_keeps_confidence __init__ (model_file (with_db w d))
                (List.filter (fun tx => (user tx =? u) && truthy (category tx))
                             (transactions (db w))) false) as Hconf.
  destruct (train train_test_split fit score __init__ (model_file (with_db w d)) _ false)
    as [[trained categorizer] fs].
  cbn [fst snd] in Hconf. change (min_confidence __init__) with (35 # 100)%Q in Hconf.
  destruct trained as [ok|e]; [|discriminate].
  pose proof (categorize_loop_results (35 # 100) (tx0 :: rest) categorizer fs d [])
    as Hloop.
  destruct (categorize_loop categorizer fs (tx0 :: rest) d []) as [[looped|e] d'];
    [|discriminate].
  destruct (Hloop looped d' Hconf eq_refl) as (added & E & Hlen & Hall).
  cbn [app] in E. subst added.
  cbn [fst]. intros H. inversion H; subst.
  split; [reflexivity|]. split; [exact Hlen|]. split; [reflexivity|].
  eapply List.Forall_impl; [|exact Hall].
  intros r (tx & Hin & Hid & Hdesc & Hq).
  destruct (Hun tx Hin) as (H1 & H2 & H3). exists tx. auto 10.
Qed.


(** X8: when no readable model file exists and fewer than 10 other
    transactions of the user are categorized, [categorize_transaction]
    makes no prediction for a transaction of a user who has AI
    categorization enabled: it answers "Could not confidently predict a
    category", and leaves the model file as it is. *)
Theorem categorize_transaction_untrained (u transaction_id : Z) (w : world)
    (transaction : Transaction) :
  get_transaction transaction_id u (db w) = Some transaction ->
  enable_ai_categorization (fst (get_or_create_profile u (db w))) = true ->
  available __init__ (model_file w) = None ->
  (length (List.filter
             (fun tx => (user tx =? u)%Z && truthy (category tx)
                        && negb (id tx =? transaction_id)%Z)
             (transactions (db w))) < 10)%nat ->
  let outcome := categorize_transaction train_test_split fit score u transaction_id w in
  fst outcome = json_failure "Could not confidently predict a category" /\
  model_file (snd outcome) = model_file w.
Proof.
  intros Hget Hon Hav Hfew. unfold categorize_transaction. rewrite Hget.
  destruct (get_or_create_profile_records u (db w)) as ((Htx & _) & _).
  destruct (get_or_create_profile u (db w)) as [profile d].
  cbn [fst snd] in Hon, Htx. rewrite Hon, Htx. cbn [negb].
  set (training := List.filter _ (transactions (db w))) in *.
  unfold with_db. cbn [model_file db].
  assert (Htrain : exists self' action,
            train train_test_split fit score __init__ (model_file w) training false
              = (Returned action, self', model_file w) /\
            model self' = None).
  { unfold train. cbn [__init__ model truthy andb].
    unfold available in Hav. cbn [__init__ model] in Hav.
    destruct (file (model_file w)) as [[m cats idmap|]|] eqn:Hfile; [discriminate| |].
    - cbn [truthy negb andb]. unfold _load_model. rewrite Hfile.
      eexists _, _. split; reflexivity.
    - cbn [truthy negb andb category_id_map min_confidence].
      pose proof (collect_length training [] [] ∅ (category_id_map __init__)) as Hlen.
      destruct (collect training [] [] ∅ (category_id_map __init__))
        as [[[descriptions labels] cats] idmap].
      cbn [fst length Nat.add] in Hlen.
      assert (Hle : (length (categorized training) <= length training)%nat).
      { unfold categorized. apply List.filter_length_le. }
      assert (Hlt : (length descriptions <? 10)%nat = true).
      { apply Nat.ltb_lt. lia. }
      rewrite Hlt. eexists _, _. split; reflexivity. }
  destruct Htrain as (self' & action & -> & Hnone).
  assert (Hnot : available self' (model_file w) = None).
  { unfold available in *. rewrite Hnone. exact Hav. }
  rewrite (predict_unavailable _ _ _ Hnot). cbn. split; reflexivity.
Qed.

End CategorizeFacts.

Lemma auto_categorize_results_witness :
  fst (Views.auto_categorize_transactions Examples.no_split Examples.no_fit
         Examples.no_score 1 MoreExamples.rent_world)
  = Views.json_categorized 1 1 [(500, "RENT April"%string, Some "Rent"%string, (8 # 10)%Q)] /\
  (1 <= 1)%nat.
Proof.
  assert (H : fst (Views.auto_categorize_transactions Examples.no_split Examples.no_fit
                     Examples.no_score 1 MoreExamples.rent_world)
              = Views.json_categorized 1 1
                  [(500, "RENT April"%string, Some "Rent"%string, (8 # 10)%Q)]).
  { vm_compute. reflexivity. }
  split; [exact H|].
  destruct (auto_categorize_results Examples.no_split Examples.no_fit Examples.no_score
              1 MoreExamples.rent_world _ _ _ H) as (_ & Hle & _).
  exact Hle.
Defined.


Lemma categorize_transaction_untrained_witness :
  fst (Views.categorize_transaction Examples.no_split Examples.no_fit
         Examples.no_score 1 1 Examples.purchases_world)
  = Views.json_failure "Could not confidently predict a category".
Proof.
  apply (categorize_transaction_untrained Examples.no_split Examples.no_fit
           Examples.no_score 1 1 Examples.purchases_world
           (Examples.purchase 1 "Orchard")).
  - reflexivity.
  - reflexivity.
  - reflexivity.
  - vm_compute. lia.
Defined.

Section AnomalyInfoFacts.
Import Models Pandas SpendingAnalyzer.
Variable fit_predict : Q -> list (Q * option nat) -> result (list Z).

(** Each dictionary of [detect_anomalies] is read off the first
    transaction of the input that has one of the given ids. *)
Lemma format_anomalies_source (transactions : list Transaction) (anomaly_ids : list Z)
    (info : anomaly_info) :
  In info (format_anomalies transactions anomaly_ids) ->
  exists tx, In tx transactions /\ In (id tx) anomaly_ids /\
    info = {| info_id := id tx; info_date := tx_date tx;
              info_description := description tx; info_amount := amount tx;
              info_category := row_category_name tx;
              info_reason := "Unusual spending pattern" |}.
Proof.
  induction anomaly_ids as [|tx_id rest IH]; cbn [format_anomalies]; [intros []|].
  assert (Hrest : In info (format_anomalies transactions rest) ->
            exists tx, In tx transactions /\ In (id tx) (tx_id :: rest) /\
              info = {| info_id := id tx; info_date := tx_date tx;
                        info_description := description tx; info_amount := amount tx;
                        info_category := row_category_name tx;
                        info_reason := "Unusual spending pattern" |}).
  { intros Hin. destruct (IH Hin) as (tx & H1 & H2 & H3).
    exists tx. split; [exact H1|]. split; [right; exact H2|exact H3]. }
  destruct (find _ transactions) as [tx|] eqn:Hfind; [|exact Hrest].
  intros [<-|Hin]; [|exact (Hrest Hin)].
  apply find_some in Hfind as [Hin Hid]. apply Z.eqb_eq in Hid.
  exists tx. split; [exact Hin|]. split; [left; symmetry; exact Hid|reflexivity].
Qed.

(** X9: when the ids of the input are distinct, every anomaly
    [detect_anomalies] reports describes an expense of the input whose
    amount is at least the minimum-amount threshold: it copies the id,
    date, description and amount of that transaction, names its category
    (['Uncategorized'] without one), and gives 'Unusual spending pattern'
    as the reason. *)
Theorem detect_anomalies_reports_large_expenses (self_user : option User)
    (transactions : list Transaction) :
  List.NoDup (map id transactions) ->
  Forall (fun info => exists tx,
            In tx transactions /\
            transaction_type tx = "expense"%string /\
            (min_amount_threshold self_user <= amount tx)%Q /\
            info = {| info_id := id tx; info_date := tx_date tx;
                      info_description := description tx; info_amount := amount tx;
                      info_category := row_category_name tx;
                      info_reason := "Unusual spending pattern" |})
         (detect_anomalies fit_predict self_user transactions).
Proof.
  intros Hnd. apply List.Forall_forall. intros info Hin. unfold detect_anomalies in Hin.
  apply format_anomalies_source in Hin as (tx & Htx & Hid & Hinfo).
  apply detect_spending_anomalies_sound in Hid as (tx' & Htx' & Hsame & Hexp & Hmin).
  assert (tx' = tx) by (eapply NoDup_id_eq; eassumption). subst tx'.
  exists tx. auto.
Qed.

End AnomalyInfoFacts.

Lemma detect_anomalies_reports_large_expenses_witness :
  length (SpendingAnalyzer.detect_anomalies Examples.flag_all None
            Examples.quarter_of_bills) = 12%nat /\
  Forall (fun info => exists tx,
            In tx Examples.quarter_of_bills /\
            Models.transaction_type tx = "expense"%string /\
            (SpendingAnalyzer.min_amount_threshold None <= Models.amount tx)%Q /\
            info = {| SpendingAnalyzer.info_id := Models.id tx;
                      SpendingAnalyzer.info_date := Models.tx_date tx;
                      SpendingAnalyzer.info_description := Models.description tx;
                      SpendingAnalyzer.info_amount := Models.amount tx;
                      SpendingAnalyzer.info_category :=
                        SpendingAnalyzer.row_category_name tx;
                      SpendingAnalyzer.info_reason := "Unusual spending pattern" |})
         (SpendingAnalyzer.detect_anomalies Examples.flag_all None
            Examples.quarter_of_bills).
Proof.
  split; [vm_compute; reflexivity|].
  apply (detect_anomalies_reports_large_expenses Examples.flag_all None
           Examples.quarter_of_bills).
  vm_compute. repeat (constructor; [simpl; intuition discriminate|]). constructor.
Defined.

Section TrendFacts.
Import Models Pandas SpendingAnalyzer.

Lemma flat_map_length_le {A B : Type} (f : A -> list B) (l : list A) :
  (forall x, (length (f x) <= 1)%nat) ->
  (length (flat_map f l) <= length l)%nat.
Proof.
  intros Hf. induction l as [|x l IH]; cbn [flat_map length]; [lia|].
  rewrite length_app. specialize (Hf x). lia.
Qed.

Lemma flat_map_nil {A B : Type} (f : A -> list B) (l : list A) :
  (forall x, In x l -> f x = []) -> flat_map f l = [].
Proof.
  intros Hf. induction l as [|x l IH]; cbn [flat_map]; [reflexivity|].
  rewrite (Hf x) by (left; reflexivity). cbn [app].
  apply IH. intros y Hy. apply Hf. right. exact Hy.
Qed.

(** The body of the loop over the top categories: at most one message,
    and it names the category. *)
Lemma trend_of_category (category : string) (category_data : list Q)
    (m : insight_message) :
  let messages :=
    match rev category_data with
    | current :: previous :: _ =>
        let mom_change := np_div (current - previous)%Q previous in
        if np_gtb mom_change (2 # 10)
        then [spending_increased category mom_change]
        else if np_ltb mom_change (- (2 # 10))%Q
        then [spending_reduced category mom_change]
        else []
    | _ => []
    end in
  (length messages <= 1)%nat /\
  (In m messages ->
     (2 <= length category_data)%nat /\
     exists change, m = spending_increased category change \/
                    m = spending_reduced category change).
Proof.
  cbv zeta. rewrite <- (length_rev category_data).
  destruct (rev category_data) as [|current [|previous rest]];
    [split; [cbn; lia|intros []]..|].
  destruct (np_gtb _ _).
  { split; [cbn; lia|]. intros [<-|[]]. split; [cbn; lia|eauto]. }
  destruct (np_ltb _ _).
  { split; [cbn; lia|]. intros [<-|[]]. split; [cbn; lia|eauto]. }
  split; [cbn; lia|intros []].
Qed.

Lemma In_firstn {A : Type} (n : nat) (l : list A) (x : A) :
  In x (firstn n l) -> In x l.
Proof.
  revert l. induction n as [|n IH]; intros l; [intros []|].
  destruct l as [|y l]; cbn [firstn]; [intros []|].
  intros [->|Hx]; [left; reflexivity|right; apply IH; exact Hx].
Qed.

Lemma nodup_single {A : Type} (dec : forall a b : A, {a = b} + {a <> b}) (l : list A) :
  (forall x y, In x l -> In y l -> x = y) -> (length (nodup dec l) <= 1)%nat.
Proof.
  induction l as [|x l IH]; intros Hsame; cbn [nodup]; [cbn; lia|].
  assert (Hrest : forall a b, In a l -> In b l -> a = b).
  { intros a b Ha Hb. apply Hsame; right; assumption. }
  destruct (in_dec dec x l) as [Hin|Hout]; [apply IH; exact Hrest|].
  destruct l as [|y l']; [cbn; lia|].
  exfalso. apply Hout. left. apply Hsame; [right; left; reflexivity|left; reflexivity].
Qed.

(** The expenses of the last [30 * months] days, on which
    [analyze_spending_by_category] works. *)
Lemma trend_origin (today : date) (transactions : list Transaction)
    (months : Z) (m : insight_message) :
  let df :=
    List.filter (fun tx => toordinal today - 30 * months <=? toordinal (tx_date tx))
                (List.filter is_expense transactions) in
  In m (analyze_spending_by_category today transactions months) ->
  (2 <= length (nodup Z.eq_dec (map (fun tx => to_period (tx_date tx)) df)))%nat /\
  exists category change,
    (m = spending_increased category change \/ m = spending_reduced category change) /\
    exists tx, In tx df /\ row_category_name tx = category.
Proof.
  cbv zeta. unfold analyze_spending_by_category, prepare_transaction_data.
  destruct (List.filter is_expense transactions) as [|e0 es] eqn:Eexp; [intros []|].
  set (df := List.filter _ (e0 :: es)).
  destruct df as [|d0 ds] eqn:Edf; [intros []|]. rewrite <- Edf. clear Edf.
  intros Hin. apply in_flat_map in Hin as (category & Hcat & Hm).
  apply trend_of_category in Hm as [Hlen (change & Hm)].
  split.
  - rewrite length_map in Hlen. unfold Z_keys in Hlen. rewrite length_map in Hlen.
    rewrite (groupby_length Z.eqb Z.ltb Z.eq_dec _ Z.eqb_eq Z.ltb_irrefl
               Z_ltb_trans Z_ltb_total) in Hlen.
    rewrite map_map in Hlen. exact Hlen.
  - exists category, change. split; [exact Hm|].
    apply In_firstn in Hcat.
    assert (Hkey : In category
                     (map fst (groupby_sum String.eqb String.ltb
                                 (map (fun tx => (row_category_name tx, amount tx)) df)))).
    { eapply Permutation_in; [|exact Hcat].
      apply Permutation_map. symmetry. apply sort_desc_perm. }
    destruct (groupby_spec String.eqb String.ltb String.eqb_eq string_ltb_irrefl
                string_ltb_trans string_ltb_total
                (map (fun tx => (row_category_name tx, amount tx)) df))
      as (_ & Hkeys & _).
    apply Hkeys in Hkey. rewrite map_map in Hkey.
    apply in_map_iff in Hkey as (tx & Hname & Htx). exists tx. auto.
Qed.

(** X10: [analyze_spending_by_category] reports at most five trends, and
    each is a rise or a fall of the spending on a category (or on
    ['Uncategorized']) that has an expense among the input within the
    last [30 * months] days. *)
Theorem analyze_spending_trends (today : date) (transactions : list Transaction)
    (months : Z) :
  let trends := analyze_spending_by_category today transactions months in
  (length trends <= 5)%nat /\
  Forall (fun m => exists category change,
            (m = spending_increased category change \/
             m = spending_reduced category change) /\
            exists tx, In tx transactions /\
                       transaction_type tx = "expense"%string /\
                       toordinal today - 30 * months <= toordinal (tx_date tx) /\
                       row_category_name tx = category)
         trends.
Proof.
  cbv zeta. split.
  - unfold analyze_spending_by_category.
    destruct (List.filter is_expense transactions) as [|e0 es]; [cbn; lia|].
    destruct (List.filter _ (prepare_transaction_data (e0 :: es))) as [|d0 ds];
      [cbn; lia|].
    etransitivity; [apply flat_map_length_le|].
    + intros category. apply (trend_of_category category _ (spending_increased category nan)).
    + apply firstn_le_length.
  - apply List.Forall_forall. intros m Hin.
    apply trend_origin in Hin as (_ & category & change & Hm & tx & Htx & Hname).
    exists category, change. split; [exact Hm|]. exists tx.
    apply filter_In in Htx as [Htx Hwin]. apply filter_In in Htx as [Htx Hexp].
    split; [exact Htx|]. split; [apply is_expense_type; exact Hexp|].
    split; [lia|exact Hname].
Qed.

(** X11: a trend compares the last two months with expenses: when the
    expenses of the last [30 * months] days all fall in one calendar
    month, [analyze_spending_by_category] reports nothing. *)
Theorem analyze_spending_single_month (today : date) (transactions : list Transaction)
    (months : Z) :
  (forall tx tx',
     In tx transactions -> In tx' transactions ->
     transaction_type tx = "expense"%string ->
     transaction_type tx' = "expense"%string ->
     toordinal today - 30 * months <= toordinal (tx_date tx) ->
     toordinal today - 30 * months <= toordinal (tx_date tx') ->
     to_period (tx_date tx) = to_period (tx_date tx')) ->
  analyze_spending_by_category today transactions months = [].
Proof.
  intros Hsame.
  destruct (analyze_spending_by_category today transactions months) as [|m rest] eqn:E;
    [reflexivity|].
  exfalso.
  assert (Hin : In m (analyze_spending_by_category today transactions months)).
  { rewrite E. left. reflexivity. }
  apply trend_origin in Hin as (Htwo & _).
  assert (Hone : forall df : list Transaction,
            (forall tx, In tx df ->
               In tx transactions /\ transaction_type tx = "expense"%string /\
               toordinal today - 30 * months <= toordinal (tx_date tx)) ->
            (length (nodup Z.eq_dec (map (fun tx => to_period (tx_date tx)) df)) <= 1)%nat).
  { intros df Hdf. apply nodup_single. intros x y Hx Hy.
    apply in_map_iff in Hx as (tx & <- & Htx). apply in_map_iff in Hy as (tx' & <- & Htx').
    destruct (Hdf tx Htx) as (H1 & H2 & H3). destruct (Hdf tx' Htx') as (H4 & H5 & H6).
    apply Hsame; assumption. }
  specialize (Hone _ (fun tx Htx =>
    match proj1 (filter_In _ _ _) Htx with
    | conj Hexp Hwin =>
        match proj1 (filter_In _ _ _) Hexp with
        | conj Hin Htype =>
            conj Hin (conj (proj1 (is_expense_type tx) Htype)
                           (proj1 (Z.leb_le _ _) Hwin))
        end
    end)).
  lia.
Qed.

End TrendFacts.

Lemma analyze_spending_trends_witness :
  SpendingAnalyzer.analyze_spending_by_category MoreExamples.feb_20
    MoreExamples.rising_food 3
  = [SpendingAnalyzer.spending_increased "Food" (Pandas.finite (200 # 100)%Q)] /\
  (length (SpendingAnalyzer.analyze_spending_by_category MoreExamples.feb_20
             MoreExamples.rising_food 3) <= 5)%nat.
Proof.
  split; [vm_compute; reflexivity|].
  apply (analyze_spending_trends MoreExamples.feb_20 MoreExamples.rising_food 3).
Defined.

Lemma analyze_spending_single_month_witness :
  SpendingAnalyzer.analyze_spending_by_category Examples.jan_10 Examples.groceries 3 = [].
Proof.
  apply (analyze_spending_single_month Examples.jan_10 Examples.groceries 3).
  intros tx tx' Hin Hin' _ _ _ _.
  simpl in Hin, Hin'.
  repeat (destruct Hin as [<-|Hin]; [|]); [..|destruct Hin];
    repeat (destruct Hin' as [<-|Hin']; [|]); try destruct Hin'; reflexivity.
Defined.

Section CashFlowFacts.
Import Models Pandas SpendingAnalyzer.


End CashFlowFacts.


Section ForecastBounds.
Import Models Pandas SpendingAnalyzer.

Lemma fold_Qplus_nonneg (l : list Q) (acc : Q) :
  Forall (fun v => (0 <= v)%Q) l -> (0 <= acc)%Q -> (0 <= fold_left Qplus l acc)%Q.
Proof.
  revert acc. induction l as [|v l IH]; intros acc Hl Hacc; cbn [fold_left]; [exact Hacc|].
  inversion Hl; subst. apply IH; [assumption|lra].
Qed.

Lemma mean_nonneg (l : list Q) :
  Forall (fun v => (0 <= v)%Q) l -> (0 <= mean l)%Q.
Proof.
  intros Hl. unfold mean, Qdiv. apply Qmult_le_0_compat.
  - apply fold_Qplus_nonneg; [exact Hl|lra].
  - apply Qinv_le_0_compat. change 0%Q with (inject_Z 0).
    rewrite <- Zle_Qle. lia.
Qed.

(** The monthly totals of non-negative amounts are non-negative. *)
Lemma monthly_totals_nonneg (rows : list (Z * Q)) :
  Forall (fun row => (0 <= snd row)%Q) rows ->
  Forall (fun v => (0 <= v)%Q) (map snd (groupby_sum Z.eqb Z.ltb rows)).
Proof.
  intros Hrows. apply List.Forall_forall. intros v Hv.
  apply in_map_iff in Hv as ([k v'] & <- & Hin). cbn [snd].
  destruct (groupby_spec Z.eqb Z.ltb Z.eqb_eq Z.ltb_irrefl Z_ltb_trans Z_ltb_total rows)
    as (_ & _ & Hsum).
  rewrite (Hsum k v' Hin). unfold key_sum.
  apply fold_Qplus_nonneg; [|lra].
  apply List.Forall_forall. intros x Hx.
  apply in_map_iff in Hx as (row & <- & Hrow). apply filter_In in Hrow as [Hrow _].
  rewrite List.Forall_forall in Hrows. apply Hrows. exact Hrow.
Qed.

(** X13: when no expense has a negative amount, no month is predicted a
    negative spending. *)
Theorem predict_monthly_spending_nonneg (transactions : list Transaction)
    (months_ahead : nat) :
  Forall (fun tx => (0 <= amount tx)%Q) (List.filter is_expense transactions) ->
  Forall (fun p => (0 <= prediction_amount p)%Q)
         (predict_monthly_spending transactions months_ahead).
Proof.
  intros Hall. unfold predict_monthly_spending, prepare_transaction_data.
  destruct (length (List.filter is_expense transactions) <? 3)%nat; [constructor|].
  set (groups := groupby_sum Z.eqb Z.ltb _).
  destruct (length groups <? 3)%nat; [constructor|].
  assert (Htotals : Forall (fun v => (0 <= v)%Q) (map snd groups)).
  { apply monthly_totals_nonneg. apply List.Forall_forall. intros row Hrow.
    apply in_map_iff in Hrow as (tx & <- & Htx). cbn [snd].
    rewrite List.Forall_forall in Hall. apply Hall. exact Htx. }
  assert (Hrecent : (0 <= mean (tail_n 3 (map snd groups)))%Q).
  { apply mean_nonneg. unfold tail_n. apply Forall_drop. exact Htotals. }
  set (trend := if (6 <=? length groups)%nat then _ else 1%Q).
  assert (Htrend : (0 <= trend)%Q).
  { unfold trend. destruct (6 <=? length groups)%nat; [|lra].
    destruct (Qgtb (mean (firstn 3 (tail_n 6 (map snd groups)))) 0) eqn:Hold; [|lra].
    apply Qltb_lt in Hold. unfold Qdiv. apply Qmult_le_0_compat; [exact Hrecent|].
    apply Qinv_le_0_compat. lra. }
  apply List.Forall_forall. intros p Hp.
  apply in_map_iff in Hp as (i & <- & _). cbn [prediction_amount].
  apply Qmult_le_0_compat; [exact Hrecent|]. apply Qpower_0_le. exact Htrend.
Qed.

End ForecastBounds.

Lemma predict_monthly_spending_nonneg_witness :
  Forall (fun p => (0 <= SpendingAnalyzer.prediction_amount p)%Q)
         (SpendingAnalyzer.predict_monthly_spending Examples.quarter_of_bills 3).
Proof.
  apply (predict_monthly_spending_nonneg Examples.quarter_of_bills 3).
  vm_compute. repeat (constructor; [discriminate|]). constructor.
Defined.

Section ProjectionFacts.
Import Models Pandas BudgetAnalyzer.

(** X14: the projection of a successful [analyze_budget_performance].
    The period has 30 days, of which those since the budget's start
    date, today included and at most 30, have elapsed.  From the first
    day of the budget on, the daily rate is the spending divided by the
    days elapsed and the projected total is the spending so far scaled
    to 30 days; before the start date the rate is 0 and the projected
    total is the spending itself.  The projected remainder is the
    budget amount minus the projected total, and a non-negative spending
    is never projected to shrink. *)
Theorem analyze_budget_projection (today : date) (budget : option Budget)
    (transactions : list Transaction) (m : budget_performance) :
  analyze_budget_performance today budget transactions = performance_success m ->
  exists b,
    budget = Some b /\
    days_in_period m = 30 /\
    days_elapsed m = Z.min 30 (days_between today (start_date b) + 1) /\
    (projected_remaining m == perf_amount m - projected_total m)%Q /\
    (1 <= days_elapsed m ->
       (daily_rate m == spent m / inject_Z (days_elapsed m))%Q /\
       (projected_total m == spent m * 30 / inject_Z (days_elapsed m))%Q) /\
    (days_elapsed m <= 0 ->
       daily_rate m = 0%Q /\ (projected_total m == spent m)%Q) /\
    ((0 <= spent m)%Q -> (spent m <= projected_total m)%Q).
Proof.
  unfold analyze_budget_performance.
  destruct budget as [b|]; [|destruct transactions; discriminate].
  destruct transactions as [|tx0 txs]; [discriminate|].
  destruct (List.filter (in_budget_category b) (tx0 :: txs)) as [|c0 cs]; [discriminate|].
  set (total_spent := sum_amounts (c0 :: cs)).
  set (elapsed := Z.min 30 (days_between today (start_date b) + 1)).
  destruct (if Qgtb _ 100 then _ else _) as [st msg].
  intros H. inversion H; subst m; clear H.
  cbn [days_in_period days_elapsed projected_remaining perf_amount projected_total
       daily_rate spent].
  exists b. split; [reflexivity|]. split; [reflexivity|]. split; [reflexivity|].
  split; [reflexivity|].
  assert (Hle : elapsed <= 30) by (unfold elapsed; lia).
  destruct (0 <? elapsed) eqn:Hpos.
  - apply Z.ltb_lt in Hpos.
    assert (Hq : (0 < inject_Z elapsed)%Q).
    { change 0%Q with (inject_Z 0). rewrite <- Zlt_Qlt. exact Hpos. }
    assert (Hrest : (0 <= inject_Z (30 - elapsed))%Q).
    { change 0%Q with (inject_Z 0). rewrite <- Zle_Qle. lia. }
    split; [|split].
    + intros _. split; [reflexivity|].
      unfold Z.sub. rewrite inject_Z_plus, inject_Z_opp.
      change (inject_Z 30) with 30%Q. field. lra.
    + intros Hneg. lia.
    + intros Hspent.
      assert (Hrate : (0 <= total_spent / inject_Z elapsed)%Q).
      { unfold Qdiv. apply Qmult_le_0_compat; [exact Hspent|].
        apply Qinv_le_0_compat. lra. }
      pose proof (Qmult_le_0_compat _ _ Hrate Hrest). lra.
  - apply Z.ltb_ge in Hpos. split; [|split].
    + intros Hone. lia.
    + intros _. split; [reflexivity|]. ring.
    + intros _. ring_simplify. lra.
Qed.

(** X15: [analyze_budget_performance] fails with 'No budget or
    transactions provided' exactly when it is given no budget or no
    transaction, with 'No transactions found for this budget category'
    exactly when it is given both but none of the transactions is an
    expense of the budget's category, and succeeds in every other
    case. *)
Theorem analyze_budget_failures (today : date) (budget : option Budget)
    (transactions : list Transaction) :
  let outcome := analyze_budget_performance today budget transactions in
  (outcome = performance_failure "No budget or transactions provided" <->
     budget = None \/ transactions = []) /\
  (outcome = performance_failure "No transactions found for this budget category" <->
     exists b, budget = Some b /\ transactions <> [] /\
               Forall (fun tx => in_budget_category b tx = false) transactions) /\
  ((exists m, outcome = performance_success m) <->
     exists b tx, budget = Some b /\ In tx transactions /\
                  in_budget_category b tx = true).
Proof.
  cbv zeta. unfold analyze_budget_performance.
  destruct budget as [b|].
  2:{ split; [split; [auto|destruct transactions; reflexivity]|].
      split; split.
      - destruct transactions; discriminate.
      - intros (b & H & _). discriminate H.
      - intros (m & H). destruct transactions; discriminate H.
      - intros (b & tx & H & _). discriminate H. }
  destruct transactions as [|tx0 txs].
  { split; [split; [auto|reflexivity]|].
    split; (split; [intros H; try discriminate H; destruct H; discriminate|]).
    - intros (b' & _ & Hne & _). contradiction.
    - intros (b' & tx & _ & [] & _). }
  destruct (List.filter (in_budget_category b) (tx0 :: txs)) as [|c0 cs] eqn:Hf.
  - assert (Hnone : Forall (fun tx => in_budget_category b tx = false) (tx0 :: txs)).
    { apply List.Forall_forall. intros tx Hin.
      destruct (in_budget_category b tx) eqn:E; [|reflexivity].
      assert (Hc : In tx (List.filter (in_budget_category b) (tx0 :: txs))).
      { apply filter_In. split; assumption. }
      rewrite Hf in Hc. destruct Hc. }
    split; [split; [discriminate|intros [H|H]; discriminate]|].
    split.
    + split; [|reflexivity]. intros _. exists b. split; [reflexivity|].
      split; [discriminate|exact Hnone].
    + split; [intros (m & H); discriminate|].
      intros (b' & tx & Hb & Hin & Htrue). inversion Hb; subst b'.
      rewrite List.Forall_forall in Hnone. rewrite (Hnone tx Hin) in Htrue. discriminate.
  - assert (Hsome : In c0 (tx0 :: txs) /\ in_budget_category b c0 = true).
    { apply filter_In. rewrite Hf. left. reflexivity. }
    destruct (if Qgtb _ 100 then _ else _) as [st msg].
    split; [split; [discriminate|intros [H|H]; discriminate]|].
    split.
    + split; [discriminate|].
      intros (b' & Hb & _ & Hnone). inversion Hb; subst b'.
      rewrite List.Forall_forall in Hnone. destruct Hsome as [Hin Htrue].
      rewrite (Hnone c0 Hin) in Htrue. discriminate.
    + split; [|intros _; eexists; reflexivity].
      intros _. exists b, c0. split; [reflexivity|exact Hsome].
Qed.

End ProjectionFacts.

Lemma analyze_budget_projection_witness :
  exists m,
    BudgetAnalyzer.analyze_budget_performance Examples.jan_10
      (Some Examples.food_budget) Examples.groceries
    = BudgetAnalyzer.performance_success m /\
    BudgetAnalyzer.days_elapsed m = 10 /\
    (BudgetAnalyzer.projected_total m
     == BudgetAnalyzer.spent m * 30 / inject_Z (BudgetAnalyzer.days_elapsed m))%Q.
Proof.
  eexists. split; [vm_compute; reflexivity|].
  match goal with
  | |- BudgetAnalyzer.days_elapsed ?m = _ /\ _ =>
      destruct (analyze_budget_projection Examples.jan_10 (Some Examples.food_budget)
                  Examples.groceries m ltac:(vm_compute; reflexivity))
        as (b & _ & _ & _ & _ & Hrate & _)
  end.
  split; [reflexivity|]. apply Hrate. vm_compute. discriminate.
Defined.

Lemma analyze_budget_failures_witness :
  BudgetAnalyzer.analyze_budget_performance Examples.jan_10
    (Some Examples.food_budget) Examples.quarter_of_bills
  = BudgetAnalyzer.performance_failure "No transactions found for this budget category".
Proof.
  apply (analyze_budget_failures Examples.jan_10 (Some Examples.food_budget)
           Examples.quarter_of_bills).
  exists Examples.food_budget. split; [reflexivity|]. split; [discriminate|].
  vm_compute. repeat (constructor; [reflexivity|]). constructor.
Defined.

Section AnomalyTypeFacts.
Import Models Pandas SpendingAnalyzer Views.





End AnomalyTypeFacts.

Section AnomalyPageFacts.
Import Models Pandas SpendingAnalyzer Views.
Variable fit_predict : Q -> list (Q * option nat) -> result (list Z).



(** The anomalies built are transactions of the user, each with the
    status ['new'] or ['reviewed']. *)
Lemma build_anomalies_status (u : Z) (d : database) (period : list Transaction)
    (existing : list SpendingAnomaly) :
  let fine a :=
    (anomaly_status a = "new"%string \/ anomaly_status a = "reviewed"%string) /\
    In (anomaly_tx a) (transactions d) /\ user (anomaly_tx a) = u in
  forall (anomaly_results : list anomaly_info) (acc built : list Anomaly),
    Forall fine acc ->
    build_anomalies u d period existing anomaly_results acc = Returned built ->
    Forall fine built.
Proof.
  intros fine.
  induction anomaly_results as [|info rest IH]; intros acc built Hacc;
    cbn [build_anomalies].
  - intros H. inversion H; subst. exact Hacc.
  - destruct (get_transaction (info_id info) u d) as [tx|] eqn:Hget;
      [|apply IH; exact Hacc].
    apply get_transaction_Some in Hget as (Hin & _ & Hu).
    destruct (determine_anomaly_type tx period) as [[ty why]|e] eqn:Htype.
    + destruct (find _ existing) as [ex|]; apply IH;
        (apply Forall_app; split; [exact Hacc|]);
        (constructor; [|constructor]); unfold fine; cbn [anomaly_status anomaly_tx].
      * split; [destruct (is_verified ex); auto|auto].
      * split; [auto|auto].
    + destruct (find _ existing) as [ex|]; discriminate.
Qed.


(** X18: every anomaly on the [anomaly_detection] page is a stored
    transaction of the user with the status ['new'] or ['reviewed'], and
    has the requested status unless that is ['all']; so a filter on any
    other status shows nothing.  The items shown are at most 10, taken
    from the filtered list. *)
Theorem anomaly_detection_statuses (today : date) (u : Z) (status : string)
    (timeframe : timeframe_param) (page : Z) (w : world)
    (anomalies_list page_items : list Anomaly) :
  fst (anomaly_detection fit_predict today u status timeframe page w)
    = rendered anomalies_list page_items ->
  Forall (fun a =>
            (anomaly_status a = "new"%string \/ anomaly_status a = "reviewed"%string) /\
            (status = "all"%string \/ anomaly_status a = status) /\
            In (anomaly_tx a) (transactions (db w)) /\ user (anomaly_tx a) = u)
         anomalies_list /\
  (status <> "all"%string -> status <> "new"%string -> status <> "reviewed"%string ->
     anomalies_list = []) /\
  (length page_items <= 10)%nat /\
  (forall a, In a page_items -> In a anomalies_list).
Proof.
  unfold anomaly_detection.
  destruct (get_or_create_profile_records u (db w)) as ((Htx & _) & _).
  destruct (get_or_create_profile u (db w)) as [profile d]. cbn [snd] in Htx.
  set (period := period_transactions today u timeframe (db w)).
  set (built := if negb (enable_ai_insights profile) then _ else _).
  assert (Hbuilt : forall l d', built = (Returned l, d') ->
            Forall (fun a =>
                      (anomaly_status a = "new"%string \/
                       anomaly_status a = "reviewed"%string) /\
                      In (anomaly_tx a) (transactions d) /\ user (anomaly_tx a) = u) l).
  { unfold built. intros l d'.
    destruct (negb (enable_ai_insights profile)).
    - intros H. inversion H; subst. constructor.
    - cbn [SpendingAnalyzer.__init__].
      destruct (build_anomalies u d period _ _ []) as [l'|e] eqn:Hb; [|discriminate].
      intros H. inversion H; subst.
      eapply (build_anomalies_status u d period); [|exact Hb]. constructor. }
  destruct built as [[l|e] d']; [|discriminate].
  specialize (Hbuilt l d' eq_refl). rewrite Htx in Hbuilt.
  cbn [fst]. intros H. inversion H; subst; clear H.
  set (shown := if String.eqb status "all" then l else _).
  assert (Hshown : Forall (fun a =>
            (anomaly_status a = "new"%string \/ anomaly_status a = "reviewed"%string) /\
            (status = "all"%string \/ anomaly_status a = status) /\
            In (anomaly_tx a) (transactions (db w)) /\ user (anomaly_tx a) = u) shown).
  { unfold shown. destruct (String.eqb status "all") eqn:Hall.
    - apply String.eqb_eq in Hall. eapply List.Forall_impl; [|exact Hbuilt].
      intros a (H1 & H2). auto.
    - apply List.Forall_forall. intros a Ha. apply filter_In in Ha as [Ha Hs].
      apply String.eqb_eq in Hs. rewrite List.Forall_forall in Hbuilt.
      destruct (Hbuilt a Ha) as (H1 & H2). auto. }
  split; [exact Hshown|]. split; [|split].
  - intros H1 H2 H3. destruct shown as [|a rest]; [reflexivity|].
    apply List.Forall_inv in Hshown. destruct Hshown as (Hs & [Ha|Ha] & _);
      [contradiction|].
    destruct Hs as [Hs|Hs]; rewrite Hs in Ha; exfalso; auto.
  - unfold get_page. apply firstn_le_length.
  - intros a. unfold get_page. apply In_page.
Qed.

End AnomalyPageFacts.



Lemma anomaly_detection_statuses_witness :
  fst (Views.anomaly_detection Examples.flag_all Examples.may_31 1 "ignored"
         Views.timeframe_all 1 Examples.bills_world)
  = Views.rendered [] [] /\
  (length (@nil Views.Anomaly) <= 10)%nat.
Proof.
  assert (H : fst (Views.anomaly_detection Examples.flag_all Examples.may_31 1 "ignored"
                     Views.timeframe_all 1 Examples.bills_world)
              = Views.rendered [] []).
  { vm_compute. reflexivity. }
  split; [exact H|].
  destruct (anomaly_detection_statuses Examples.flag_all Examples.may_31 1 "ignored"
              Views.timeframe_all 1 Examples.bills_world [] [] H) as (_ & _ & Hlen & _).
  exact Hlen.
Defined.

Section PaginationFacts.
Import Models Pandas SpendingAnalyzer Views.

(** The entries [describe_sample] builds are numbered from [i + 1] on,
    each with one of the five reasons and a confidence from 65 to 95. *)
Lemma describe_sample_numbered (sampled : list Transaction) :
  forall (i : Z) (t : Random.tape) (k : nat) (a : anomaly_json),
    nth_error (fst (describe_sample i sampled t)) k = Some a ->
    json_id a = i + Z.of_nat k + 1 /\
    65 <= json_confidence a <= 95 /\
    In (json_reason a) reasons.
Proof.
  induction sampled as [|tx rest IH]; intros i t k a; cbn [describe_sample].
  { destruct k; discriminate. }
  unfold Random.choice, Random.randint.
  pose proof (randbelow_lt (length reasons) t ltac:(cbn; lia)) as Hwhy.
  destruct (Random.randbelow (length reasons) t) as [j t1]. cbn [fst] in Hwhy.
  pose proof (randbelow_lt (Z.to_nat (95 - 65 + 1)) t1 ltac:(cbn; lia)) as Hconf.
  destruct (Random.randbelow (Z.to_nat (95 - 65 + 1)) t1) as [c t2]. cbn [fst] in Hconf.
  specialize (IH (i + 1) t2).
  destruct (describe_sample (i + 1) rest t2) as [others t3]. cbn [fst] in *.
  destruct k as [|k]; cbn [nth_error].
  - intros H. injection H as <-. cbn [json_id json_confidence json_reason].
    split; [lia|]. split; [|exact (nth_In reasons ""%string Hwhy)].
    change (Z.to_nat (95 - 65 + 1)) with 31%nat in Hconf. lia.
  - intros H. destruct (IH k a H) as (Hid & Hrest). split; [lia|exact Hrest].
Qed.

(** X19: the numbers on a page of [get_anomalies].  Between 1 and 20
    anomalies are reported in all, on one or two pages of ten; the page
    returned is the requested one brought into the range of the pages,
    and it is not empty; its entries carry the numbers of their
    positions in the whole list, counted from 1, one of the five canned
    reasons, and a confidence between 65 and 95. *)
Theorem get_anomalies_page (t : Random.tape) (today : date) (u : Z)
    (timeframe : string) (page : Z) (w : world)
    (paged : list anomaly_json) (total : nat) (pages current : Z) :
  fst (fst (get_anomalies t today u timeframe page w))
    = anomalies_found paged total pages current ->
  (1 <= total <= 20)%nat /\
  pages = (Z.of_nat total + 9) / 10 /\
  current = Z.max 1 (Z.min page pages) /\
  1 <= current <= pages /\
  (1 <= length paged <= 10)%nat /\
  forall k a,
    nth_error paged k = Some a ->
    json_id a = (current - 1) * 10 + Z.of_nat k + 1 /\
    65 <= json_confidence a <= 95 /\
    In (json_reason a) reasons.
Proof.
  unfold get_anomalies.
  destruct (get_or_create_profile u (db w)) as [profile d].
  destruct (negb (enable_ai_insights profile)); [discriminate|].
  set (stored := stored_transactions today u timeframe d).
  destruct (length stored <? 5)%nat eqn:Hfew; [discriminate|].
  apply Nat.ltb_ge in Hfew.
  set (count := Nat.min (length stored / 5) 20).
  assert (Hdiv : (1 <= length stored / 5 <= length stored)%nat).
  { split.
    - apply Nat.div_le_lower_bound; lia.
    - apply Nat.Div0.div_le_upper_bound. lia. }
  assert (Hcount : (1 <= count <= 20)%nat /\ (count <= length stored)%nat)
    by (unfold count; lia).
  pose proof (sample_length count stored t (proj2 Hcount)) as Hlen.
  destruct (Random.sample stored count t) as [sampled t1]. cbn [fst] in Hlen.
  destruct (describe_sample_sources sampled 0 t1) as (Hdl & _).
  pose proof (describe_sample_numbered sampled 0 t1) as Hnum.
  destruct (describe_sample 0 sampled t1) as [anomalies t2]. cbn [fst] in Hdl, Hnum.
  cbn [fst]. intros H. inversion H; subst; clear H.
  assert (Htotal : length anomalies = count) by congruence.
  set (pages := (Z.of_nat (length anomalies) + 10 - 1) / 10).
  assert (Hpages : pages = (Z.of_nat (length anomalies) + 9) / 10).
  { unfold pages. f_equal. lia. }
  assert (Hbound : 1 <= pages /\ (pages - 1) * 10 < Z.of_nat (length anomalies)).
  { rewrite Hpages.
    pose proof (Z.div_mod (Z.of_nat (length anomalies) + 9) 10 ltac:(lia)).
    pose proof (Z.mod_pos_bound (Z.of_nat (length anomalies) + 9) 10 ltac:(lia)).
    lia. }
  set (current := Z.max 1 (Z.min page pages)).
  assert (Hcurrent : 1 <= current <= pages) by (unfold current; lia).
  split; [lia|]. split; [exact Hpages|]. split; [reflexivity|].
  split; [exact Hcurrent|].
  assert (Hstart : Z.to_nat ((current - 1) * 10) = (Z.to_nat (current - 1) * 10)%nat)
    by lia.
  split.
  - rewrite length_firstn, length_skipn. change (Z.to_nat 10) with 10%nat. lia.
  - intros k a Hk. rewrite nth_error_firstn in Hk.
    destruct (k <? Z.to_nat 10)%nat; [|discriminate].
    rewrite nth_error_skipn in Hk.
    destruct (Hnum _ _ Hk) as (Hid & Hrest). split; [lia|exact Hrest].
Qed.

End PaginationFacts.

Lemma get_anomalies_page_witness :
  exists paged,
    fst (fst (Views.get_anomalies [2; 0; 0]%nat Examples.may_31 1 "all" 7
                Examples.purchases_world))
    = Views.anomalies_found paged 1 1 1 /\
    (1 <= length paged <= 10)%nat.
Proof.
  eexists. split; [vm_compute; reflexivity|].
  match goal with
  | |- (1 <= length ?paged <= 10)%nat =>
      destruct (get_anomalies_page [2; 0; 0]%nat Examples.may_31 1 "all"%string 7
                  Examples.purchases_world paged 1 1 1 ltac:(vm_compute; reflexivity))
        as (_ & _ & _ & _ & Hlen & _)
  end.
  exact Hlen.
Defined.

Section EndpointFacts.
Import Models Pandas SpendingAnalyzer BudgetAnalyzer Views Endpoints.

(** The only error of [generate_insights] is that of its division by
    the total income. *)
Lemma generate_insights_error (today : date) (transactions : list Transaction)
    (e : string) :
  generate_insights today transactions = Raised e -> e = "ZeroDivisionError"%string.
Proof.
  unfold generate_insights, py_div.
  repeat match goal with
         | |- context [if ?b then _ else _] => destruct b
         end; intros H; try discriminate H; injection H as <-; reflexivity.
Qed.

(** X20: the [get_spending_insights] endpoint.  With fewer than 5
    transactions of the user in the time frame it answers with no
    insight.  It fails, with the [ZeroDivisionError] of
    [generate_insights], exactly when there are at least 5 such
    transactions, their incomes add up to zero and their expenses to a
    negative amount; so it answers whenever none of these transactions
    has a negative amount. *)
Theorem get_spending_insights_outcome (now today : date) (u : Z) (timeframe : string)
    (d : database) :
  let transactions := insight_transactions now u timeframe d in
  let total_income := sum_amounts (List.filter is_income transactions) in
  let total_expenses := sum_amounts (List.filter is_expense transactions) in
  ((length transactions < 5)%nat ->
     get_spending_insights now today u timeframe d = Returned []) /\
  ((exists e, get_spending_insights now today u timeframe d = Raised e) <->
     (5 <= length transactions)%nat /\
     (total_income == 0)%Q /\ (total_expenses < 0)%Q) /\
  (forall e, get_spending_insights now today u timeframe d = Raised e ->
     e = "ZeroDivisionError"%string) /\
  (Forall (fun tx => (0 <= amount tx)%Q) transactions ->
     exists insights, get_spending_insights now today u timeframe d = Returned insights).
Proof.
  intros transactions total_income total_expenses.
  unfold get_spending_insights. fold transactions.
  pose proof (generate_insights_raises_iff today transactions) as Hraise.
  cbv zeta in Hraise. fold total_income total_expenses in Hraise.
  pose proof (generate_insights_error today transactions) as Herror.
  unfold generate_spending_insights.
  destruct (length transactions <? 5)%nat eqn:Hfew.
  - apply Nat.ltb_lt in Hfew. split; [reflexivity|]. split; [|split].
    + split; [intros (e & He); discriminate|intros (Hlen & _); lia].
    + intros e He. discriminate.
    + intros _. eexists. reflexivity.
  - apply Nat.ltb_ge in Hfew. split; [intros Hlt; lia|]. split; [|split].
    + rewrite Hraise. tauto.
    + exact Herror.
    + intros Hall.
      destruct (generate_insights today transactions) as [insights|e] eqn:E;
        [eexists; reflexivity|].
      exfalso.
      assert (Hbad : (total_income == 0)%Q /\ (total_expenses < 0)%Q).
      { apply Hraise. eexists. reflexivity. }
      pose proof (sum_amounts_nonneg _ (Forall_filter_amounts is_expense _ Hall)) as Hexp.
      fold total_expenses in Hexp. lra.
Qed.

Lemma budget_amounts_lookup (current_budgets : list Budget) (c : string) (a : Q) :
  budget_amounts current_budgets !! c = Some a ->
  exists b, In b current_budgets /\
            category_name (budget_category b) = c /\ budget_amount b = a.
Proof.
  unfold budget_amounts.
  induction current_budgets as [|b rest IH] using rev_ind.
  - cbn. rewrite lookup_empty. discriminate.
  - rewrite fold_left_app. cbn [fold_left]. intros H.
    apply lookup_insert_Some in H as [[Hc Ha]|[_ H]].
    + exists b. split; [apply in_or_app; right; left; reflexivity|auto].
    + destruct (IH H) as (b' & Hin & Hb'). exists b'.
      split; [apply in_or_app; left; exact Hin|exact Hb'].
Qed.

(** Where a recommendation comes from: a category of the categorized
    expenses, and the current budget amount of that category. *)
Lemma recommendation_origin (transactions : list Transaction)
    (current_budgets : list Budget) (r : recommendation) :
  In r (recommendations (generate_budget_recommendations transactions current_budgets)) ->
  In (rec_category r) (spending_categories transactions) /\
  current_amount r = current_budget current_budgets (rec_category r).
Proof.
  destruct (le_lt_dec 5 (length (List.filter is_categorized_expense transactions)))
    as [Hmany|Hfew].
  - rewrite (generate_enough _ _ Hmany). cbn [recommendations].
    intros Hr. apply sort_desc_In in Hr. unfold unsorted_recommendations in Hr.
    apply In_omap in Hr as ([c avg] & Hkv & Hrec). cbn [fst snd] in Hrec.
    apply in_map_iff in Hkv as ([c0 total] & Heq & Hin). cbn [fst snd] in Heq.
    injection Heq as -> <-.
    destruct (category_entry _ _ _ Hin) as (Hcat & _).
    apply recommend_Some in Hrec as (Hc & _ & _ & Hcur & _).
    rewrite Hc. split; [exact Hcat|exact Hcur].
  - unfold generate_budget_recommendations.
    destruct transactions as [|tx0 txs]; [intros []|].
    apply Nat.ltb_lt in Hfew. rewrite Hfew. intros [].
Qed.

(** X21: [get_budget_recommendations] draws on the rows of the
    requesting user only, and writes none of the transaction, category
    and budget tables.  With AI insights disabled it recommends nothing.
    Otherwise every recommendation is for a category in which the user
    has an expense, and a positive current amount in it is the amount of
    a budget of the user for that category. *)
Theorem get_budget_recommendations_own_rows (u : Z) (w : world) :
  let outcome := get_budget_recommendations u w in
  same_records (db w) (db (snd outcome)) /\
  (enable_ai_insights (fst (get_or_create_profile u (db w))) = false ->
     exists message, fst outcome = insights_disabled message) /\
  (forall answer r,
     fst outcome = recommendations_of answer ->
     In r (recommendations answer) ->
     (exists tx c,
        In tx (transactions (db w)) /\ user tx = u /\
        transaction_type tx = "expense"%string /\
        category tx = Some c /\ category_name c = rec_category r) /\
     ((0 < current_amount r)%Q ->
        exists b,
          In b (budgets (db w)) /\ budget_user b = u /\
          category_name (budget_category b) = rec_category r /\
          budget_amount b = current_amount r)).
Proof.
  cbv zeta. unfold get_budget_recommendations.
  destruct (get_or_create_profile_records u (db w)) as (Hsame & _).
  pose proof Hsame as (Htx & _ & Hbud).
  destruct (get_or_create_profile u (db w)) as [profile d]. cbn [fst snd] in *.
  destruct (enable_ai_insights profile); cbn [negb].
  - split; [exact Hsame|]. split; [discriminate|].
    intros answer r H Hr. cbn [fst] in H. injection H as <-.
    apply recommendation_origin in Hr as (Hcat & Hcur). split.
    + unfold spending_categories in Hcat.
      apply in_map_iff in Hcat as (tx & Hname & Hin).
      apply filter_In in Hin as [Hin Hce]. apply filter_In in Hin as [Hin Hu].
      unfold is_categorized_expense in Hce. apply andb_true_iff in Hce as [Hexp Hc].
      unfold name_of in Hname.
      destruct (category tx) as [c|] eqn:Ec; [|discriminate].
      exists tx, c. rewrite <- Htx.
      split; [exact Hin|]. split; [apply Z.eqb_eq; exact Hu|].
      split; [apply is_expense_type; exact Hexp|]. split; [exact Ec|exact Hname].
    + intros Hpos. rewrite Hcur in Hpos. unfold current_budget in Hcur, Hpos.
      destruct (budget_amounts _ !! rec_category r) as [a|] eqn:Ea;
        [|cbn in Hpos; lra].
      apply budget_amounts_lookup in Ea as (b & Hin & Hname & Ha).
      apply filter_In in Hin as [Hin Hu].
      exists b. rewrite <- Hbud. split; [exact Hin|].
      split; [apply Z.eqb_eq; exact Hu|]. split; [exact Hname|].
      rewrite Hcur. exact Ha.
  - split; [exact Hsame|]. split; [intros _; eexists; reflexivity|].
    intros answer r H. discriminate H.
Qed.

Lemma filter_filter {A : Type} (f g : A -> bool) (l : list A) :
  List.filter f (List.filter g l) = List.filter (fun x => g x && f x) l.
Proof.
  induction l as [|x l IH]; [reflexivity|]. cbn [List.filter].
  destruct (g x); cbn [List.filter andb]; [destruct (f x)|]; rewrite IH; reflexivity.
Qed.

Lemma analyze_budget_spent (today : date) (b : Budget)
    (transactions : list Transaction) (m : budget_performance) :
  BudgetAnalyzer.analyze_budget_performance today (Some b) transactions
    = performance_success m ->
  perf_budget_id m = budget_id b /\
  spent m = sum_amounts (List.filter (in_budget_category b) transactions).
Proof.
  unfold BudgetAnalyzer.analyze_budget_performance.
  destruct transactions as [|tx0 txs]; [discriminate|].
  destruct (List.filter (in_budget_category b) (tx0 :: txs)) as [|c0 cs]; [discriminate|].
  destruct (if Qgtb _ 100 then _ else _) as [st msg].
  intros H. injection H as <-. split; reflexivity.
Qed.

(** X22: the [analyze_budget_performance] endpoint answers 'Budget not
    found' exactly when the user has no budget with the given id, so
    that a budget of another user is never analysed; and what a
    successful analysis reports as spent is the sum of the user's
    expenses in the budget's category that are dated from the budget's
    start date to its end date, or to today when it has none. *)
Theorem budget_endpoint_spent (end_date : Budget -> option date)
    (today : date) (u pk : Z) (d : database) :
  let outcome := Endpoints.analyze_budget_performance end_date today u pk d in
  (outcome = budget_not_found <->
     forall b, In b (budgets d) -> budget_id b = pk -> budget_user b <> u) /\
  (forall m,
     outcome = performance_of (performance_success m) ->
     exists b,
       In b (budgets d) /\ budget_id b = pk /\ budget_user b = u /\
       perf_budget_id m = pk /\
       spent m =
         sum_amounts
           (List.filter
              (fun tx =>
                 (user tx =? u) && of_budget_category b tx
                 && (toordinal (start_date b) <=? toordinal (tx_date tx))
                 && (toordinal (tx_date tx)
                     <=? toordinal (match end_date b with
                                    | Some e => e
                                    | None => today
                                    end))
                 && is_expense tx)
              (transactions d))).
Proof.
  cbv zeta. unfold Endpoints.analyze_budget_performance.
  destruct (find _ (budgets d)) as [b|] eqn:Hfind.
  - pose proof (find_some _ _ Hfind) as [Hin Hb].
    apply andb_true_iff in Hb as [Hpk Hu].
    apply Z.eqb_eq in Hpk. apply Z.eqb_eq in Hu.
    split.
    + split; [discriminate|]. intros Hnone. destruct (Hnone b Hin Hpk Hu).
    + intros m H. injection H as H.
      apply analyze_budget_spent in H as (Hid & Hspent).
      exists b. split; [exact Hin|]. split; [exact Hpk|]. split; [exact Hu|].
      split; [congruence|]. rewrite Hspent. unfold budget_transactions.
      rewrite filter_filter. f_equal. apply List.filter_ext. intros tx.
      unfold in_budget_category, of_budget_category.
      destruct (category tx) as [c|]; [|rewrite !andb_false_r; reflexivity].
      destruct (category_id c =? category_id (budget_category b));
        [|rewrite !andb_false_r; reflexivity].
      reflexivity.
  - split; [|discriminate]. split; [|reflexivity]. intros _ b Hin Hpk Hu.
    pose proof (find_none _ _ Hfind b Hin) as Hb. cbn beta in Hb.
    apply andb_false_iff in Hb as [Hb|Hb]; apply Z.eqb_neq in Hb; contradiction.
Qed.

End EndpointFacts.

Section ReviewFacts.
Import Models Views Review.

Lemma pk_le_max (rows : list AnomalyRow) (a : AnomalyRow) :
  In a rows -> row_pk a <= fold_right Z.max 0 (map row_pk rows).
Proof.
  induction rows as [|r rows IH]; [intros []|].
  cbn [map fold_right]. intros [->|Hin]; [lia|]. specialize (IH Hin). lia.
Qed.

Lemma NoDup_pk_eq (rows : list AnomalyRow) (a b : AnomalyRow) :
  List.NoDup (map row_pk rows) -> In a rows -> In b rows ->
  row_pk a = row_pk b -> a = b.
Proof.
  induction rows as [|r rows IH]; intros Hnd Ha Hb Hpk; [destruct Ha|].
  cbn [map] in Hnd. apply List.NoDup_cons_iff in Hnd as [Hfresh Hnd].
  destruct Ha as [->|Ha], Hb as [->|Hb]; auto.
  - exfalso. apply Hfresh. rewrite Hpk. apply in_map. exact Hb.
  - exfalso. apply Hfresh. rewrite <- Hpk. apply in_map. exact Ha.
Qed.

(** Saving a stored row with distinct keys verifies that row and
    leaves the others as they are. *)
Lemma save_verified_rows (a : AnomalyRow) (t : tables) :
  List.NoDup (map row_pk (anomaly_rows t)) -> In a (anomaly_rows t) ->
  anomaly_rows (save_verified a t)
  = map (fun row => if row_pk row =? row_pk a then verify row else row)
        (anomaly_rows t).
Proof.
  intros Hnd Hin. unfold save_verified. cbn [anomaly_rows].
  apply map_ext_in. intros row Hrow.
  destruct (row_pk row =? row_pk a) eqn:E; [|reflexivity].
  apply Z.eqb_eq in E. rewrite (NoDup_pk_eq _ _ _ Hnd Hrow Hin E). reflexivity.
Qed.

Lemma get_anomaly_Some (n u : Z) (t : tables) (a : AnomalyRow) :
  get_anomaly n u t = Some a ->
  In a (anomaly_rows t) /\ row_pk a = n /\ row_user a = u.
Proof.
  unfold get_anomaly. intros H. apply find_some in H as [Hin Hb].
  apply andb_true_iff in Hb as [H1 H2]. split; [exact Hin|]. split; lia.
Qed.

(** X23: what [mark_anomaly_reviewed] does for a numeric id [n],
    anomaly keys being distinct.  The transactions stay as they are.
    If the user has an anomaly with key [n], that row becomes verified
    and no other row changes.  If not, but the user has a transaction
    with id [n], a new verified row for that transaction is added, with
    the score 0.8 and the text 'Manually reviewed anomaly', whether or
    not the transaction had anomaly rows before; the rows that were
    there do not change.  Otherwise the answer is 'Transaction not
    found' and nothing changes. *)
Theorem mark_anomaly_reviewed_effect (u n : Z) (t : tables) :
  List.NoDup (map row_pk (anomaly_rows t)) ->
  let outcome := mark_anomaly_reviewed u (id_number n) t in
  stored (snd outcome) = stored t /\
  (forall a,
     get_anomaly n u t = Some a ->
     fst outcome = marked_reviewed /\
     anomaly_rows (snd outcome)
     = map (fun row => if (row_pk row =? n) && (row_user row =? u)
                       then verify row else row)
           (anomaly_rows t)) /\
  (forall transaction,
     get_anomaly n u t = None ->
     get_own_transaction n u t = Some transaction ->
     fst outcome = marked_reviewed /\
     anomaly_rows (snd outcome)
     = anomaly_rows t ++
       [{| row_pk := next_pk t; row_user := u; row_transaction_id := n;
           row_score := 8 # 10; row_description := manually_reviewed;
           row_is_verified := true |}]) /\
  (get_anomaly n u t = None -> get_own_transaction n u t = None ->
     outcome = (review_error "Transaction not found", t)).
Proof.
  intros Hnd. cbv zeta. unfold mark_anomaly_reviewed.
  destruct (get_anomaly n u t) as [a|] eqn:Ha.
  - apply get_anomaly_Some in Ha as (Hin & Hpk & Hu).
    split; [reflexivity|]. split; [|split; discriminate].
    intros a' E. injection E as <-. split; [reflexivity|]. cbn [snd].
    rewrite (save_verified_rows a t Hnd Hin). apply map_ext_in. intros row Hrow.
    rewrite Hpk. destruct (row_pk row =? n) eqn:E; [|reflexivity].
    apply Z.eqb_eq in E.
    assert (row = a) by (apply (NoDup_pk_eq _ _ _ Hnd Hrow Hin); congruence).
    subst row. rewrite Hu, Z.eqb_refl. reflexivity.
  - destruct (get_own_transaction n u t) as [transaction|] eqn:Htx.
    + assert (Hid : id transaction = n).
      { unfold get_own_transaction in Htx. apply find_some in Htx as [_ Hb].
        apply andb_true_iff in Hb as [H1 _]. lia. }
      unfold create_row. cbn [fst snd save_verified stored anomaly_rows].
      split; [reflexivity|]. split; [discriminate|]. split; [|discriminate].
      intros transaction' _ _. split; [reflexivity|].
      rewrite map_app. cbn [map row_pk]. rewrite Z.eqb_refl. f_equal.
      * rewrite <- (map_id (anomaly_rows t)) at 2. apply map_ext_in. intros row Hrow.
        pose proof (pk_le_max _ _ Hrow) as Hle.
        destruct (row_pk row =? _) eqn:E; [apply Z.eqb_eq in E; lia|reflexivity].
      * unfold verify, next_pk. cbn. rewrite Hid. reflexivity.
    + split; [reflexivity|]. split; [discriminate|]. split; [discriminate|].
      intros _ _. reflexivity.
Qed.

Lemma mark_by_transaction (u n : Z) (t : tables) (transaction : Transaction) :
  get_anomaly n u t = None ->
  get_own_transaction n u t = Some transaction ->
  mark_anomaly_reviewed u (id_number n) t
  = (marked_reviewed,
     {| stored := stored t;
        anomaly_rows :=
          anomaly_rows t ++
          [{| row_pk := next_pk t; row_user := u; row_transaction_id := n;
              row_score := 8 # 10; row_description := manually_reviewed;
              row_is_verified := true |}] |}).
Proof.
  intros Ha Htx. unfold mark_anomaly_reviewed. rewrite Ha, Htx.
  assert (Hid : id transaction = n).
  { unfold get_own_transaction in Htx. apply find_some in Htx as [_ Hb].
    apply andb_true_iff in Hb as [H1 _]. lia. }
  unfold create_row, save_verified. cbn [fst snd stored anomaly_rows].
  f_equal. f_equal.
  rewrite map_app. cbn [map row_pk]. rewrite Z.eqb_refl. f_equal.
  - rewrite <- (map_id (anomaly_rows t)) at 2. apply map_ext_in. intros row Hrow.
    pose proof (pk_le_max _ _ Hrow) as Hle.
    destruct (row_pk row =? _) eqn:E; [apply Z.eqb_eq in E; lia|reflexivity].
  - unfold verify, next_pk. cbn. rewrite Hid. reflexivity.
Qed.

Lemma fold_max_app (l : list Z) (z : Z) :
  0 <= fold_right Z.max 0 l /\
  fold_right Z.max 0 (l ++ [z]) = Z.max (fold_right Z.max 0 l) (Z.max z 0).
Proof.
  induction l as [|x xs [IH0 IH]]; cbn [app fold_right]; [lia|].
  rewrite IH. lia.
Qed.

Lemma next_pk_app (t : tables) (a : AnomalyRow) :
  row_pk a = next_pk t ->
  next_pk {| stored := stored t; anomaly_rows := anomaly_rows t ++ [a] |}
  = next_pk t + 1.
Proof.
  unfold next_pk. cbn [anomaly_rows]. intros Hpk. rewrite map_app. cbn [map].
  destruct (fold_max_app (map row_pk (anomaly_rows t)) (row_pk a)) as [H0 ->]. lia.
Qed.

Lemma find_app_None {A : Type} (f : A -> bool) (l l' : list A) :
  find f l = None -> find f (l ++ l') = find f l'.
Proof.
  induction l as [|x l IH]; cbn [app find]; [reflexivity|].
  destruct (f x); [discriminate|exact IH].
Qed.

(** X24: marking by transaction id is not idempotent.  When the user
    has no anomaly with key [n] but a transaction with id [n], and [n]
    is not the key the next new row gets, two successive
    [mark_anomaly_reviewed] requests for [n] both succeed and leave two
    new verified rows for the same transaction. *)
Theorem mark_anomaly_reviewed_twice (u n : Z) (t : tables) (transaction : Transaction) :
  get_anomaly n u t = None ->
  get_own_transaction n u t = Some transaction ->
  n <> next_pk t ->
  let first := mark_anomaly_reviewed u (id_number n) t in
  let second := mark_anomaly_reviewed u (id_number n) (snd first) in
  fst first = marked_reviewed /\
  fst second = marked_reviewed /\
  anomaly_rows (snd second)
  = anomaly_rows t ++
    [{| row_pk := next_pk t; row_user := u; row_transaction_id := n;
        row_score := 8 # 10; row_description := manually_reviewed;
        row_is_verified := true |};
     {| row_pk := next_pk t + 1; row_user := u; row_transaction_id := n;
        row_score := 8 # 10; row_description := manually_reviewed;
        row_is_verified := true |}].
Proof.
  intros Ha Htx Hfresh. cbv zeta.
  rewrite (mark_by_transaction u n t transaction Ha Htx). cbn [fst snd].
  split; [reflexivity|].
  set (r1 := {| row_pk := next_pk t; row_user := u; row_transaction_id := n;
                row_score := 8 # 10; row_description := manually_reviewed;
                row_is_verified := true |}).
  set (t1 := {| stored := stored t; anomaly_rows := anomaly_rows t ++ [r1] |}).
  assert (Ha1 : get_anomaly n u t1 = None).
  { unfold get_anomaly, t1. cbn [anomaly_rows].
    rewrite (find_app_None _ _ _ Ha). cbn [find r1 row_pk].
    destruct (next_pk t =? n) eqn:E; [apply Z.eqb_eq in E; congruence|reflexivity]. }
  assert (Htx1 : get_own_transaction n u t1 = Some transaction) by exact Htx.
  rewrite (mark_by_transaction u n t1 transaction Ha1 Htx1). cbn [fst snd anomaly_rows].
  split; [reflexivity|].
  unfold t1 at 2. rewrite (next_pk_app t r1 eq_refl).
  unfold t1. cbn [anomaly_rows]. rewrite <- app_assoc. reflexivity.
Qed.

Lemma verify_verify (a : AnomalyRow) : verify (verify a) = verify a.
Proof. reflexivity. Qed.

Lemma verified_only_pk (u : Z) (old new : AnomalyRow) :
  verified_only u old new ->
  row_pk new = row_pk old /\ row_user new = row_user old /\ verify new = verify old.
Proof. intros [->|[_ ->]]; repeat split. Qed.

Lemma Forall2_verified_refl (u : Z) (rows : list AnomalyRow) :
  Forall2 (verified_only u) rows rows.
Proof. induction rows; constructor; [left; reflexivity|assumption]. Qed.

Lemma Forall2_In_right {A B : Type} (R : A -> B -> Prop) (l : list A) (k : list B)
    (y : B) :
  Forall2 R l k -> In y k -> exists x, In x l /\ R x y.
Proof.
  induction 1 as [|x y' l k Hxy _ IH]; [intros []|].
  intros [->|Hin]; [exists x; split; [left; reflexivity|exact Hxy]|].
  destruct (IH Hin) as (x' & Hx' & Hr). exists x'. split; [right; exact Hx'|exact Hr].
Qed.

(** Saving an object as verified, into rows that came from [rows] by
    verifications, is one more verification. *)
Lemma save_frame (u : Z) (a : AnomalyRow) (rows rows1 : list AnomalyRow) :
  Forall2 (verified_only u) rows rows1 ->
  (forall old, In old rows -> row_pk old = row_pk a ->
     row_user old = u /\ verify a = verify old) ->
  Forall2 (verified_only u) rows
    (map (fun row => if row_pk row =? row_pk a then verify a else row) rows1).
Proof.
  induction 1 as [|old mid rows rows1 Hpair _ IH]; intros Hsame; cbn [map];
    constructor.
  - destruct (verified_only_pk _ _ _ Hpair) as (Hpk & _).
    destruct (row_pk mid =? row_pk a) eqn:E; [|exact Hpair].
    apply Z.eqb_eq in E.
    destruct (Hsame old (or_introl eq_refl) ltac:(congruence)) as (Hu & ->).
    right. split; [exact Hu|reflexivity].
  - apply IH. intros old' Hin. apply Hsame. right. exact Hin.
Qed.

(** The condition of [save_frame] for a row of the current table. *)
Lemma save_frame_current (u : Z) (a : AnomalyRow) (rows rows1 : list AnomalyRow) :
  List.NoDup (map row_pk rows) ->
  Forall2 (verified_only u) rows rows1 ->
  In a rows1 -> row_user a = u ->
  forall old, In old rows -> row_pk old = row_pk a ->
    row_user old = u /\ verify a = verify old.
Proof.
  intros Hnd Hall Hin Hu old Hold Hpk.
  destruct (Forall2_In_right _ _ _ _ Hall Hin) as (old0 & Hold0 & Hrel).
  destruct (verified_only_pk _ _ _ Hrel) as (Hpk0 & Hu0 & Hv0).
  assert (old = old0) by (apply (NoDup_pk_eq rows); [assumption..|congruence]).
  subst old0. split; [congruence|exact Hv0].
Qed.

Lemma verify_similar_frame (u : Z) (rows : list AnomalyRow) :
  List.NoDup (map row_pk rows) ->
  forall (similar : list Transaction) (t : tables) (anomaly_count : nat),
    Forall2 (verified_only u) rows (anomaly_rows t) ->
    let outcome := verify_similar u similar t anomaly_count in
    stored (snd outcome) = stored t /\
    Forall2 (verified_only u) rows (anomaly_rows (snd outcome)) /\
    (forall k, fst outcome = Returned k ->
       (anomaly_count <= k <= anomaly_count + length similar)%nat) /\
    (forall e, fst outcome = Raised e -> e = "MultipleObjectsReturned"%string).
Proof.
  intros Hnd. induction similar as [|tx rest IH]; intros t anomaly_count Hall;
    cbn [verify_similar].
  - cbn [fst snd length]. split; [reflexivity|]. split; [exact Hall|].
    split; [intros k H; injection H as <-; lia|discriminate].
  - destruct (List.filter _ (anomaly_rows t)) as [|a [|b more]] eqn:Hf.
    + destruct (IH t anomaly_count Hall) as (H1 & H2 & H3 & H4).
      split; [exact H1|]. split; [exact H2|]. split; [|exact H4].
      intros k Hk. specialize (H3 k Hk). cbn [length]. lia.
    + assert (Ha : In a (anomaly_rows t) /\ row_user a = u).
      { assert (Hin : In a (List.filter
                             (fun a0 => (row_transaction_id a0 =? id tx)
                                        && (row_user a0 =? u)) (anomaly_rows t))).
        { rewrite Hf. left. reflexivity. }
        apply filter_In in Hin as [Hin Hb]. apply andb_true_iff in Hb as [_ Hu].
        split; [exact Hin|lia]. }
      destruct Ha as [Hin Hu].
      assert (Hall' : Forall2 (verified_only u) rows
                        (anomaly_rows (save_verified a t))).
      { unfold save_verified. cbn [anomaly_rows]. apply save_frame; [exact Hall|].
        apply (save_frame_current u a rows (anomaly_rows t)); assumption. }
      destruct (IH (save_verified a t) (S anomaly_count) Hall') as (H1 & H2 & H3 & H4).
      split; [exact H1|]. split; [exact H2|]. split; [|exact H4].
      intros k Hk. specialize (H3 k Hk). cbn [length]. lia.
    + cbn [fst snd]. split; [reflexivity|]. split; [exact Hall|].
      split; [discriminate|]. intros e H. injection H as <-. reflexivity.
Qed.

End ReviewFacts.

Section SimilarFacts.
Import Models Views Review.
Variable icontains : string -> string -> bool.

(** X25: [ignore_similar_anomalies] for a numeric id [n], anomaly keys
    being distinct.  It never touches the transactions, and all it does
    to the anomaly rows is to verify rows of the requesting user.  It
    reports success only when the user has an anomaly with key [n],
    which is then verified.  When the id is that of a transaction of the
    user instead, the request never succeeds: it ends in an exception
    (the name [anomaly] is unbound, or some similar transaction has
    several anomaly rows), although the anomalies of similar
    transactions may already have been verified. *)
Theorem ignore_similar_anomalies_effect (u n : Z) (t : tables) :
  List.NoDup (map row_pk (anomaly_rows t)) ->
  let outcome := ignore_similar_anomalies icontains u (id_number n) t in
  stored (snd outcome) = stored t /\
  Forall2 (verified_only u) (anomaly_rows t) (anomaly_rows (snd outcome)) /\
  (forall k, fst outcome = ignored k ->
     (1 <= k)%nat /\
     exists a, get_anomaly n u t = Some a /\ In (verify a) (anomaly_rows (snd outcome))) /\
  (forall transaction,
     get_anomaly n u t = None -> get_own_transaction n u t = Some transaction ->
     fst outcome = review_exception "UnboundLocalError" \/
     fst outcome = review_exception "MultipleObjectsReturned") /\
  (get_anomaly n u t = None -> get_own_transaction n u t = None ->
     outcome = (review_error "Transaction not found", t)).
Proof.
  intros Hnd. cbv zeta. unfold ignore_similar_anomalies.
  destruct (get_anomaly n u t) as [a|] eqn:Ha.
  - apply get_anomaly_Some in Ha as (Hin & Hpk & Hu).
    destruct (find _ (stored t)) as [transaction|].
    2:{ cbn [fst snd]. split; [reflexivity|].
        split; [apply Forall2_verified_refl|].
        split; [discriminate|]. split; discriminate. }
    destruct (verify_similar_frame u (anomaly_rows t) Hnd
                (similar_to icontains u transaction t) t 0%nat
                (Forall2_verified_refl u _)) as (H1 & H2 & H3 & H4).
    destruct (verify_similar u (similar_to icontains u transaction t) t 0)
      as [[k|e] t1]; cbn [fst snd] in *.
    + assert (Hfinal : Forall2 (verified_only u) (anomaly_rows t)
                         (anomaly_rows (save_verified a t1))).
      { unfold save_verified. cbn [anomaly_rows]. apply save_frame; [exact H2|].
        intros old Hold Hsame.
        assert (old = a) by (apply (NoDup_pk_eq (anomaly_rows t)); assumption).
        subst old. split; [exact Hu|reflexivity]. }
      split; [exact H1|]. split; [exact Hfinal|].
      split; [|split; discriminate].
      intros k' Hk'. injection Hk' as <-. split; [lia|].
      exists a. split; [reflexivity|].
      unfold save_verified. cbn [anomaly_rows].
      destruct (Forall2_In_left _ _ _ a H2 Hin) as (mid & Hmid & Hrel).
      apply in_map_iff. exists mid. split; [|exact Hmid].
      destruct (verified_only_pk _ _ _ Hrel) as (Hpk' & _).
      rewrite Hpk', Z.eqb_refl. reflexivity.
    + split; [exact H1|]. split; [exact H2|].
      split; [discriminate|]. split; discriminate.
  - destruct (get_own_transaction n u t) as [transaction|] eqn:Htx.
    2:{ cbn [fst snd]. split; [reflexivity|].
        split; [apply Forall2_verified_refl|].
        split; [discriminate|]. split; [discriminate|reflexivity]. }
    destruct (verify_similar_frame u (anomaly_rows t) Hnd
                (similar_to icontains u transaction t) t 0%nat
                (Forall2_verified_refl u _)) as (H1 & H2 & H3 & H4).
    destruct (verify_similar u (similar_to icontains u transaction t) t 0)
      as [[k|e] t1]; cbn [fst snd] in *.
    + split; [exact H1|]. split; [exact H2|]. split; [discriminate|].
      split; [intros _ _ _; left; reflexivity|discriminate].
    + split; [exact H1|]. split; [exact H2|]. split; [discriminate|].
      split; [|discriminate]. intros _ _ _. right. rewrite (H4 e eq_refl). reflexivity.
Qed.

End SimilarFacts.

Lemma mark_anomaly_reviewed_effect_witness :
  fst (Review.mark_anomaly_reviewed 1 (Review.id_number 2) MoreExamples.flagged_bills)
  = Review.marked_reviewed /\
  map Review.row_is_verified
      (Review.anomaly_rows
         (snd (Review.mark_anomaly_reviewed 1 (Review.id_number 2)
                 MoreExamples.flagged_bills)))
  = [false; true].
Proof.
  assert (Hnd : List.NoDup (map Review.row_pk
                              (Review.anomaly_rows MoreExamples.flagged_bills))).
  { vm_compute. repeat (constructor; [simpl; intuition discriminate|]). constructor. }
  destruct (mark_anomaly_reviewed_effect 1 2 MoreExamples.flagged_bills Hnd)
    as (_ & Hfound & _).
  destruct (Hfound _ eq_refl) as (Hok & Hrows).
  split; [exact Hok|]. rewrite Hrows. reflexivity.
Defined.

Lemma mark_anomaly_reviewed_twice_witness :
  map Review.row_transaction_id
      (Review.anomaly_rows
         (snd (Review.mark_anomaly_reviewed 1 (Review.id_number 115)
                 (snd (Review.mark_anomaly_reviewed 1 (Review.id_number 115)
                         MoreExamples.flagged_bills)))))
  = [101; 108; 115; 115].
Proof.
  destruct (mark_anomaly_reviewed_twice 1 115 MoreExamples.flagged_bills
              (Examples.bill 1 15) eq_refl eq_refl ltac:(vm_compute; discriminate))
    as (_ & _ & Hrows).
  rewrite Hrows. reflexivity.
Defined.

Lemma ignore_similar_anomalies_effect_witness :
  fst (Review.ignore_similar_anomalies MoreExamples.ascii_icontains 1
         (Review.id_number 115) MoreExamples.flagged_bills)
  = Review.review_exception "UnboundLocalError" /\
  map Review.row_is_verified
      (Review.anomaly_rows
         (snd (Review.ignore_similar_anomalies MoreExamples.ascii_icontains 1
                 (Review.id_number 115) MoreExamples.flagged_bills)))
  = [true; true] /\
  Review.stored
    (snd (Review.ignore_similar_anomalies MoreExamples.ascii_icontains 1
            (Review.id_number 115) MoreExamples.flagged_bills))
  = Review.stored MoreExamples.flagged_bills.
Proof.
  split; [vm_compute; reflexivity|]. split; [vm_compute; reflexivity|].
  apply (ignore_similar_anomalies_effect MoreExamples.ascii_icontains 1 115
           MoreExamples.flagged_bills).
  vm_compute. repeat (constructor; [simpl; intuition discriminate|]). constructor.
Defined.

Section SettingsFacts.
Import Models Pandas SpendingAnalyzer Views Review.

(** After [get_or_create], the profile returned is the user's stored
    profile. *)
Lemma get_or_create_profile_found (u : Z) (d : database) :
  let profile := fst (get_or_create_profile u d) in
  let d' := snd (get_or_create_profile u d) in
  find (fun p => profile_user p =? u) (profiles d') = Some profile /\
  profile_user profile = u /\
  (forall v, v <> u ->
     find (fun p => profile_user p =? v) (profiles d')
     = find (fun p => profile_user p =? v) (profiles d)).
Proof.
  cbv zeta. unfold get_or_create_profile.
  destruct (find _ (profiles d)) as [p|] eqn:Hfind; cbn [fst snd profiles].
  - split; [exact Hfind|]. split; [|reflexivity].
    apply find_some in Hfind as [_ Hu]. lia.
  - split; [|split; [reflexivity|]].
    + rewrite (find_app_None _ _ _ Hfind). cbn [find default_profile profile_user].
      rewrite Z.eqb_refl. reflexivity.
    + intros v Hv.
      induction (profiles d) as [|p ps IH]; cbn [app find default_profile profile_user].
      * destruct (u =? v) eqn:E; [apply Z.eqb_eq in E; congruence|reflexivity].
      * cbn [find] in Hfind. destruct (profile_user p =? u); [discriminate|].
        destruct (profile_user p =? v); [reflexivity|]. apply IH. exact Hfind.
Qed.

(** After [profile.save()], the stored profile of the user is the
    object saved, and the profiles of the other users are as before. *)
Lemma save_profile_found (profile before : UserProfile) (d : database) :
  find (fun p => profile_user p =? profile_user profile) (profiles d) = Some before ->
  find (fun p => profile_user p =? profile_user profile)
       (profiles (save_profile profile d)) = Some profile /\
  (forall v, v <> profile_user profile ->
     find (fun p => profile_user p =? v) (profiles (save_profile profile d))
     = find (fun p => profile_user p =? v) (profiles d)).
Proof.
  unfold save_profile. cbn [profiles].
  induction (profiles d) as [|p ps IH]; cbn [map find]; [discriminate|].
  destruct (profile_user p =? profile_user profile) eqn:E.
  - intros _. rewrite Z.eqb_refl. split; [reflexivity|].
    intros v Hv. apply Z.eqb_eq in E.
    assert (E1 : (profile_user profile =? v) = false) by (apply Z.eqb_neq; congruence).
    assert (E2 : (profile_user p =? v) = false) by (apply Z.eqb_neq; congruence).
    rewrite E1, E2. clear IH.
    induction ps as [|q qs IHq]; cbn [map find]; [reflexivity|].
    destruct (profile_user q =? profile_user profile) eqn:Eq.
    + apply Z.eqb_eq in Eq.
      assert (E3 : (profile_user q =? v) = false) by (apply Z.eqb_neq; congruence).
      rewrite E1, E3. exact IHq.
    + destruct (profile_user q =? v); [reflexivity|exact IHq].
  - intros H. destruct (IH H) as [IH1 IH2]. rewrite E. split; [exact IH1|].
    intros v Hv. destruct (profile_user p =? v); [reflexivity|]. apply IH2. exact Hv.
Qed.

Lemma get_or_create_profile_stored (u : Z) (d : database) (profile : UserProfile) :
  find (fun p => profile_user p =? u) (profiles d) = Some profile ->
  get_or_create_profile u d = (profile, d).
Proof. unfold get_or_create_profile. intros ->. reflexivity. Qed.

Ltac settings_valid H :=
  let H1 := fresh in let H2 := fresh in let H3 := fresh in let H4 := fresh in
  destruct H as (H1 & H2 & H3 & H4);
  split; [exact H1|]; split; [exact H2|]; split; [exact H3|];
  split; [intros _ _; split; [reflexivity|exact H4]
         |let E := fresh in intros [E|E]; discriminate E].

Ltac settings_invalid I1 I2 I3 I4 :=
  split; [exact I1|]; split; [exact I2|]; split; [exact I3|];
  split; [let Hs := fresh in let Hm := fresh in intros Hs Hm; congruence
         |intros _; split; [reflexivity|exact I4]].

(** X26: an AJAX POST to [update_anomaly_settings] whose two numbers
    parse stores them in the user's profile, creating it first when
    there is none: afterwards the profile that [get_or_create] finds
    holds the posted sensitivity and minimum amount (1 and 100 for a
    parameter that is absent) and the switches the profile had before;
    the profiles of the other users, and the transaction, category,
    budget and anomaly tables, are as before.  When a number does not
    parse, the answer is an error and no setting changes. *)
Theorem update_anomaly_settings_stored (sensitivity min_amount : float_param)
    (u : Z) (d : database) :
  let outcome := update_anomaly_settings POST true sensitivity min_amount u d in
  let before := fst (get_or_create_profile u d) in
  let posted (p : float_param) (preset : Q) :=
    match p with float_text q => q | _ => preset end in
  same_records d (snd outcome) /\
  anomalies (snd outcome) = anomalies d /\
  (forall v, v <> u ->
     find (fun p => profile_user p =? v) (profiles (snd outcome))
     = find (fun p => profile_user p =? v) (profiles d)) /\
  (sensitivity <> float_invalid -> min_amount <> float_invalid ->
     fst outcome = settings_updated /\
     get_or_create_profile u (snd outcome)
     = ({| profile_user := u;
           enable_ai_insights := enable_ai_insights before;
           enable_ai_categorization := enable_ai_categorization before;
           anomaly_detection_sensitivity := posted sensitivity 1%Q;
           anomaly_min_amount := posted min_amount 100%Q |},
        snd outcome)) /\
  (sensitivity = float_invalid \/ min_amount = float_invalid ->
     fst outcome = settings_error "ValueError" /\
     get_or_create_profile u (snd outcome) = (before, snd outcome)).
Proof.
  cbv zeta. unfold update_anomaly_settings. cbn [negb].
  destruct (get_or_create_profile_records u d) as (Hsame & Hanom).
  destruct (get_or_create_profile_found u d) as (Hfound & Huser & Hothers).
  destruct (get_or_create_profile u d) as [profile d1]. cbn [fst snd] in *.
  set (saved := fun s m =>
         {| profile_user := profile_user profile;
            enable_ai_insights := enable_ai_insights profile;
            enable_ai_categorization := enable_ai_categorization profile;
            anomaly_detection_sensitivity := s; anomaly_min_amount := m |}).
  assert (Hvalid : forall s m,
            same_records d (save_profile (saved s m) d1) /\
            anomalies (save_profile (saved s m) d1) = anomalies d /\
            (forall v, v <> u ->
               find (fun p => profile_user p =? v)
                    (profiles (save_profile (saved s m) d1))
               = find (fun p => profile_user p =? v) (profiles d)) /\
            get_or_create_profile u (save_profile (saved s m) d1)
            = ({| profile_user := u;
                  enable_ai_insights := enable_ai_insights profile;
                  enable_ai_categorization := enable_ai_categorization profile;
                  anomaly_detection_sensitivity := s; anomaly_min_amount := m |},
               save_profile (saved s m) d1)).
  { intros s m.
    assert (Hu : profile_user (saved s m) = u) by exact Huser.
    destruct (save_profile_found (saved s m) profile d1) as (Hnew & Hrest).
    { rewrite Hu. exact Hfound. }
    rewrite Hu in Hnew, Hrest.
    split; [exact Hsame|]. split; [exact Hanom|]. split.
    - intros v Hv. rewrite (Hrest v Hv). apply Hothers. exact Hv.
    - rewrite (get_or_create_profile_stored _ _ _ Hnew). unfold saved.
      rewrite Huser. reflexivity. }
  assert (Hinvalid :
            same_records d d1 /\ anomalies d1 = anomalies d /\
            (forall v, v <> u ->
               find (fun p => profile_user p =? v) (profiles d1)
               = find (fun p => profile_user p =? v) (profiles d)) /\
            get_or_create_profile u d1 = (profile, d1)).
  { split; [exact Hsame|]. split; [exact Hanom|]. split; [exact Hothers|].
    apply get_or_create_profile_stored. exact Hfound. }
  destruct Hinvalid as (I1 & I2 & I3 & I4).
  destruct sensitivity as [|s|], min_amount as [|m|]; cbn [fst snd].
  - settings_valid (Hvalid 1%Q 100%Q).
  - settings_valid (Hvalid 1%Q m).
  - settings_invalid I1 I2 I3 I4.
  - settings_valid (Hvalid s 100%Q).
  - settings_valid (Hvalid s m).
  - settings_invalid I1 I2 I3 I4.
  - settings_invalid I1 I2 I3 I4.
  - settings_invalid I1 I2 I3 I4.
  - settings_invalid I1 I2 I3 I4.
Qed.

(** What an AJAX POST leaves of the tables and of the user's AI
    insights switch. *)
Lemma update_anomaly_settings_flags (sensitivity min_amount : float_param)
    (u : Z) (d : database) :
  let d' := snd (update_anomaly_settings POST true sensitivity min_amount u d) in
  transactions d' = transactions d /\
  anomalies d' = anomalies d /\
  enable_ai_insights (fst (get_or_create_profile u d'))
  = enable_ai_insights (fst (get_or_create_profile u d)).
Proof.
  cbv zeta. unfold update_anomaly_settings. cbn [negb].
  destruct (get_or_create_profile_records u d) as ((Htx & _) & Hanom).
  destruct (get_or_create_profile_found u d) as (Hfound & Huser & _).
  destruct (get_or_create_profile u d) as [profile d1]. cbn [fst snd] in *.
  assert (Hvalid : forall s m,
            let saved :=
              {| profile_user := profile_user profile;
                 enable_ai_insights := enable_ai_insights profile;
                 enable_ai_categorization := enable_ai_categorization profile;
                 anomaly_detection_sensitivity := s; anomaly_min_amount := m |} in
            transactions (save_profile saved d1) = transactions d /\
            anomalies (save_profile saved d1) = anomalies d /\
            enable_ai_insights (fst (get_or_create_profile u (save_profile saved d1)))
            = enable_ai_insights profile).
  { intros s m saved.
    destruct (save_profile_found saved profile d1) as (Hnew & _).
    { unfold saved at 1. cbn [profile_user]. rewrite Huser. exact Hfound. }
    unfold saved at 1 in Hnew. cbn [profile_user] in Hnew. rewrite Huser in Hnew.
    rewrite (get_or_create_profile_stored _ _ _ Hnew).
    split; [exact Htx|]. split; [exact Hanom|reflexivity]. }
  assert (Hinvalid : transactions d1 = transactions d /\
                     anomalies d1 = anomalies d /\
                     enable_ai_insights (fst (get_or_create_profile u d1))
                     = enable_ai_insights profile).
  { rewrite (get_or_create_profile_stored _ _ _ Hfound).
    split; [exact Htx|]. split; [exact Hanom|reflexivity]. }
  destruct sensitivity as [|s|], min_amount as [|m|]; cbn [fst snd];
    first [exact Hinvalid|apply Hvalid].
Qed.

Variable fit_predict : Q -> list (Q * option nat) -> result (list Z).

Lemma build_anomalies_ext (u : Z) (d d' : database) (period : list Transaction)
    (existing : list SpendingAnomaly) :
  transactions d = transactions d' ->
  forall (anomaly_results : list anomaly_info) (acc : list Anomaly),
    build_anomalies u d period existing anomaly_results acc
    = build_anomalies u d' period existing anomaly_results acc.
Proof.
  intros Htx. induction anomaly_results as [|info rest IH]; intros acc;
    cbn [build_anomalies]; [reflexivity|].
  unfold get_transaction. rewrite Htx.
  destruct (find _ (transactions d')) as [tx|]; [|apply IH].
  destruct (find _ existing) as [ex|];
    (destruct (determine_anomaly_type tx period) as [[ty why]|e];
     [apply IH|reflexivity]).
Qed.

(** The page of [anomaly_detection] depends on the database through
    the transactions, the anomalies and the user's AI insights switch
    only. *)
Lemma anomaly_detection_page_ext (today : date) (u : Z) (status : string)
    (timeframe : timeframe_param) (page : Z) (w w' : world) :
  transactions (db w) = transactions (db w') ->
  anomalies (db w) = anomalies (db w') ->
  enable_ai_insights (fst (get_or_create_profile u (db w)))
  = enable_ai_insights (fst (get_or_create_profile u (db w'))) ->
  fst (anomaly_detection fit_predict today u status timeframe page w)
  = fst (anomaly_detection fit_predict today u status timeframe page w').
Proof.
  intros Htx Han Hflag. unfold anomaly_detection.
  assert (Hperiod : period_transactions today u timeframe (db w)
                    = period_transactions today u timeframe (db w')).
  { unfold period_transactions. rewrite Htx. reflexivity. }
  rewrite Hperiod.
  destruct (get_or_create_profile_records u (db w)) as ((Ht1 & _) & Ha1).
  destruct (get_or_create_profile_records u (db w')) as ((Ht2 & _) & Ha2).
  destruct (get_or_create_profile u (db w)) as [profile d].
  destruct (get_or_create_profile u (db w')) as [profile' d'].
  cbn [fst snd] in *. rewrite Hflag.
  destruct (negb (enable_ai_insights profile')); [reflexivity|].
  cbn [SpendingAnalyzer.__init__].
  assert (Hd : transactions d = transactions d') by congruence.
  assert (Ha : anomalies d = anomalies d') by congruence.
  rewrite (build_anomalies_ext u d d' _ _ Hd), Ha.
  destruct (build_anomalies u d' _ _ _ []) as [built|e]; reflexivity.
Qed.

(** X27: the settings stored by [update_anomaly_settings] do not reach
    the detector: whatever sensitivity and minimum amount a user posts,
    and whether or not the request succeeds, the [anomaly_detection]
    page of that user is the one shown without the request. *)
Theorem anomaly_settings_not_used (today : date) (u : Z) (status : string)
    (timeframe : timeframe_param) (page : Z) (w : world)
    (method : http_method) (ajax : bool) (sensitivity min_amount : float_param) :
  let d' := snd (update_anomaly_settings method ajax sensitivity min_amount u (db w)) in
  fst (anomaly_detection fit_predict today u status timeframe page (with_db w d'))
  = fst (anomaly_detection fit_predict today u status timeframe page w).
Proof.
  cbv zeta.
  destruct method; [reflexivity|]. destruct ajax; [|reflexivity].
  destruct (update_anomaly_settings_flags sensitivity min_amount u (db w))
    as (Htx & Han & Hflag).
  apply anomaly_detection_page_ext; cbn [with_db db]; assumption.
Qed.

End SettingsFacts.

Section GoalFacts.
Import Models Pandas Views Goals.








End GoalFacts.

Lemma get_spending_insights_outcome_witness :
  (exists insights,
     Endpoints.get_spending_insights Examples.may_31 Examples.may_31 1 "all"
       (Views.db Examples.bills_world)
     = Returned insights) /\
  Endpoints.get_spending_insights Examples.may_31 Examples.may_31 1 "30days"
    (Views.db Examples.bills_world)
  = Returned [].
Proof.
  split.
  - apply (get_spending_insights_outcome Examples.may_31 Examples.may_31 1 "all"
             (Views.db Examples.bills_world)).
    vm_compute. repeat (constructor; [discriminate|]). constructor.
  - apply (get_spending_insights_outcome Examples.may_31 Examples.may_31 1 "30days"
             (Views.db Examples.bills_world)).
    vm_compute. lia.
Defined.

Lemma get_budget_recommendations_own_rows_witness :
  exists answer,
    fst (Endpoints.get_budget_recommendations 1 MoreExamples.grocery_world)
    = Endpoints.recommendations_of answer /\
    map BudgetAnalyzer.rec_category (BudgetAnalyzer.recommendations answer)
    = ["Food"%string] /\
    Views.same_records (Views.db MoreExamples.grocery_world)
      (Views.db (snd (Endpoints.get_budget_recommendations 1
                        MoreExamples.grocery_world))).
Proof.
  eexists. split; [vm_compute; reflexivity|]. split; [vm_compute; reflexivity|].
  apply (get_budget_recommendations_own_rows 1 MoreExamples.grocery_world).
Defined.

Lemma budget_endpoint_spent_witness :
  exists m,
    Endpoints.analyze_budget_performance MoreExamples.open_ended Examples.jan_10 1 7
      (Views.db MoreExamples.grocery_world)
    = Endpoints.performance_of (BudgetAnalyzer.performance_success m) /\
    (BudgetAnalyzer.spent m == 1500)%Q /\
    Endpoints.analyze_budget_performance MoreExamples.open_ended Examples.jan_10 2 7
      (Views.db MoreExamples.grocery_world)
    = Endpoints.budget_not_found.
Proof.
  eexists. split; [vm_compute; reflexivity|]. split; [vm_compute; reflexivity|].
  apply (budget_endpoint_spent MoreExamples.open_ended Examples.jan_10 2 7
           (Views.db MoreExamples.grocery_world)).
  intros b [<-|[]] _. vm_compute. discriminate.
Defined.

Lemma update_anomaly_settings_stored_witness :
  fst (Views.get_or_create_profile 1
         (snd (Review.update_anomaly_settings Review.POST true
                 (Review.float_text 2%Q) Review.float_absent 1
                 Examples.empty_database)))
  = {| Models.profile_user := 1; Models.enable_ai_insights := true;
       Models.enable_ai_categorization := true;
       Models.anomaly_detection_sensitivity := 2%Q;
       Models.anomaly_min_amount := 100%Q |}.
Proof.
  destruct (update_anomaly_settings_stored (Review.float_text 2%Q) Review.float_absent
              1 Examples.empty_database) as (_ & _ & _ & Hvalid & _).
  destruct Hvalid as (_ & Hprofile); [discriminate|discriminate|].
  rewrite Hprofile. reflexivity.
Defined.

Lemma anomaly_settings_not_used_witness :
  fst (Views.anomaly_detection Examples.flag_all Examples.may_31 1 "all"
         Views.timeframe_all 1
         (Views.with_db Examples.bills_world
            (snd (Review.update_anomaly_settings Review.POST true
                    (Review.float_text 0%Q) (Review.float_text 100000%Q) 1
                    (Views.db Examples.bills_world)))))
  = fst (Views.anomaly_detection Examples.flag_all Examples.may_31 1 "all"
           Views.timeframe_all 1 Examples.bills_world).
Proof.
  apply (anomaly_settings_not_used Examples.flag_all Examples.may_31 1 "all"
           Views.timeframe_all 1 Examples.bills_world Review.POST true
           (Review.float_text 0%Q) (Review.float_text 100000%Q)).
Defined.



